(** * PluginLoader: a shallow embedding of the factory registry, the loader
      life cycle and the multi-library aggregator.

    The development follows the C++ sources file by file.  Calls are
    sequential: the recursive mutexes of the sources are taken and released
    without any effect on a single thread, so they do not appear here.  The
    mutable globals of [plugin_loader_core.hpp] and the private fields of
    the classes are threaded explicitly through a state-and-exception monad. *)

From Stdlib Require Import ZArith String Ascii OrderedTypeEx.
From stdpp Require Import gmap strings list sorting.

Local Open Scope Z_scope.
Local Open Scope string_scope.

(** ** Exceptions ([exceptions.hpp]) *)

Inductive Exception : Type :=
| PluginLoaderException (error_desc : string)
| LibraryLoadException (error_desc : string)
| LibraryUnloadException (error_desc : string)
| CreateClassException (error_desc : string)
| NoPluginLoaderExistsException (error_desc : string).

(** [std::runtime_error::what]. *)
Definition what (e : Exception) : string :=
  match e with
  | PluginLoaderException d | LibraryLoadException d | LibraryUnloadException d
  | CreateClassException d | NoPluginLoaderExistsException d => d
  end.

(** Whether [needle] occurs in [haystack]. *)
Definition contains (haystack needle : string) : bool :=
  match String.index 0 needle haystack with
  | Some _ => true
  | None => false
  end.

(** ** Outcomes and the execution monad

    A call returns, throws one of the exceptions above, or ends the process
    ([assert] failure, [std::terminate], a call through a pointer that is
    not live).  State changes made before a throw are kept. *)

Inductive Outcome (A : Type) : Type :=
| Return (a : A)
| Throw (e : Exception)
| Crash (why : string).
Arguments Return {A} a.
Arguments Throw {A} e.
Arguments Crash {A} why.

Definition Exec (S A : Type) : Type := S → Outcome A * S.

Definition ret {S A} (a : A) : Exec S A := λ s, (Return a, s).

Definition bind {S A B} (m : Exec S A) (k : A → Exec S B) : Exec S B :=
  λ s, match m s with
       | (Return a, s') => k a s'
       | (Throw e, s') => (Throw e, s')
       | (Crash w, s') => (Crash w, s')
       end.

Definition throw {S A} (e : Exception) : Exec S A := λ s, (Throw e, s).
Definition crash {S A} (w : string) : Exec S A := λ s, (Crash w, s).
Definition gets {S A} (f : S → A) : Exec S A := λ s, (Return (f s), s).
Definition modify {S} (f : S → S) : Exec S unit := λ s, (Return tt, f s).
Definition when {S} (b : bool) (m : Exec S unit) : Exec S unit :=
  if b then m else ret tt.

(** [assert(cond)] of <assert.h>. *)
Definition assert {S} (cond : bool) (text : string) : Exec S unit :=
  if cond then ret tt else crash ("Assertion failed: " +:+ text).

(** Runs [m] on a component of the state selected by [proj], writing the
    component back with [upd]. *)
Definition zoom {S T A} (proj : S → T) (upd : T → S → S) (m : Exec T A) : Exec S A :=
  λ s, let '(r, t) := m (proj s) in (r, upd t s).

Declare Scope exec_scope.
Delimit Scope exec_scope with exec.
Notation "x <- m ;; k" := (bind m (λ x, k))
  (at level 100, m at next level, right associativity) : exec_scope.
Notation "m ;; k" := (bind m (λ _, k))
  (at level 100, right associativity) : exec_scope.
Local Open Scope exec_scope.

(** ** Pointers and C [int] *)

(** The address of a [PluginLoader]; only its identity is used. *)
Definition PluginLoaderPtr : Type := nat.
Definition nullptr : PluginLoaderPtr := 0%nat.

Definition INT_MAX : Z := 2 ^ 31 - 1.
Definition INT_MIN : Z := - 2 ^ 31.

(** Two's complement wrap-around of a 32-bit [int]. *)
Definition int_wrap (z : Z) : Z := (z + 2 ^ 31) mod 2 ^ 32 - 2 ^ 31.

(** ** Console ([console.h], not among the sources)

    Modelled from the spec: logging is an external collaborator; a call to
    [logDebug], [logInform], [logWarn] or [logError] is recorded as a line
    with its level and the text that identifies the call site. *)

Inductive LogLevel : Type := CONSOLE_LOG_DEBUG | CONSOLE_LOG_INFO | CONSOLE_LOG_WARN | CONSOLE_LOG_ERROR.

Record LogLine : Type := mkLogLine { log_level : LogLevel; log_text : string }.

Global Instance LogLevel_eq_dec : EqDecision LogLevel.
Proof. solve_decision. Defined.
Global Instance LogLine_eq_dec : EqDecision LogLine.
Proof. solve_decision. Defined.

(** ** Factories ([meta_object.hpp], not among the sources) *)

(** A plugin instance: the dynamic type of the object and the library whose
    code constructed it. *)
Record Object : Type := mkObject { obj_derived : string; obj_library : string }.

Global Instance Object_eq_dec : EqDecision Object.
Proof. solve_decision. Defined.

(** Modelled from the spec: [meta_object.hpp] is missing; the Factory of
    the data model owns the derived-type name, the base capability, the
    path of the contributing library and the owning loaders.  The owners are
    kept as the pointers handed to [addOwningPluginLoader]; [registerPlugin]
    hands it a null pointer when no loader is active, and the sources test
    for a factory without owner with [isOwnedBy(nullptr)].
    [typeid_base_] is the [Base] argument of [AbstractMetaObject<Base>],
    [typeid_derived_] the [Derived] argument of [MetaObject<Derived, Base>]. *)
Record MetaObject : Type := mkMetaObject {
  class_name_ : string;
  base_class_name_ : string;
  typeid_base_ : string;
  typeid_derived_ : string;
  associated_library_path_ : string;
  associated_class_loaders_ : list PluginLoaderPtr
}.

Global Instance MetaObject_eq_dec : EqDecision MetaObject.
Proof. solve_decision. Defined.

Module AbstractMetaObjectBase.

(** Modelled from the spec: the constructor of [MetaObject<Derived, Base>]. *)
Definition new (Derived Base class_name base_class_name : string) : MetaObject :=
  {| class_name_ := class_name;
     base_class_name_ := base_class_name;
     typeid_base_ := Base;
     typeid_derived_ := Derived;
     associated_library_path_ := "";
     associated_class_loaders_ := [] |}.

(** Modelled from the spec: membership in the owning loaders. *)
Definition isOwnedBy (f : MetaObject) (loader : PluginLoaderPtr) : bool :=
  bool_decide (loader ∈ associated_class_loaders_ f).

(** Modelled from the spec: the owners are a set, so a loader is added once. *)
Definition addOwningPluginLoader (loader : PluginLoaderPtr) (f : MetaObject) : MetaObject :=
  if isOwnedBy f loader then f
  else {| class_name_ := class_name_ f;
          base_class_name_ := base_class_name_ f;
          typeid_base_ := typeid_base_ f;
          typeid_derived_ := typeid_derived_ f;
          associated_library_path_ := associated_library_path_ f;
          associated_class_loaders_ := associated_class_loaders_ f ++ [loader] |}.

(** Modelled from the spec: the contributing path of the Factory is set. *)
Definition setAssociatedLibraryPath (library_path : string) (f : MetaObject) : MetaObject :=
  {| class_name_ := class_name_ f;
     base_class_name_ := base_class_name_ f;
     typeid_base_ := typeid_base_ f;
     typeid_derived_ := typeid_derived_ f;
     associated_library_path_ := library_path;
     associated_class_loaders_ := associated_class_loaders_ f |}.

(** Modelled from the spec: the construction thunk, [new Derived]; it never
    yields a null pointer. *)
Definition create (f : MetaObject) : option Object :=
  Some {| obj_derived := typeid_derived_ f; obj_library := associated_library_path_ f |}.

(** [dynamic_cast<AbstractMetaObject<Base> *>(f)] on a pointer taken from a
    [FactoryMap]: null unless the factory was made for [Base]. *)
Definition dynamic_cast (Base : string) (f : option MetaObject) : option MetaObject :=
  match f with
  | Some m => if decide (typeid_base_ m = Base) then Some m else None
  | None => None
  end.

End AbstractMetaObjectBase.

(** ** [std::map<std::string, V>]

    A [gmap] holds the bindings; iteration visits them in ascending key
    order, the order of [std::less<std::string>] (bytes compared as
    unsigned values, a proper prefix first). *)

Definition string_le (a b : string) : Prop := String.leb a b = true.

Global Instance string_le_dec : RelDecision string_le.
Proof. intros a b. unfold string_le. apply _. Defined.

Definition string_lt (a b : string) : Prop := String.ltb a b = true.

Definition key_le {V} (x y : string * V) : Prop := string_le x.1 y.1.

Global Instance key_le_dec {V} : RelDecision (@key_le V).
Proof. intros x y. unfold key_le. apply _. Defined.

Definition std_map_items {V} (m : gmap string V) : list (string * V) :=
  merge_sort key_le (map_to_list m).

(** ** The shared-library handle ([shared_library_UNIX.cpp])

    The class is declared in [shared_library.hpp], which is not among the
    sources; its two data members are those the member functions use. *)

Module SharedLibrary.

Record t : Type := mk { _handle : Z; _path : string }.

(** [SharedLibrary::SharedLibrary()]. *)
Definition new : t := {| _handle := 0; _path := "" |}.

Definition isLoaded (lib : t) : bool := negb (_handle lib =? 0)%Z.

Definition getPath (lib : t) : string := _path lib.

End SharedLibrary.

(** ** Global storage ([plugin_loader_core.hpp]) *)

Record Registry : Type := mkRegistry {
  (** [getGlobalPluginBaseToFactoryMapMap()] *)
  BaseToFactoryMapMap : gmap string (gmap string MetaObject);
  (** [getLoadedLibraryVector()] *)
  LoadedLibraryVector : list (string * SharedLibrary.t);
  (** [getMetaObjectGraveyard()] *)
  MetaObjectGraveyard : list MetaObject;
  (** [getCurrentlyLoadingLibraryNameReference()] *)
  CurrentlyLoadingLibraryName : string;
  (** [getCurrentlyActivePluginLoaderReference()] *)
  CurrentlyActivePluginLoader : PluginLoaderPtr;
  (** [hasANonPurePluginLibraryBeenOpenedReference()] *)
  NonPurePluginLibraryBeenOpened : bool
}.

(** The registry, the static flag of [PluginLoader] and the console. *)
Record Globals : Type := mkGlobals {
  registry : Registry;
  has_unmananged_instance_been_created_ : bool;
  console : list LogLine
}.

(** The state of a fresh process: the function-local statics of
    [plugin_loader_core.hpp] and the static member of [plugin_loader.cpp]. *)
Definition initial_registry : Registry :=
  {| BaseToFactoryMapMap := ∅;
     LoadedLibraryVector := [];
     MetaObjectGraveyard := [];
     CurrentlyLoadingLibraryName := "";
     CurrentlyActivePluginLoader := nullptr;
     NonPurePluginLibraryBeenOpened := false |}.

Definition initial_globals : Globals :=
  {| registry := initial_registry;
     has_unmananged_instance_been_created_ := false;
     console := [] |}.

Definition set_registry (r : Registry) (g : Globals) : Globals :=
  {| registry := r;
     has_unmananged_instance_been_created_ := has_unmananged_instance_been_created_ g;
     console := console g |}.

(** The globals after one more line on the console. *)
Definition add_log (level : LogLevel) (text : string) (g : Globals) : Globals :=
  {| registry := registry g;
     has_unmananged_instance_been_created_ := has_unmananged_instance_been_created_ g;
     console := console g ++ [mkLogLine level text] |}.

Definition log (level : LogLevel) (text : string) : Exec Globals unit :=
  modify (add_log level text).

Definition logDebug : string → Exec Globals unit := log CONSOLE_LOG_DEBUG.
Definition logInform : string → Exec Globals unit := log CONSOLE_LOG_INFO.
Definition logWarn : string → Exec Globals unit := log CONSOLE_LOG_WARN.
Definition logError : string → Exec Globals unit := log CONSOLE_LOG_ERROR.

(** Runs a registry operation inside the globals. *)
Definition on_registry {A} (m : Exec Registry A) : Exec Globals A :=
  zoom registry set_registry m.

Module impl.

(** *** Accessors declared in [plugin_loader_core.hpp]

    Their definitions are in [plugin_loader_core.cpp], which is missing;
    each reads or writes the static behind the [...Reference()] function of
    the header. *)

(** Modelled from the spec: the getter of [current_load_path] (§3). *)
Definition getCurrentlyLoadingLibraryName : Exec Registry string :=
  gets CurrentlyLoadingLibraryName.

(** Modelled from the spec: the setter of [current_load_path], one half of
    [enter_load] and [exit_load] (§4.2). *)
Definition setCurrentlyLoadingLibraryName (library_name : string) : Exec Registry unit :=
  modify (λ r, {| BaseToFactoryMapMap := BaseToFactoryMapMap r;
                  LoadedLibraryVector := LoadedLibraryVector r;
                  MetaObjectGraveyard := MetaObjectGraveyard r;
                  CurrentlyLoadingLibraryName := library_name;
                  CurrentlyActivePluginLoader := CurrentlyActivePluginLoader r;
                  NonPurePluginLibraryBeenOpened := NonPurePluginLibraryBeenOpened r |}).

(** Modelled from the spec: the getter of [current_load_loader] (§3). *)
Definition getCurrentlyActivePluginLoader : Exec Registry PluginLoaderPtr :=
  gets CurrentlyActivePluginLoader.

(** Modelled from the spec: the setter of [current_load_loader], the other
    half of [enter_load] and [exit_load] (§4.2). *)
Definition setCurrentlyActivePluginLoader (loader : PluginLoaderPtr) : Exec Registry unit :=
  modify (λ r, {| BaseToFactoryMapMap := BaseToFactoryMapMap r;
                  LoadedLibraryVector := LoadedLibraryVector r;
                  MetaObjectGraveyard := MetaObjectGraveyard r;
                  CurrentlyLoadingLibraryName := CurrentlyLoadingLibraryName r;
                  CurrentlyActivePluginLoader := loader;
                  NonPurePluginLibraryBeenOpened := NonPurePluginLibraryBeenOpened r |}).

(** Modelled from the spec: the getter of [non_pure_opened] (§3). *)
Definition hasANonPurePluginLibraryBeenOpened : Exec Registry bool :=
  gets NonPurePluginLibraryBeenOpened.

(** Modelled from the spec: [hasANonPurePluginLibraryBeenOpened(hasIt)], the
    setter of [non_pure_opened]; the sources call it with [true] only. *)
Definition set_hasANonPurePluginLibraryBeenOpened (hasIt : bool) : Exec Registry unit :=
  modify (λ r, {| BaseToFactoryMapMap := BaseToFactoryMapMap r;
                  LoadedLibraryVector := LoadedLibraryVector r;
                  MetaObjectGraveyard := MetaObjectGraveyard r;
                  CurrentlyLoadingLibraryName := CurrentlyLoadingLibraryName r;
                  CurrentlyActivePluginLoader := CurrentlyActivePluginLoader r;
                  NonPurePluginLibraryBeenOpened := hasIt |}).

(** Modelled from the spec: [getFactoryMapForBaseClass(typeid_base_class_name)],
    the entry of [factories] for a base (§3), read through: the map of a
    base that has no entry yet is empty. *)
Definition getFactoryMapForBaseClass (Base : string) (r : Registry) : gmap string MetaObject :=
  default ∅ (BaseToFactoryMapMap r !! Base).

(** [factoryMap[class_name] = new_factory] through the reference returned by
    [getFactoryMapForBaseClass<Base>()]. *)
Definition set_factory (Base class_name : string) (new_factory : MetaObject) : Exec Registry unit :=
  modify (λ r, {| BaseToFactoryMapMap :=
                    <[Base := <[class_name := new_factory]> (getFactoryMapForBaseClass Base r)]>
                      (BaseToFactoryMapMap r);
                  LoadedLibraryVector := LoadedLibraryVector r;
                  MetaObjectGraveyard := MetaObjectGraveyard r;
                  CurrentlyLoadingLibraryName := CurrentlyLoadingLibraryName r;
                  CurrentlyActivePluginLoader := CurrentlyActivePluginLoader r;
                  NonPurePluginLibraryBeenOpened := NonPurePluginLibraryBeenOpened r |}).

Definition msg_registering (class_name : string) : string :=
  "plugin_loader.impl: Registering plugin factory for class = " +:+ class_name.
Definition msg_non_pure_alert : string :=
  "plugin_loader.impl: ALERT!!! A library containing plugins has been opened through a means other than through the plugin_loader or pluginlib package.".
Definition msg_collision (class_name : string) : string :=
  "plugin_loader.impl: SEVERE WARNING!!! A namespace collision has occured with plugin factory for class " +:+ class_name +:+ ". New factory will OVERWRITE existing one.".
Definition msg_registered (class_name : string) : string :=
  "plugin_loader.impl: Registration of " +:+ class_name +:+ " complete".

(** The factory [registerPlugin] builds in the registry state [r]. *)
Definition new_factory_for (Derived Base class_name base_class_name : string) (r : Registry) : MetaObject :=
  AbstractMetaObjectBase.setAssociatedLibraryPath (CurrentlyLoadingLibraryName r)
    (AbstractMetaObjectBase.addOwningPluginLoader (CurrentlyActivePluginLoader r)
       (AbstractMetaObjectBase.new Derived Base class_name base_class_name)).

(** [registerPlugin<Derived, Base>(class_name, base_class_name)]. *)
Definition registerPlugin (Derived Base class_name base_class_name : string) : Exec Globals unit :=
  logDebug (msg_registering class_name);;
  active <- on_registry getCurrentlyActivePluginLoader;;
  when (bool_decide (nullptr = active))
    (logDebug msg_non_pure_alert;;
     on_registry (set_hasANonPurePluginLibraryBeenOpened true));;
  (* Create factory *)
  new_factory <- on_registry (gets (new_factory_for Derived Base class_name base_class_name));;
  (* Add it to global factory map map *)
  factoryMap <- on_registry (gets (getFactoryMapForBaseClass Base));;
  when (bool_decide (is_Some (factoryMap !! class_name)))
    (logWarn (msg_collision class_name));;
  on_registry (set_factory Base class_name new_factory);;
  logDebug (msg_registered class_name).

Definition msg_no_metaobject (derived_class_name : string) : string :=
  "plugin_loader.impl: No metaobject exists for class type " +:+ derived_class_name +:+ ".".
Definition msg_no_owner_alert : string :=
  "plugin_loader.impl: ALERT!!! A metaobject (i.e. factory) exists for desired class, but has no owner.".
Definition msg_created : string :=
  "plugin_loader.impl: Created instance".
Definition msg_could_not_create (derived_class_name : string) : string :=
  "Could not create instance of type " +:+ derived_class_name.

(** [createInstance<Base>(derived_class_name, loader)]. *)
Definition createInstance (Base derived_class_name : string) (loader : PluginLoaderPtr)
  : Exec Globals (option Object) :=
  factoryMap <- on_registry (gets (getFactoryMapForBaseClass Base));;
  factory <- (if bool_decide (is_Some (factoryMap !! derived_class_name))
              then ret (AbstractMetaObjectBase.dynamic_cast Base (factoryMap !! derived_class_name))
              else (logError (msg_no_metaobject derived_class_name);; ret None));;
  let obj : option Object :=
    match factory with
    | Some f => if AbstractMetaObjectBase.isOwnedBy f loader
                then AbstractMetaObjectBase.create f else None
    | None => None
    end in
  obj <- match obj with
         | Some o => ret (Some o)
         | None => (* Was never created *)
             match factory with
             | Some f =>
                 if AbstractMetaObjectBase.isOwnedBy f nullptr
                 then (logDebug msg_no_owner_alert;; ret (AbstractMetaObjectBase.create f))
                 else throw (CreateClassException (msg_could_not_create derived_class_name))
             | None => throw (CreateClassException (msg_could_not_create derived_class_name))
             end
         end;;
  logDebug msg_created;;
  ret obj.

(** [getAvailableClasses<Base>(loader)]. *)
Definition getAvailableClasses (Base : string) (loader : PluginLoaderPtr) (r : Registry) : list string :=
  let factory_map := std_map_items (getFactoryMapForBaseClass Base r) in
  let classes :=
    omap (λ it : string * MetaObject,
            if AbstractMetaObjectBase.isOwnedBy it.2 loader then Some it.1 else None) factory_map in
  let classes_with_no_owner :=
    omap (λ it : string * MetaObject,
            if AbstractMetaObjectBase.isOwnedBy it.2 loader then None
            else if AbstractMetaObjectBase.isOwnedBy it.2 nullptr then Some it.1 else None) factory_map in
  classes ++ classes_with_no_owner.

(** *** Functions declared in [plugin_loader_core.hpp] and defined in
    [plugin_loader_core.cpp]

    The definitions are missing, so the callers below are parametric in
    them.  The two queries read the registry; the two commands may change
    any global and may throw. *)
Class Core : Type := {
  isLibraryLoaded : string → PluginLoaderPtr → Registry → bool;
  isLibraryLoadedByAnybody : string → Registry → bool;
  loadLibrary : string → PluginLoaderPtr → Exec Globals unit;
  unloadLibrary : string → PluginLoaderPtr → Exec Globals unit
}.

End impl.

(** ** The platform's dynamic linker (<dlfcn.h>)

    [dlopen] maps a library, running its static initializers on the way,
    and yields the handle, null on failure; [dlerror] is the text the
    platform reports for a failed [dlopen] of that path, or null.  The flag
    constants come from <dlfcn.h> and from [shared_library.hpp], which is
    not among the sources. *)
Class DynamicLinker : Type := {
  SHLIB_LOCAL : Z;
  RTLD_LAZY : Z;
  RTLD_LOCAL : Z;
  RTLD_GLOBAL : Z;
  dlopen : string → Z → Exec Globals Z;
  dlerror : string → Z → option string;
  dlclose : Z → Exec Globals unit
}.

Module SharedLibraryImpl.
Import SharedLibrary.

Definition State : Type := (SharedLibrary.t * Globals)%type.

Definition on_globals {A} (m : Exec Globals A) : Exec State A :=
  zoom snd (λ g s, (s.1, g)) m.

Definition set_handle (h : Z) : Exec State unit :=
  modify (λ s : State, ({| _handle := h; _path := _path s.1 |}, s.2)).

Definition set_path (p : string) : Exec State unit :=
  modify (λ s : State, ({| _handle := _handle s.1; _path := p |}, s.2)).

Section methods.
Context `{linker : DynamicLinker}.

(** The flags [load] hands to [dlopen]. *)
Definition realFlags (flags : Z) : Z :=
  let realFlags := RTLD_LAZY in
  if negb (Z.land flags SHLIB_LOCAL =? 0)%Z
  then Z.lor realFlags RTLD_LOCAL
  else Z.lor realFlags RTLD_GLOBAL.

(** [SharedLibrary::load(path, flags)]. *)
Definition load (path : string) (flags : Z) : Exec State unit :=
  h <- gets (λ s : State, _handle s.1);;
  if negb (h =? 0)%Z then
    throw (LibraryLoadException ("Library already loaded: " +:+ path))
  else
    let realFlags := realFlags flags in
    h <- on_globals (dlopen path realFlags);;
    set_handle h;;
    if (h =? 0)%Z then
      let err := dlerror path realFlags in
      throw (LibraryLoadException
               ("Could not load library: " +:+
                match err with Some e => e | None => path end))
    else set_path path.

(** [SharedLibrary::unload()]. *)
Definition unload : Exec State unit :=
  h <- gets (λ s : State, _handle s.1);;
  if negb (h =? 0)%Z then (on_globals (dlclose h);; set_handle 0) else ret tt.

End methods.
End SharedLibraryImpl.

(** ** [PluginLoader] ([plugin_loader.hpp], [plugin_loader.cpp]) *)

(** What a managed pointer ([std::shared_ptr<Base>] or [UniquePtr<Base>])
    made by a loader holds: the raw pointer and the loader its deleter,
    [std::bind(&PluginLoader::onPluginDeletion<Base>, this, _1)], is bound to. *)
Record ManagedPtr : Type := mkManagedPtr {
  managed_get : option Object;
  managed_deleter : PluginLoaderPtr
}.

Module PluginLoader.

Record t : Type := mk {
  ondemand_load_unload_ : bool;
  library_path_ : string;
  load_ref_count_ : Z;
  plugin_ref_count_ : Z
}.

(** A loader object together with the globals its methods reach. *)
Definition State : Type := (t * Globals)%type.

Definition on_globals {A} (m : Exec Globals A) : Exec State A :=
  zoom snd (λ g s, (s.1, g)) m.

Definition with_load_ref_count (c : Z) (l : t) : t :=
  {| ondemand_load_unload_ := ondemand_load_unload_ l;
     library_path_ := library_path_ l;
     load_ref_count_ := c;
     plugin_ref_count_ := plugin_ref_count_ l |}.

Definition with_plugin_ref_count (c : Z) (l : t) : t :=
  {| ondemand_load_unload_ := ondemand_load_unload_ l;
     library_path_ := library_path_ l;
     load_ref_count_ := load_ref_count_ l;
     plugin_ref_count_ := c |}.

Definition set_load_ref_count_ (c : Z) : Exec State unit :=
  modify (λ s : State, (with_load_ref_count c s.1, s.2)).

Definition set_plugin_ref_count_ (c : Z) : Exec State unit :=
  modify (λ s : State, (with_plugin_ref_count c s.1, s.2)).

Definition set_has_unmananged_instance_been_created_ (b : bool) : Exec State unit :=
  modify (λ s : State,
            (s.1, {| registry := registry s.2;
                     has_unmananged_instance_been_created_ := b;
                     console := console s.2 |})).

Definition msg_constructing (library_path : string) : string :=
  "plugin_loader.PluginLoader: Constructing new PluginLoader bound to library " +:+ library_path +:+ ".".
Definition msg_destroying : string :=
  "plugin_loader.PluginLoader: Destroying class loader, unloading associated library...".
Definition msg_objects_exist : string :=
  "plugin_loader.PluginLoader: SEVERE WARNING!!! Attempting to unload library while objects created by this loader exist in the heap! The library will NOT be unloaded.".
Definition msg_on_deletion : string :=
  "plugin_loader::PluginLoader: Calling onPluginDeletion()".
Definition msg_cannot_unload (library_path : string) : string :=
  "plugin_loader::PluginLoader: Cannot unload library " +:+ library_path +:+ " even though last shared pointer went out of scope.".
Definition msg_managed_after_unmanaged : string :=
  "plugin_loader::PluginLoader: An attempt is being made to create a managed plugin instance (i.e. std::shared_ptr), however an unmanaged instance was created within this process address space.".

(** A destructor is [noexcept]: an exception that leaves it ends the process. *)
Definition noexcept {S A} (m : Exec S A) : Exec S A :=
  λ s, match m s with
       | (Throw e, s') => (Crash ("terminate called after throwing: " +:+ what e), s')
       | r => r
       end.

Section methods.
Context `{core : impl.Core}.
Variable this : PluginLoaderPtr.

Definition getLibraryPath : Exec State string :=
  gets (λ s : State, library_path_ s.1).

Definition isOnDemandLoadUnloadEnabled : Exec State bool :=
  gets (λ s : State, ondemand_load_unload_ s.1).

Definition hasUnmanagedInstanceBeenCreated : Exec State bool :=
  gets (λ s : State, has_unmananged_instance_been_created_ s.2).

Definition isLibraryLoaded : Exec State bool :=
  path <- getLibraryPath;;
  gets (λ s : State, impl.isLibraryLoaded path this (registry s.2)).

Definition isLibraryLoadedByAnyClassloader : Exec State bool :=
  path <- getLibraryPath;;
  gets (λ s : State, impl.isLibraryLoadedByAnybody path (registry s.2)).

Definition loadLibrary : Exec State unit :=
  c <- gets (λ s : State, load_ref_count_ s.1);;
  set_load_ref_count_ (int_wrap (c + 1));;
  path <- getLibraryPath;;
  on_globals (impl.loadLibrary path this).

Definition unloadLibraryInternal (lock_plugin_ref_count : bool) : Exec State Z :=
  plugin_refs <- gets (λ s : State, plugin_ref_count_ s.1);;
  (if (0 <? plugin_refs)%Z then
     on_globals (logWarn msg_objects_exist)
   else
     c <- gets (λ s : State, load_ref_count_ s.1);;
     set_load_ref_count_ (int_wrap (c - 1));;
     c <- gets (λ s : State, load_ref_count_ s.1);;
     if (0 =? c)%Z then
       path <- getLibraryPath;;
       on_globals (impl.unloadLibrary path this)
     else if (c <? 0)%Z then
       set_load_ref_count_ 0
     else ret tt);;
  gets (λ s : State, load_ref_count_ s.1).

Definition unloadLibrary : Exec State Z :=
  unloadLibraryInternal true.

Definition getAvailableClasses (Base : string) : Exec State (list string) :=
  gets (λ s : State, impl.getAvailableClasses Base this (registry s.2)).

Definition isClassAvailable (Base class_name : string) : Exec State bool :=
  available_classes <- getAvailableClasses Base;;
  ret (bool_decide (class_name ∈ available_classes)).

(** [onPluginDeletion<Base>(obj)]. *)
Definition onPluginDeletion (obj : option Object) : Exec State unit :=
  on_globals (logDebug msg_on_deletion);;
  match obj with
  | None => ret tt
  | Some _ =>
      (* delete (obj); *)
      c <- gets (λ s : State, plugin_ref_count_ s.1);;
      set_plugin_ref_count_ (int_wrap (c - 1));;
      c <- gets (λ s : State, plugin_ref_count_ s.1);;
      assert (0 <=? c)%Z "plugin_ref_count_ >= 0";;
      ondemand <- isOnDemandLoadUnloadEnabled;;
      if (0 =? c)%Z && ondemand then
        unmanaged <- hasUnmanagedInstanceBeenCreated;;
        if negb unmanaged then
          (_ <- unloadLibraryInternal false;; ret tt)
        else
          path <- getLibraryPath;;
          on_globals (logWarn (msg_cannot_unload path))
      else ret tt
  end.

(** [createRawInstance<Base>(derived_class_name, managed)]. *)
Definition createRawInstance (Base derived_class_name : string) (managed : bool)
  : Exec State (option Object) :=
  when (negb managed) (set_has_unmananged_instance_been_created_ true);;
  unmanaged <- hasUnmanagedInstanceBeenCreated;;
  ondemand <- isOnDemandLoadUnloadEnabled;;
  when (managed && unmanaged && ondemand)
    (on_globals (logInform msg_managed_after_unmanaged));;
  loaded <- isLibraryLoaded;;
  when (negb loaded) loadLibrary;;
  obj <- on_globals (impl.createInstance Base derived_class_name this);;
  assert (bool_decide (is_Some obj)) "obj != nullptr";;
  when managed
    (c <- gets (λ s : State, plugin_ref_count_ s.1);;
     set_plugin_ref_count_ (int_wrap (c + 1)));;
  ret obj.

Definition createSharedInstance (Base derived_class_name : string) : Exec State ManagedPtr :=
  raw <- createRawInstance Base derived_class_name true;;
  ret {| managed_get := raw; managed_deleter := this |}.

Definition createInstance (Base derived_class_name : string) : Exec State ManagedPtr :=
  raw <- createRawInstance Base derived_class_name true;;
  ret {| managed_get := raw; managed_deleter := this |}.

Definition createUniqueInstance (Base derived_class_name : string) : Exec State ManagedPtr :=
  raw <- createRawInstance Base derived_class_name true;;
  ret {| managed_get := raw; managed_deleter := this |}.

Definition createUnmanagedInstance (Base derived_class_name : string) : Exec State (option Object) :=
  createRawInstance Base derived_class_name false.

(** [PluginLoader::PluginLoader(library_path, ondemand_load_unload)]: the
    member initializers, then the body.  The object exists only when the
    body returns. *)
Definition constructor (library_path : string) (ondemand_load_unload : bool) : Exec Globals t :=
  λ g,
    let fresh := {| ondemand_load_unload_ := ondemand_load_unload;
                    library_path_ := library_path;
                    load_ref_count_ := 0;
                    plugin_ref_count_ := 0 |} in
    let body : Exec State unit :=
      on_globals (logDebug (msg_constructing library_path));;
      ondemand <- isOnDemandLoadUnloadEnabled;;
      when (negb ondemand) loadLibrary in
    match body (fresh, g) with
    | (Return _, (l, g')) => (Return l, g')
    | (Throw e, (_, g')) => (Throw e, g')
    | (Crash w, (_, g')) => (Crash w, g')
    end.

(** [PluginLoader::~PluginLoader()]. *)
Definition destructor : Exec State unit :=
  noexcept
    (on_globals (logDebug msg_destroying);;
     _ <- unloadLibrary;;  (* TODO(mikaelarguedas): while(unloadLibrary() > 0){} ?? *)
     ret tt).

End methods.
End PluginLoader.

(** ** The loaders on the heap

    Several owners point at one [PluginLoader]: the multi-library loader
    that made it, and every managed pointer whose deleter is bound to it.
    The objects therefore live in a store addressed by pointer. *)

Record System : Type := mkSystem {
  sys_globals : Globals;
  sys_heap : gmap PluginLoaderPtr PluginLoader.t
}.

(** [p->method(...)]. *)
Definition on_loader {A} (p : PluginLoaderPtr)
    (method : PluginLoaderPtr → Exec PluginLoader.State A) : Exec System A :=
  λ s, match sys_heap s !! p with
       | Some l =>
           let '(r, (l', g')) := method p (l, sys_globals s) in
           (r, {| sys_globals := g'; sys_heap := <[p := l']> (sys_heap s) |})
       | None => (Crash "call through a pointer to no live PluginLoader", s)
       end.

Definition on_sys_globals {A} (m : Exec Globals A) : Exec System A :=
  zoom sys_globals (λ g s, {| sys_globals := g; sys_heap := sys_heap s |}) m.

(** An address no live loader has, and not the null pointer. *)
Definition fresh_address (heap : gmap PluginLoaderPtr PluginLoader.t) : PluginLoaderPtr :=
  S (map_fold (λ p _ acc, p `max` acc)%nat 0%nat heap).

(** [new PluginLoader(library_path, ondemand_load_unload)]. *)
Definition new_PluginLoader `{core : impl.Core} (library_path : string) (ondemand_load_unload : bool)
  : Exec System PluginLoaderPtr :=
  λ s, let p := fresh_address (sys_heap s) in
       match PluginLoader.constructor p library_path ondemand_load_unload (sys_globals s) with
       | (Return l, g') => (Return p, {| sys_globals := g'; sys_heap := <[p := l]> (sys_heap s) |})
       | (Throw e, g') => (Throw e, {| sys_globals := g'; sys_heap := sys_heap s |})
       | (Crash w, g') => (Crash w, {| sys_globals := g'; sys_heap := sys_heap s |})
       end.

(** [delete (loader)]. *)
Definition delete_PluginLoader `{core : impl.Core} (p : PluginLoaderPtr) : Exec System unit :=
  on_loader p PluginLoader.destructor;;
  modify (λ s, {| sys_globals := sys_globals s; sys_heap := delete p (sys_heap s) |}).

(** ** [MultiLibraryPluginLoader] ([multi_library_plugin_loader.hpp],
       [multi_library_plugin_loader.cpp]) *)

Module MultiLibraryPluginLoader.

Record t : Type := mk {
  enable_ondemand_loadunload_ : bool;
  (** [LibraryToPluginLoaderMap], a [std::map<LibraryPath, PluginLoader *>] *)
  active_plugin_loaders_ : gmap string PluginLoaderPtr
}.

Definition State : Type := (t * System)%type.

Definition on_system {A} (m : Exec System A) : Exec State A :=
  zoom snd (λ sys s, (s.1, sys)) m.

Definition set_active_plugin_loaders_ (f : gmap string PluginLoaderPtr → gmap string PluginLoaderPtr)
  : Exec State unit :=
  modify (λ s : State,
            ({| enable_ondemand_loadunload_ := enable_ondemand_loadunload_ s.1;
                active_plugin_loaders_ := f (active_plugin_loaders_ s.1) |}, s.2)).

Definition msg_attempting (class_name : string) : string :=
  "plugin_loader::MultiLibraryPluginLoader: Attempting to create instance of class type " +:+ class_name +:+ ".".
Definition msg_no_factory (class_name : string) : string :=
  "MultiLibraryPluginLoader: Could not create object of class type " +:+ class_name +:+
  " as no factory exists for it. Make sure that the library exists and was explicitly loaded through MultiLibraryPluginLoader::loadLibrary()".
Definition msg_could_not_create (class_name : string) : string :=
  "MultiLibraryPluginLoader: Could not create class of type " +:+ class_name.
Definition msg_no_loader (library_path : string) : string :=
  "Could not create instance as there is no PluginLoader in MultiLibraryPluginLoader bound to library " +:+
  library_path +:+ " Ensure you called MultiLibraryPluginLoader::loadLibrary()".

(** [MultiLibraryPluginLoader::MultiLibraryPluginLoader(enable_ondemand_loadunload)]. *)
Definition constructor (enable_ondemand_loadunload : bool) : t :=
  {| enable_ondemand_loadunload_ := enable_ondemand_loadunload;
     active_plugin_loaders_ := ∅ |}.

Definition isOnDemandLoadUnloadEnabled : Exec State bool :=
  gets (λ s : State, enable_ondemand_loadunload_ s.1).

Definition getRegisteredLibraries : Exec State (list string) :=
  gets (λ s : State,
          omap (λ it : string * PluginLoaderPtr,
                  if bool_decide (it.2 ≠ nullptr) then Some it.1 else None)
               (std_map_items (active_plugin_loaders_ s.1))).

Definition getPluginLoaderForLibrary (library_path : string) : Exec State PluginLoaderPtr :=
  gets (λ s : State,
          match active_plugin_loaders_ s.1 !! library_path with
          | Some loader => loader
          | None => nullptr
          end).

Definition getAllAvailablePluginLoaders : Exec State (list PluginLoaderPtr) :=
  gets (λ s : State, (std_map_items (active_plugin_loaders_ s.1)).*2).

Definition isLibraryAvailable (library_name : string) : Exec State bool :=
  loader <- getPluginLoaderForLibrary library_name;;
  ret (bool_decide (loader ≠ nullptr)).

Section methods.
Context `{core : impl.Core}.

(** [loadLibrary(library_path)]; the new loader is constructed before the
    map entry is written. *)
Definition loadLibrary (library_path : string) : Exec State unit :=
  available <- isLibraryAvailable library_path;;
  if negb available then
    ondemand <- isOnDemandLoadUnloadEnabled;;
    loader <- on_system (new_PluginLoader library_path ondemand);;
    set_active_plugin_loaders_ (λ m, <[library_path := loader]> m)
  else ret tt.

(** [unloadLibrary(library_path)]. *)
Definition unloadLibrary (library_path : string) : Exec State Z :=
  itr <- gets (λ s : State, active_plugin_loaders_ s.1 !! library_path);;
  match itr with
  | Some loader =>
      remaining_unloads <- on_system (on_loader loader PluginLoader.unloadLibrary);;
      if (0 =? remaining_unloads)%Z then
        on_system (delete_PluginLoader loader);;
        set_active_plugin_loaders_ (λ m, delete library_path m);;
        ret remaining_unloads
      else ret remaining_unloads
  | None => ret 0%Z
  end.

Fixpoint unloadLibrary_each (libraries : list string) : Exec State unit :=
  match libraries with
  | [] => ret tt
  | library_path :: rest => (_ <- unloadLibrary library_path;; unloadLibrary_each rest)
  end.

Definition shutdownAllPluginLoaders : Exec State unit :=
  libraries <- getRegisteredLibraries;;
  unloadLibrary_each libraries.

(** [MultiLibraryPluginLoader::~MultiLibraryPluginLoader()]. *)
Definition destructor : Exec State unit :=
  PluginLoader.noexcept shutdownAllPluginLoaders.

(** The loop of [getPluginLoaderForClass<Base>(class_name)] from iterator
    [i] to [loaders.end()]. *)
Fixpoint getPluginLoaderForClass_from (Base class_name : string) (i : list PluginLoaderPtr)
  : Exec System PluginLoaderPtr :=
  match i with
  | [] => ret nullptr
  | loader :: next =>
      loaded <- on_loader loader PluginLoader.isLibraryLoaded;;
      when (negb loaded) (on_loader loader PluginLoader.loadLibrary);;
      available <- on_loader loader (λ this, PluginLoader.isClassAvailable this Base class_name);;
      if available then ret loader
      else getPluginLoaderForClass_from Base class_name next
  end.

Definition getPluginLoaderForClass (Base class_name : string) : Exec State PluginLoaderPtr :=
  loaders <- getAllAvailablePluginLoaders;;
  on_system (getPluginLoaderForClass_from Base class_name loaders).

Definition createSharedInstance (Base class_name : string) : Exec State ManagedPtr :=
  on_system (on_sys_globals (logDebug (msg_attempting class_name)));;
  loader <- getPluginLoaderForClass Base class_name;;
  if bool_decide (nullptr = loader) then
    throw (CreateClassException (msg_no_factory class_name))
  else
    on_system (on_loader loader (λ this, PluginLoader.createSharedInstance this Base class_name)).

Definition createSharedInstance_in (Base class_name library_path : string) : Exec State ManagedPtr :=
  loader <- getPluginLoaderForLibrary library_path;;
  if bool_decide (nullptr = loader) then
    throw (NoPluginLoaderExistsException (msg_no_loader library_path))
  else
    on_system (on_loader loader (λ this, PluginLoader.createSharedInstance this Base class_name)).

Definition createInstance (Base class_name : string) : Exec State ManagedPtr :=
  on_system (on_sys_globals (logDebug (msg_attempting class_name)));;
  loader <- getPluginLoaderForClass Base class_name;;
  if bool_decide (nullptr = loader) then
    throw (CreateClassException (msg_no_factory class_name))
  else
    on_system (on_loader loader (λ this, PluginLoader.createInstance this Base class_name)).

Definition createInstance_in (Base class_name library_path : string) : Exec State ManagedPtr :=
  loader <- getPluginLoaderForLibrary library_path;;
  if bool_decide (nullptr = loader) then
    throw (NoPluginLoaderExistsException (msg_no_loader library_path))
  else
    on_system (on_loader loader (λ this, PluginLoader.createInstance this Base class_name)).

Definition createUniqueInstance (Base class_name : string) : Exec State ManagedPtr :=
  on_system (on_sys_globals (logDebug (msg_attempting class_name)));;
  loader <- getPluginLoaderForClass Base class_name;;
  if bool_decide (nullptr = loader) then
    throw (CreateClassException (msg_no_factory class_name))
  else
    on_system (on_loader loader (λ this, PluginLoader.createUniqueInstance this Base class_name)).

Definition createUnmanagedInstance (Base class_name : string) : Exec State (option Object) :=
  loader <- getPluginLoaderForClass Base class_name;;
  if bool_decide (nullptr = loader) then
    throw (CreateClassException (msg_could_not_create class_name))
  else
    on_system (on_loader loader (λ this, PluginLoader.createUnmanagedInstance this Base class_name)).

Definition createUniqueInstance_in (Base class_name library_path : string) : Exec State ManagedPtr :=
  loader <- getPluginLoaderForLibrary library_path;;
  if bool_decide (nullptr = loader) then
    throw (NoPluginLoaderExistsException (msg_no_loader library_path))
  else
    on_system (on_loader loader (λ this, PluginLoader.createUniqueInstance this Base class_name)).

Definition createUnmanagedInstance_in (Base class_name library_path : string)
  : Exec State (option Object) :=
  loader <- getPluginLoaderForLibrary library_path;;
  if bool_decide (nullptr = loader) then
    throw (NoPluginLoaderExistsException (msg_no_loader library_path))
  else
    on_system (on_loader loader (λ this, PluginLoader.createUnmanagedInstance this Base class_name)).

End methods.

(** The loop of [getAvailableClasses<Base>()] over the loaders left, with
    the classes gathered so far. *)
Fixpoint getAvailableClasses_from (Base : string) (loaders : list PluginLoaderPtr)
    (available_classes : list string) : Exec System (list string) :=
  match loaders with
  | [] => ret available_classes
  | loader :: next =>
      loader_classes <- on_loader loader (λ this, PluginLoader.getAvailableClasses this Base);;
      getAvailableClasses_from Base next (available_classes ++ loader_classes)
  end.

(** [getAvailableClasses<Base>()]. *)
Definition getAvailableClasses (Base : string) : Exec State (list string) :=
  loaders <- getAllAvailablePluginLoaders;;
  on_system (getAvailableClasses_from Base loaders []).

(** [isClassAvailable<Base>(class_name)]. *)
Definition isClassAvailable (Base class_name : string) : Exec State bool :=
  available_classes <- getAvailableClasses Base;;
  ret (bool_decide (class_name ∈ available_classes)).

Definition msg_no_loader_for_library (library_path : string) : string :=
  "There is no PluginLoader in MultiLibraryPluginLoader bound to library " +:+
  library_path +:+ " Ensure you called MultiLibraryPluginLoader::loadLibrary()".

(** [getAvailableClassesForLibrary<Base>(library_path)]. *)
Definition getAvailableClassesForLibrary (Base library_path : string) : Exec State (list string) :=
  loader <- getPluginLoaderForLibrary library_path;;
  if bool_decide (nullptr = loader) then
    throw (NoPluginLoaderExistsException (msg_no_loader_for_library library_path))
  else
    on_system (on_loader loader (λ this, PluginLoader.getAvailableClasses this Base)).

End MultiLibraryPluginLoader.

(** ** A model of the missing parts, for running the code on examples *)

Module SpecModel.

(** One use of the registration macro in a plugin library: the arguments of
    the [registerPlugin<Derived, Base>(class_name, base_class_name)] call its
    static initializer makes. *)
Record Registration : Type := mkRegistration {
  reg_Derived : string;
  reg_Base : string;
  reg_class_name : string;
  reg_base_class_name : string
}.

(** Modelled from the spec: the registration helper of §4.5; mapping a
    library runs one [registerPlugin] call per registered class. *)
Fixpoint run_static_initializers (regs : list Registration) : Exec Globals unit :=
  match regs with
  | [] => ret tt
  | r :: rest =>
      impl.registerPlugin (reg_Derived r) (reg_Base r) (reg_class_name r) (reg_base_class_name r);;
      run_static_initializers rest
  end.

Definition set_LoadedLibraryVector (f : list (string * SharedLibrary.t) → list (string * SharedLibrary.t))
  : Exec Registry unit :=
  modify (λ r, {| BaseToFactoryMapMap := BaseToFactoryMapMap r;
                  LoadedLibraryVector := f (LoadedLibraryVector r);
                  MetaObjectGraveyard := MetaObjectGraveyard r;
                  CurrentlyLoadingLibraryName := CurrentlyLoadingLibraryName r;
                  CurrentlyActivePluginLoader := CurrentlyActivePluginLoader r;
                  NonPurePluginLibraryBeenOpened := NonPurePluginLibraryBeenOpened r |}).

Definition set_BaseToFactoryMapMap (f : gmap string (gmap string MetaObject) → gmap string (gmap string MetaObject))
  : Exec Registry unit :=
  modify (λ r, {| BaseToFactoryMapMap := f (BaseToFactoryMapMap r);
                  LoadedLibraryVector := LoadedLibraryVector r;
                  MetaObjectGraveyard := MetaObjectGraveyard r;
                  CurrentlyLoadingLibraryName := CurrentlyLoadingLibraryName r;
                  CurrentlyActivePluginLoader := CurrentlyActivePluginLoader r;
                  NonPurePluginLibraryBeenOpened := NonPurePluginLibraryBeenOpened r |}).

(** Every factory of the registry, whatever its base. *)
Definition all_factories (r : Registry) : list MetaObject :=
  (map_to_list (BaseToFactoryMapMap r)).*2 ≫= (λ fm, (map_to_list fm).*2).

(** Modelled from the spec: [plugin_loader_core.cpp] is missing.
    [is_loaded] of §4.3: some Factory attributed to this path is owned by
    this Loader. *)
Definition isLibraryLoaded (library_path : string) (loader : PluginLoaderPtr) (r : Registry) : bool :=
  bool_decide (Exists (λ f, associated_library_path_ f = library_path
                            ∧ AbstractMetaObjectBase.isOwnedBy f loader = true)
                      (all_factories r)).

(** Modelled from the spec: [is_loaded_anywhere] of §4.3: a Mapped Library
    Record exists for this path. *)
Definition isLibraryLoadedByAnybody (library_path : string) (r : Registry) : bool :=
  bool_decide (library_path ∈ (LoadedLibraryVector r).*1).

(** Modelled from the spec: the registry part of [load] in §4.3, over the
    platform's linker: [enter_load(path, loader)], the OS shim's map,
    [exit_load()] whether or not the map succeeded, and on success the
    Mapped Library Record, made if new.  An exception of the shim leaves
    the call as it is. *)
Definition loadLibrary_with (linker : DynamicLinker) (library_path : string)
    (loader : PluginLoaderPtr) : Exec Globals unit :=
  on_registry (impl.setCurrentlyActivePluginLoader loader;;
               impl.setCurrentlyLoadingLibraryName library_path);;
  λ g, let '(r, (library_handle, g')) :=
         SharedLibraryImpl.load (linker := linker) library_path 0 (SharedLibrary.new, g) in
       let exit_load :=
         on_registry (impl.setCurrentlyLoadingLibraryName "";;
                      impl.setCurrentlyActivePluginLoader nullptr) in
       match r with
       | Return _ =>
           (exit_load;;
            mapped <- gets (λ g, isLibraryLoadedByAnybody library_path (registry g));;
            when (negb mapped)
              (on_registry (set_LoadedLibraryVector (λ v, (v ++ [(library_path, library_handle)])%list)))) g'
       | Throw e => (exit_load;; throw e) g'
       | Crash w => (Crash w, g')
       end.

(** Modelled from the spec: [purge_library(path)] of §4.2, over the
    platform's linker: erase every Factory whose contributing path equals
    [path], remove the Mapped Library Record and release its handle; nothing
    is unmapped once [non_pure_opened] is set (§3, invariant 5). *)
Definition unloadLibrary_with (linker : DynamicLinker) (library_path : string)
    (loader : PluginLoaderPtr) : Exec Globals unit :=
  non_pure <- on_registry impl.hasANonPurePluginLibraryBeenOpened;;
  if non_pure then ret tt
  else
    on_registry (set_BaseToFactoryMapMap
                   (fmap (filter (λ kv : string * MetaObject,
                                    associated_library_path_ kv.2 ≠ library_path))));;
    records <- gets (λ g, filter (λ lp : string * SharedLibrary.t, lp.1 = library_path)
                                 (LoadedLibraryVector (registry g)));;
    on_registry (set_LoadedLibraryVector
                   (filter (λ lp : string * SharedLibrary.t, lp.1 ≠ library_path)));;
    match records with
    | (_, library_handle) :: _ =>
        λ g, let '(r, (_, g')) :=
               SharedLibraryImpl.unload (linker := linker) (library_handle, g) in
             (r, g')
    | [] => ret tt
    end.

(** Modelled from the spec: the four functions of [plugin_loader_core.cpp]
    the loaders call, over the platform's linker. *)
Definition core_with (linker : DynamicLinker) : impl.Core :=
  {| impl.isLibraryLoaded := isLibraryLoaded;
     impl.isLibraryLoadedByAnybody := isLibraryLoadedByAnybody;
     impl.loadLibrary := loadLibrary_with linker;
     impl.unloadLibrary := unloadLibrary_with linker |}.

Section disk.

(** The shared objects that exist, each with what its static initializers
    register. *)
Variable disk : gmap string (list Registration).

(** Modelled from the spec: the OS shim of §4.1 and §6.  Mapping a path
    that is on disk succeeds and runs the library's static initializers,
    unless the library is mapped already; mapping any other path fails with
    the platform's error text. *)
Definition disk_dlopen (path : string) (flags : Z) : Exec Globals Z :=
  match disk !! path with
  | Some regs =>
      mapped <- gets (λ g, bool_decide (path ∈ (LoadedLibraryVector (registry g)).*1));;
      when (negb mapped) (run_static_initializers regs);;
      ret 1%Z
  | None => ret 0%Z
  end.

(** Modelled from the spec: the platform error string of §4.1, here the
    text the GNU linker gives for a file that does not exist. *)
Definition disk_dlerror (path : string) (flags : Z) : option string :=
  Some (path +:+ ": cannot open shared object file: No such file or directory").

(** Modelled from the spec: the OS shim over [disk]; the flag constants are
    those of Poco's [SharedLibrary] and of <dlfcn.h> on Linux. *)
Definition linker : DynamicLinker :=
  {| SHLIB_LOCAL := 2;
     RTLD_LAZY := 1;
     RTLD_LOCAL := 0;
     RTLD_GLOBAL := 256;
     dlopen := disk_dlopen;
     dlerror := disk_dlerror;
     dlclose := λ _, ret tt |}.

(** The missing functions over the linker of [disk]. *)
Definition loadLibrary : string → PluginLoaderPtr → Exec Globals unit := loadLibrary_with linker.
Definition unloadLibrary : string → PluginLoaderPtr → Exec Globals unit := unloadLibrary_with linker.
Definition core : impl.Core := core_with linker.

End disk.

(** Two plugin libraries on disk. *)
Definition example_disk : gmap string (list Registration) :=
  {[ "libA.so" := [mkRegistration "Dog" "Animal" "Dog" "Animal"];
     "libB.so" := [mkRegistration "Cat" "Animal" "Cat" "Animal"] ]}.

Definition example_linker : DynamicLinker := linker example_disk.
Definition example_core : impl.Core := core example_disk.

(** A host executable that links a plugin class of its own: its static
    initializer registers [Duck] before [main], under no loader. *)
Definition host_globals : Globals :=
  (impl.registerPlugin "Duck" "Animal" "Duck" "Animal" initial_globals).2.

(** A platform on which the requested library exists but a library it
    depends on does not: the text of [dlerror] names the dependency. *)
Definition missing_dependency_linker : DynamicLinker :=
  {| SHLIB_LOCAL := 2;
     RTLD_LAZY := 1;
     RTLD_LOCAL := 0;
     RTLD_GLOBAL := 256;
     dlopen := λ _ _, ret 0%Z;
     dlerror := λ _ _,
       Some "libbar.so.1: cannot open shared object file: No such file or directory";
     dlclose := λ _, ret tt |}.

End SpecModel.

(** ** A process using the library

    The operations a host process and the plugin libraries it maps can
    perform, on one multi-library loader and any number of loaders. *)

Module Process.

Definition World : Type := MultiLibraryPluginLoader.State.

Inductive Operation : Type :=
(* the registry *)
| RegisterPlugin (Derived Base class_name base_class_name : string)
| SetCurrentlyLoadingLibraryName (library_name : string)
| SetCurrentlyActivePluginLoader (loader : PluginLoaderPtr)
| ImplCreateInstance (Base derived_class_name : string) (loader : PluginLoaderPtr)
| ImplLoadLibrary (library_path : string) (loader : PluginLoaderPtr)
| ImplUnloadLibrary (library_path : string) (loader : PluginLoaderPtr)
(* a loader *)
| NewPluginLoader (library_path : string) (ondemand_load_unload : bool)
| DeletePluginLoader (loader : PluginLoaderPtr)
| LoadLibrary (loader : PluginLoaderPtr)
| UnloadLibrary (loader : PluginLoaderPtr)
| CreateInstance (loader : PluginLoaderPtr) (Base derived_class_name : string)
| CreateUnmanagedInstance (loader : PluginLoaderPtr) (Base derived_class_name : string)
| ReleaseManagedPtr (ptr : ManagedPtr)
(* the multi-library loader *)
| MultiLoadLibrary (library_path : string)
| MultiUnloadLibrary (library_path : string)
| MultiCreateInstance (Base class_name : string)
| MultiCreateInstanceIn (Base class_name library_path : string)
| MultiCreateUnmanagedInstance (Base class_name : string)
| MultiShutdown.

Definition discard {S A} (m : Exec S A) : Exec S unit := (_ <- m;; ret tt).

Definition on_globals {A} (m : Exec Globals A) : Exec World A :=
  MultiLibraryPluginLoader.on_system (on_sys_globals m).

Section perform.
Context `{core : impl.Core}.

Definition exec (op : Operation) : Exec World unit :=
  match op with
  | RegisterPlugin Derived Base class_name base_class_name =>
      on_globals (impl.registerPlugin Derived Base class_name base_class_name)
  | SetCurrentlyLoadingLibraryName library_name =>
      on_globals (on_registry (impl.setCurrentlyLoadingLibraryName library_name))
  | SetCurrentlyActivePluginLoader loader =>
      on_globals (on_registry (impl.setCurrentlyActivePluginLoader loader))
  | ImplCreateInstance Base derived_class_name loader =>
      discard (on_globals (impl.createInstance Base derived_class_name loader))
  | ImplLoadLibrary library_path loader =>
      on_globals (impl.loadLibrary library_path loader)
  | ImplUnloadLibrary library_path loader =>
      on_globals (impl.unloadLibrary library_path loader)
  | NewPluginLoader library_path ondemand_load_unload =>
      discard (MultiLibraryPluginLoader.on_system (new_PluginLoader library_path ondemand_load_unload))
  | DeletePluginLoader loader =>
      MultiLibraryPluginLoader.on_system (delete_PluginLoader loader)
  | LoadLibrary loader =>
      MultiLibraryPluginLoader.on_system (on_loader loader PluginLoader.loadLibrary)
  | UnloadLibrary loader =>
      discard (MultiLibraryPluginLoader.on_system (on_loader loader PluginLoader.unloadLibrary))
  | CreateInstance loader Base derived_class_name =>
      discard (MultiLibraryPluginLoader.on_system
                 (on_loader loader (λ this, PluginLoader.createInstance this Base derived_class_name)))
  | CreateUnmanagedInstance loader Base derived_class_name =>
      discard (MultiLibraryPluginLoader.on_system
                 (on_loader loader (λ this, PluginLoader.createUnmanagedInstance this Base derived_class_name)))
  | ReleaseManagedPtr ptr =>
      MultiLibraryPluginLoader.on_system
        (on_loader (managed_deleter ptr) (λ this, PluginLoader.onPluginDeletion this (managed_get ptr)))
  | MultiLoadLibrary library_path =>
      MultiLibraryPluginLoader.loadLibrary library_path
  | MultiUnloadLibrary library_path =>
      discard (MultiLibraryPluginLoader.unloadLibrary library_path)
  | MultiCreateInstance Base class_name =>
      discard (MultiLibraryPluginLoader.createInstance Base class_name)
  | MultiCreateInstanceIn Base class_name library_path =>
      discard (MultiLibraryPluginLoader.createInstance_in Base class_name library_path)
  | MultiCreateUnmanagedInstance Base class_name =>
      discard (MultiLibraryPluginLoader.createUnmanagedInstance Base class_name)
  | MultiShutdown =>
      MultiLibraryPluginLoader.shutdownAllPluginLoaders
  end.

(** The world after [op], whatever its outcome. *)
Definition perform (op : Operation) (w : World) : World := (exec op w).2.

Definition run (ops : list Operation) (w : World) : World :=
  foldl (λ w op, perform op w) w ops.

End perform.


End Process.

(** ** Drivers: a call repeated *)

Fixpoint loadLibrary_times `{core : impl.Core} (this : PluginLoaderPtr) (n : nat)
  : Exec PluginLoader.State unit :=
  match n with
  | O => ret tt
  | S n' => (PluginLoader.loadLibrary this;; loadLibrary_times this n')
  end.

(** The values returned by [n] calls of [unloadLibrary], first call first. *)
Fixpoint unloadLibrary_times `{core : impl.Core} (this : PluginLoaderPtr) (n : nat)
  : Exec PluginLoader.State (list Z) :=
  match n with
  | O => ret []
  | S n' =>
      remaining <- PluginLoader.unloadLibrary this;;
      rest <- unloadLibrary_times this n';;
      ret (remaining :: rest)
  end.

(** ** Invariants *)

(** Every factory sits in the map of the base it was made for, as
    [registerPlugin<Derived, Base>] files it. *)
Definition registry_wf (r : Registry) : Prop :=
  map_Forall (λ Base (fm : gmap string MetaObject),
                map_Forall (λ (_ : string) f, typeid_base_ f = Base) fm)
             (BaseToFactoryMapMap r).

Global Instance registry_wf_dec r : Decision (registry_wf r).
Proof. unfold registry_wf. apply _. Defined.

(** [m] never clears a flag of the state that is set. *)
Definition keeps {S A} (flag : S → bool) (m : Exec S A) : Prop :=
  ∀ s, flag s = true → flag (m s).2 = true.

(** The non-pure flag, read off each layer of the state. *)
Definition registry_non_pure : Registry → bool := NonPurePluginLibraryBeenOpened.
Definition non_pure (g : Globals) : bool := registry_non_pure (registry g).
Definition state_non_pure (s : PluginLoader.State) : bool := non_pure s.2.
Definition system_non_pure (sys : System) : bool := non_pure (sys_globals sys).
Definition shlib_non_pure (s : SharedLibraryImpl.State) : bool := non_pure s.2.
Definition world_non_pure (w : Process.World) : bool := system_non_pure w.2.

(** What the permanence of the non-pure flag needs from the missing
    [impl::loadLibrary] and [impl::unloadLibrary]. *)
Class CoreKeepsNonPure (core : impl.Core) : Prop := {
  loadLibrary_keeps : ∀ path loader, keeps non_pure (impl.loadLibrary path loader);
  unloadLibrary_keeps : ∀ path loader, keeps non_pure (impl.unloadLibrary path loader)
}.

(** What the failure of a constructor needs from the missing
    [impl::loadLibrary]: it maps the library with [SharedLibrary::load],
    without flags, on a [SharedLibrary] of its own, in a state it has
    reached; and an exception of that call leaves [impl::loadLibrary]. *)
Class CoreLoadsThroughSharedLibrary (linker : DynamicLinker) (core : impl.Core) : Prop := {
  loadLibrary_rethrows :
    ∀ library_path loader g,
      ∃ g0, ∀ e s,
        SharedLibraryImpl.load library_path 0 (SharedLibrary.new, g0) = (Throw e, s) →
        ∃ g', impl.loadLibrary library_path loader g = (Throw e, g')
}.

(** ** Vocabulary of the statements *)

(** The values [k] calls of [unloadLibrary] return when the first finds the
    load count at [N] and none reaches zero: [N - 1], ..., [N - k]. *)
Definition countdown (N : Z) (k : nat) : list Z :=
  (λ i : nat, (N - Z.of_nat i)%Z) <$> seq 1 k.

(** Loader [p] reports [class_name] available for [Base]:
    [p->isClassAvailable<Base>(class_name)]. *)
Definition reports_available (Base class_name : string) (r : Registry) (p : PluginLoaderPtr) : bool :=
  bool_decide (class_name ∈ impl.getAvailableClasses Base p r).

(** The registry is well-formed and lists [class_name] for loader [p]:
    the name is in [getAvailableClasses<Base>(p)]. *)
Definition lists_class (p : PluginLoaderPtr) (Base class_name : string) (r : Registry) : Prop :=
  registry_wf r ∧ class_name ∈ impl.getAvailableClasses Base p r.

(** Loader [p] is a live object and its library is loaded in its scope. *)
Definition ready `{core : impl.Core} (sys : System) (p : PluginLoaderPtr) : bool :=
  match sys_heap sys !! p with
  | Some l => impl.isLibraryLoaded (PluginLoader.library_path_ l) p (registry (sys_globals sys))
  | None => false
  end.

(** Every loader the multi-library loader holds is live, so not null, and
    loaded. *)
Definition loaders_ready `{core : impl.Core} (ml : MultiLibraryPluginLoader.t) (sys : System) : Prop :=
  map_Forall (λ (_ : string) p, p ≠ nullptr ∧ ready sys p = true)
             (MultiLibraryPluginLoader.active_plugin_loaders_ ml).

Global Instance loaders_ready_dec `{core : impl.Core} ml sys : Decision (loaders_ready ml sys).
Proof. unfold loaders_ready. apply _. Defined.

(** ** Example states *)

(** The globals once a loader at address 1 has loaded [libA.so]. *)
Definition example_loaded_globals : Globals :=
  (SpecModel.loadLibrary SpecModel.example_disk "libA.so" 1%nat initial_globals).2.

(** A fresh multi-library loader in the host of [SpecModel.host_globals]. *)
Definition example_fresh_world : Process.World :=
  (MultiLibraryPluginLoader.constructor false,
   {| sys_globals := SpecModel.host_globals; sys_heap := ∅ |}).

(** The same after [loadLibrary("libB.so")], then [loadLibrary("libA.so")]. *)
Definition example_world : Process.World :=
  ((MultiLibraryPluginLoader.loadLibrary (core := SpecModel.example_core) "libB.so";;
    MultiLibraryPluginLoader.loadLibrary (core := SpecModel.example_core) "libA.so")
     example_fresh_world).2.

(** An on-demand multi-library loader after [loadLibrary] of a path that is
    not on disk: the loader it holds was constructed without loading. *)
Definition example_lazy_world : Process.World :=
  (MultiLibraryPluginLoader.loadLibrary (core := SpecModel.example_core) "./does-not-exist"
     (MultiLibraryPluginLoader.constructor true,
      {| sys_globals := initial_globals; sys_heap := ∅ |})).2.

(** A multi-library loader that holds the loader of [libA.so] alone, with
    one managed [Dog] outstanding. *)
Definition example_busy_world : Process.World :=
  ((MultiLibraryPluginLoader.loadLibrary (core := SpecModel.example_core) "libA.so";;
    MultiLibraryPluginLoader.createInstance (core := SpecModel.example_core) "Animal" "Dog")
     example_fresh_world).2.

(** An on-demand multi-library loader after [loadLibrary("libA.so")]: the
    loader exists, the library is not loaded yet. *)
Definition example_lazy_libA_world : Process.World :=
  (MultiLibraryPluginLoader.loadLibrary (core := SpecModel.example_core) "libA.so"
     (MultiLibraryPluginLoader.constructor true,
      {| sys_globals := initial_globals; sys_heap := ∅ |})).2.

(** * Properties *)

Local Open Scope string_scope.
Local Open Scope list_scope.
Local Open Scope Z_scope.
Local Open Scope exec_scope.

#[local] Arguments Z.eqb : simpl never.
#[local] Arguments Z.ltb : simpl never.
#[local] Arguments Z.leb : simpl never.
#[local] Arguments Z.sub : simpl never.
#[local] Arguments Z.add : simpl never.
#[local] Arguments int_wrap : simpl never.

(** ** C [int] *)

Lemma int_wrap_in_range z : INT_MIN ≤ z ≤ INT_MAX → int_wrap z = z.
Proof.
  unfold INT_MIN, INT_MAX, int_wrap. intros H.
  rewrite Z.mod_small; lia.
Qed.

(** ** The order of [std::map] keys *)

Global Instance string_le_total : Total string_le.
Proof. intros a b. apply String.leb_total. Qed.

Global Instance string_le_trans : Transitive string_le.
Proof.
  intros a b c. unfold string_le, String.leb.
  destruct (a ?= b)%string eqn:Hab; [| |discriminate].
  { apply String_as_OT.cmp_eq in Hab as ->. auto. }
  destruct (b ?= c)%string eqn:Hbc; [| |discriminate].
  { apply String_as_OT.cmp_eq in Hbc as <-. rewrite Hab. auto. }
  intros _ _.
  apply String_as_OT.cmp_lt in Hab, Hbc.
  pose proof (String_as_OT.lt_trans _ _ _ Hab Hbc) as Hac.
  apply String_as_OT.cmp_lt in Hac.
  unfold String_as_OT.cmp in Hac. rewrite Hac. reflexivity.
Qed.

Lemma string_lt_le_ne a b : string_lt a b ↔ string_le a b ∧ a ≠ b.
Proof.
  unfold string_lt, string_le, String.ltb, String.leb.
  destruct (a ?= b)%string eqn:Hab.
  - apply String_as_OT.cmp_eq in Hab. split; [discriminate|tauto].
  - split; [|reflexivity]. intros _. split; [reflexivity|].
    intros ->. assert (H : (b ?= b)%string = Eq) by (apply String_as_OT.cmp_eq; reflexivity).
    congruence.
  - split; [discriminate|]. intros [? _]. discriminate.
Qed.

Global Instance key_le_total {V} : Total (@key_le V).
Proof. intros x y. apply string_le_total. Qed.

Global Instance key_le_trans {V} : Transitive (@key_le V).
Proof. intros x y z. apply string_le_trans. Qed.

Section std_map.
Context {V : Type}.
Implicit Types m : gmap string V.

Lemma std_map_items_perm m : std_map_items m ≡ₚ map_to_list m.
Proof. apply merge_sort_Permutation. Qed.

Lemma elem_of_std_map_items m k v : (k, v) ∈ std_map_items m ↔ m !! k = Some v.
Proof. rewrite std_map_items_perm. apply elem_of_map_to_list. Qed.

Lemma std_map_items_NoDup_keys m : NoDup (std_map_items m).*1.
Proof. rewrite std_map_items_perm. apply NoDup_fst_map_to_list. Qed.

(** Iteration is in strictly ascending key order. *)
Lemma std_map_items_ascending m : StronglySorted string_lt (std_map_items m).*1.
Proof.
  pose proof (std_map_items_NoDup_keys m) as Hnd.
  assert (Hs : StronglySorted key_le (std_map_items m)).
  { apply StronglySorted_merge_sort; apply _. }
  induction Hs as [|[k v] l Hs IH Hall]; cbn [fmap list_fmap fst] in *.
  - constructor.
  - apply NoDup_cons in Hnd as [Hk Hnd]. constructor; [auto|].
    apply Forall_fmap, Forall_forall. intros [k' v'] Hin. cbn.
    apply string_lt_le_ne. split.
    + rewrite Forall_forall in Hall. apply (Hall _ Hin).
    + intros ->. apply Hk. apply list_elem_of_fmap. exists (k', v'). auto.
Qed.

(** The order does not depend on the order of the insertions. *)
Lemma std_map_items_insert_comm m k1 v1 k2 v2 :
  k1 ≠ k2 →
  std_map_items (<[k1 := v1]> (<[k2 := v2]> m)) = std_map_items (<[k2 := v2]> (<[k1 := v1]> m)).
Proof. intros Hne. f_equal. apply insert_insert_ne. auto. Qed.

End std_map.

(** ** The registry: [registerPlugin], [createInstance], [getAvailableClasses] *)

Lemma initial_registry_wf : registry_wf initial_registry.
Proof. intros Base fm H. cbn in H. rewrite lookup_empty in H. discriminate. Qed.

Lemma new_factory_for_base Derived Base class_name base_class_name r :
  typeid_base_ (impl.new_factory_for Derived Base class_name base_class_name r) = Base.
Proof.
  unfold impl.new_factory_for, AbstractMetaObjectBase.setAssociatedLibraryPath,
    AbstractMetaObjectBase.addOwningPluginLoader.
  destruct (AbstractMetaObjectBase.isOwnedBy _ _); reflexivity.
Qed.

(** The factory [registerPlugin] files has the active loader, null or not,
    as its only owner. *)
Lemma new_factory_for_owners Derived Base class_name base_class_name r :
  associated_class_loaders_ (impl.new_factory_for Derived Base class_name base_class_name r)
  = [CurrentlyActivePluginLoader r].
Proof. reflexivity. Qed.

(** What [registerPlugin] does, step by step. *)
Lemma registerPlugin_run Derived Base class_name base_class_name g :
  let r := registry g in
  let non_pure_call := bool_decide (nullptr = CurrentlyActivePluginLoader r) in
  let collision := bool_decide (is_Some (impl.getFactoryMapForBaseClass Base r !! class_name)) in
  impl.registerPlugin Derived Base class_name base_class_name g =
    (Return tt,
     {| registry :=
          {| BaseToFactoryMapMap :=
               <[Base := <[class_name := impl.new_factory_for Derived Base class_name base_class_name r]>
                           (impl.getFactoryMapForBaseClass Base r)]> (BaseToFactoryMapMap r);
             LoadedLibraryVector := LoadedLibraryVector r;
             MetaObjectGraveyard := MetaObjectGraveyard r;
             CurrentlyLoadingLibraryName := CurrentlyLoadingLibraryName r;
             CurrentlyActivePluginLoader := CurrentlyActivePluginLoader r;
             NonPurePluginLibraryBeenOpened :=
               if non_pure_call then true else NonPurePluginLibraryBeenOpened r |};
        has_unmananged_instance_been_created_ := has_unmananged_instance_been_created_ g;
        console :=
          console g
          ++ [mkLogLine CONSOLE_LOG_DEBUG (impl.msg_registering class_name)]
          ++ (if non_pure_call then [mkLogLine CONSOLE_LOG_DEBUG impl.msg_non_pure_alert] else [])
          ++ (if collision then [mkLogLine CONSOLE_LOG_WARN (impl.msg_collision class_name)] else [])
          ++ [mkLogLine CONSOLE_LOG_DEBUG (impl.msg_registered class_name)] |}).
Proof.
  intros r non_pure_call collision. subst r non_pure_call collision.
  destruct g as [r u c]. unfold impl.registerPlugin.
  unfold logDebug, logWarn, log, add_log, on_registry, zoom, set_registry,
    impl.getCurrentlyActivePluginLoader, impl.set_hasANonPurePluginLibraryBeenOpened,
    impl.set_factory, bind, ret, gets, modify, when,
    impl.getFactoryMapForBaseClass, impl.new_factory_for. cbn.
  destruct (bool_decide (nullptr = CurrentlyActivePluginLoader r)); cbn;
    destruct (bool_decide (is_Some (default ∅ (BaseToFactoryMapMap r !! Base) !! class_name)));
    cbn; rewrite <- ?app_assoc; reflexivity.
Qed.

Lemma registerPlugin_wf Derived Base class_name base_class_name g :
  registry_wf (registry g) →
  registry_wf (registry (impl.registerPlugin Derived Base class_name base_class_name g).2).
Proof.
  intros Hwf. rewrite registerPlugin_run. cbn.
  intros B fm Hfm cn f Hf. cbn in Hfm.
  destruct (decide (Base = B)) as [->|Hne].
  - rewrite lookup_insert_eq in Hfm. injection Hfm as <-.
    destruct (decide (class_name = cn)) as [->|Hne'].
    + rewrite lookup_insert_eq in Hf. injection Hf as <-. apply new_factory_for_base.
    + rewrite lookup_insert_ne in Hf by done.
      unfold impl.getFactoryMapForBaseClass in Hf.
      destruct (BaseToFactoryMapMap (registry g) !! B) as [fm|] eqn:E; cbn in Hf.
      * eapply Hwf; eauto.
      * rewrite lookup_empty in Hf. discriminate.
  - rewrite lookup_insert_ne in Hfm by done. eapply Hwf; eauto.
Qed.

(** The outcome of [createInstance] on every registry state. *)
Lemma createInstance_run Base derived_class_name loader g :
  registry_wf (registry g) →
  impl.createInstance Base derived_class_name loader g =
    match impl.getFactoryMapForBaseClass Base (registry g) !! derived_class_name with
    | None =>
        (Throw (CreateClassException (impl.msg_could_not_create derived_class_name)),
         add_log CONSOLE_LOG_ERROR (impl.msg_no_metaobject derived_class_name) g)
    | Some f =>
        if AbstractMetaObjectBase.isOwnedBy f loader then
          (Return (AbstractMetaObjectBase.create f), add_log CONSOLE_LOG_DEBUG impl.msg_created g)
        else if AbstractMetaObjectBase.isOwnedBy f nullptr then
          (Return (AbstractMetaObjectBase.create f),
           add_log CONSOLE_LOG_DEBUG impl.msg_created
             (add_log CONSOLE_LOG_DEBUG impl.msg_no_owner_alert g))
        else
          (Throw (CreateClassException (impl.msg_could_not_create derived_class_name)), g)
    end.
Proof.
  intros Hwf. destruct g as [r u c]. unfold impl.createInstance.
  unfold logDebug, logError, log, on_registry, zoom, set_registry, bind, ret, gets, throw, modify.
  cbn.
  destruct (impl.getFactoryMapForBaseClass Base r !! derived_class_name) as [f|] eqn:Hf; cbn.
  - assert (Hbase : typeid_base_ f = Base).
    { unfold impl.getFactoryMapForBaseClass in Hf.
      destruct (BaseToFactoryMapMap r !! Base) as [fm|] eqn:Hfm; cbn in Hf.
      - eapply Hwf; eauto.
      - rewrite lookup_empty in Hf. discriminate. }
    rewrite decide_True by exact Hbase. cbn.
    destruct (AbstractMetaObjectBase.isOwnedBy f loader); cbn.
    + reflexivity.
    + destruct (AbstractMetaObjectBase.isOwnedBy f nullptr); cbn; reflexivity.
  - reflexivity.
Qed.

(** [createInstance] on a name whose factory is filed under its own base. *)
Lemma createInstance_filed Base derived_class_name loader g f :
  impl.getFactoryMapForBaseClass Base (registry g) !! derived_class_name = Some f →
  typeid_base_ f = Base →
  AbstractMetaObjectBase.isOwnedBy f loader = true →
  impl.createInstance Base derived_class_name loader g
  = (Return (Some {| obj_derived := typeid_derived_ f;
                     obj_library := associated_library_path_ f |}),
     add_log CONSOLE_LOG_DEBUG impl.msg_created g).
Proof.
  intros Hf Hbase Hown. destruct g as [r u c]. cbn in Hf.
  unfold impl.createInstance, logDebug, logError, log, add_log, on_registry, zoom, set_registry,
    bind, ret, gets, throw, modify. cbn.
  rewrite Hf. rewrite (bool_decide_eq_true_2 (is_Some (Some f))) by eauto. cbn.
  rewrite decide_True by exact Hbase. cbn. rewrite Hown. cbn. destruct r. reflexivity.
Qed.

(** C6: a second registration under a name already taken in the base's
    factory map returns normally.  Afterwards the map yields, whatever the
    old entry was, the factory just made: for the derived type of this
    registration, owned by the active loader and by no other, attributed to
    the library being loaded; so [createInstance] for the active loader now
    constructs an object of the new derived type.  The other names of the
    map are untouched, and the console gains the collision warning among
    debug lines only. *)
Theorem registerPlugin_latest_wins Derived Base class_name base_class_name g old :
  impl.getFactoryMapForBaseClass Base (registry g) !! class_name = Some old →
  let active := CurrentlyActivePluginLoader (registry g) in
  let library := CurrentlyLoadingLibraryName (registry g) in
  ∃ g',
    impl.registerPlugin Derived Base class_name base_class_name g = (Return tt, g')
    ∧ impl.getFactoryMapForBaseClass Base (registry g') !! class_name
      = Some {| class_name_ := class_name;
                base_class_name_ := base_class_name;
                typeid_base_ := Base;
                typeid_derived_ := Derived;
                associated_library_path_ := library;
                associated_class_loaders_ := [active] |}
    ∧ impl.createInstance Base class_name active g'
      = (Return (Some {| obj_derived := Derived; obj_library := library |}),
         add_log CONSOLE_LOG_DEBUG impl.msg_created g')
    ∧ (∀ other, other ≠ class_name →
         impl.getFactoryMapForBaseClass Base (registry g') !! other
         = impl.getFactoryMapForBaseClass Base (registry g) !! other)
    ∧ ∃ before,
        console g' = console g ++ before
                     ++ [mkLogLine CONSOLE_LOG_WARN (impl.msg_collision class_name);
                         mkLogLine CONSOLE_LOG_DEBUG (impl.msg_registered class_name)]
        ∧ Forall (λ line, log_level line = CONSOLE_LOG_DEBUG) before.
Proof.
  intros Hold active library.
  set (g' := (impl.registerPlugin Derived Base class_name base_class_name g).2).
  assert (Hrun : impl.registerPlugin Derived Base class_name base_class_name g = (Return tt, g'))
    by (subst g'; rewrite registerPlugin_run; reflexivity).
  assert (Hnew : impl.getFactoryMapForBaseClass Base (registry g') !! class_name
                 = Some {| class_name_ := class_name;
                           base_class_name_ := base_class_name;
                           typeid_base_ := Base;
                           typeid_derived_ := Derived;
                           associated_library_path_ := library;
                           associated_class_loaders_ := [active] |}).
  { subst g'. rewrite registerPlugin_run. cbn. unfold impl.getFactoryMapForBaseClass at 1. cbn.
    rewrite lookup_insert_eq. cbn. rewrite lookup_insert_eq. reflexivity. }
  exists g'. split; [exact Hrun|]. split; [exact Hnew|]. split.
  { apply (createInstance_filed Base class_name active g' _ Hnew); [reflexivity|].
    apply bool_decide_eq_true, list_elem_of_here. }
  subst g'. rewrite registerPlugin_run. cbn.
  split.
  { intros other Hne. unfold impl.getFactoryMapForBaseClass at 1. cbn.
    rewrite lookup_insert_eq. cbn. apply lookup_insert_ne. congruence. }
  rewrite Hold. rewrite (bool_decide_eq_true_2 (is_Some (Some old))) by eauto.
  exists (mkLogLine CONSOLE_LOG_DEBUG (impl.msg_registering class_name)
          :: if bool_decide (nullptr = CurrentlyActivePluginLoader (registry g))
             then [mkLogLine CONSOLE_LOG_DEBUG impl.msg_non_pure_alert] else []).
  split.
  - case_bool_decide; reflexivity.
  - constructor; [reflexivity|]. case_bool_decide; repeat constructor.
Qed.


(** C5: [createInstance] constructs from a factory owned by the requesting
    loader; constructs, after the advisory on the console, from a factory
    that is not but has no owner (its owners hold the null pointer, as for
    a registration made while no loader was active); and throws
    [CreateClassException] exactly when the name has no factory or its
    factory is owned neither by the requesting loader nor by nobody. *)
Theorem createInstance_ownership Base derived_class_name loader g :
  registry_wf (registry g) →
  let factory := impl.getFactoryMapForBaseClass Base (registry g) !! derived_class_name in
  (∀ f, factory = Some f → AbstractMetaObjectBase.isOwnedBy f loader = true →
     impl.createInstance Base derived_class_name loader g =
       (Return (AbstractMetaObjectBase.create f), add_log CONSOLE_LOG_DEBUG impl.msg_created g))
  ∧ (∀ f, factory = Some f → AbstractMetaObjectBase.isOwnedBy f loader = false →
       AbstractMetaObjectBase.isOwnedBy f nullptr = true →
       impl.createInstance Base derived_class_name loader g =
         (Return (AbstractMetaObjectBase.create f),
          add_log CONSOLE_LOG_DEBUG impl.msg_created
            (add_log CONSOLE_LOG_DEBUG impl.msg_no_owner_alert g)))
  ∧ ((∃ error_desc g',
        impl.createInstance Base derived_class_name loader g
        = (Throw (CreateClassException error_desc), g'))
     ↔ (factory = None
        ∨ ∃ f, factory = Some f
               ∧ AbstractMetaObjectBase.isOwnedBy f loader = false
               ∧ AbstractMetaObjectBase.isOwnedBy f nullptr = false)).
Proof.
  intros Hwf factory. subst factory. rewrite createInstance_run by exact Hwf.
  destruct (impl.getFactoryMapForBaseClass Base (registry g) !! derived_class_name) as [f|].
  - split; [|split].
    + intros ? [= <-] ->. reflexivity.
    + intros ? [= <-] -> ->. reflexivity.
    + destruct (AbstractMetaObjectBase.isOwnedBy f loader) eqn:E1;
        [|destruct (AbstractMetaObjectBase.isOwnedBy f nullptr) eqn:E2].
      * split; [intros (? & ? & ?); discriminate|].
        intros [?|(? & [= <-] & ? & ?)]; congruence.
      * split; [intros (? & ? & ?); discriminate|].
        intros [?|(? & [= <-] & ? & ?)]; congruence.
      * split; [intros _; right; eauto|eauto].
  - split; [|split]; try discriminate.
    split; eauto.
Qed.

(** A name is listed by [getAvailableClasses] exactly when its factory is
    owned by the loader or by nobody. *)
Lemma elem_of_getAvailableClasses Base loader r class_name :
  class_name ∈ impl.getAvailableClasses Base loader r ↔
  ∃ f, impl.getFactoryMapForBaseClass Base r !! class_name = Some f
       ∧ (AbstractMetaObjectBase.isOwnedBy f loader = true
          ∨ AbstractMetaObjectBase.isOwnedBy f nullptr = true).
Proof.
  unfold impl.getAvailableClasses. cbn zeta.
  rewrite elem_of_app, !list_elem_of_omap. split.
  - intros [([k f] & Hin & Hsel)|([k f] & Hin & Hsel)];
      apply elem_of_std_map_items in Hin; cbn in Hsel; exists f.
    + destruct (AbstractMetaObjectBase.isOwnedBy f loader) eqn:E; [|discriminate].
      injection Hsel as ->. auto.
    + destruct (AbstractMetaObjectBase.isOwnedBy f loader) eqn:E; [discriminate|].
      destruct (AbstractMetaObjectBase.isOwnedBy f nullptr) eqn:E'; [|discriminate].
      injection Hsel as ->. auto.
  - intros (f & Hf & Hown). apply elem_of_std_map_items in Hf.
    destruct (AbstractMetaObjectBase.isOwnedBy f loader) eqn:E.
    + left. exists (class_name, f). cbn. rewrite E. auto.
    + right. exists (class_name, f). cbn. rewrite E.
      destruct Hown as [?| ->]; [discriminate|auto].
Qed.

(** [createInstance] succeeds on every listed name, whatever the console and
    the unmanaged-instance flag hold. *)
Lemma createInstance_available Base loader g class_name :
  registry_wf (registry g) →
  class_name ∈ impl.getAvailableClasses Base loader (registry g) →
  ∃ obj lines,
    impl.createInstance Base class_name loader g =
      (Return (Some obj),
       {| registry := registry g;
          has_unmananged_instance_been_created_ := has_unmananged_instance_been_created_ g;
          console := console g ++ lines |}).
Proof.
  intros Hwf (f & Hf & Hown)%elem_of_getAvailableClasses.
  rewrite createInstance_run by exact Hwf. rewrite Hf.
  destruct (AbstractMetaObjectBase.isOwnedBy f loader) eqn:E.
  - eexists _, [_]. reflexivity.
  - destruct Hown as [?| ->]; [discriminate|].
    eexists _, [_; _]. unfold add_log. cbn. rewrite <- app_assoc. reflexivity.
Qed.

(** ** [PluginLoader] *)

#[local] Arguments impl.createInstance : simpl never.
#[local] Arguments impl.registerPlugin : simpl never.

Ltac unfold_exec :=
  unfold PluginLoader.unloadLibrary, PluginLoader.unloadLibraryInternal,
    PluginLoader.loadLibrary, PluginLoader.isLibraryLoaded, PluginLoader.getLibraryPath,
    PluginLoader.set_load_ref_count_, PluginLoader.set_plugin_ref_count_,
    PluginLoader.set_has_unmananged_instance_been_created_,
    PluginLoader.on_globals, PluginLoader.isOnDemandLoadUnloadEnabled,
    PluginLoader.hasUnmanagedInstanceBeenCreated,
    logWarn, logDebug, logInform, logError, log,
    assert, bind, ret, gets, modify, when, throw, crash, zoom.

Section loader.
Context `{core : impl.Core}.
Implicit Types (this : PluginLoaderPtr) (l : PluginLoader.t) (g : Globals).

(** [createRawInstance] returns an object for a listed name when the
    library is loaded in the loader's scope. *)
Lemma createRawInstance_available this l g Base class_name managed :
  registry_wf (registry g) →
  class_name ∈ impl.getAvailableClasses Base this (registry g) →
  impl.isLibraryLoaded (PluginLoader.library_path_ l) this (registry g) = true →
  ∃ obj l' g',
    PluginLoader.createRawInstance this Base class_name managed (l, g)
    = (Return (Some obj), (l', g'))
    ∧ registry g' = registry g.
Proof.
  intros Hwf Hin Hloaded.
  unfold PluginLoader.createRawInstance. unfold_exec. cbn.
  destruct managed; cbn.
  - destruct (has_unmananged_instance_been_created_ g && PluginLoader.ondemand_load_unload_ l);
      cbn; rewrite Hloaded; cbn.
    + edestruct (createInstance_available Base this) as (obj & lines & ->);
        [| | cbn; eexists _, _, _; split; reflexivity]; assumption.
    + edestruct (createInstance_available Base this) as (obj & lines & ->);
        [| | cbn; eexists _, _, _; split; reflexivity]; assumption.
  - rewrite Hloaded. cbn.
    edestruct (createInstance_available Base this) as (obj & lines & ->);
      [| | cbn; eexists _, _, _; split; reflexivity]; assumption.
Qed.

(** [createInstance] on a listed name: the object the factory of the name
    constructs, and nothing but console lines. *)
Lemma createInstance_listed Base loader g class_name f :
  registry_wf (registry g) →
  impl.getFactoryMapForBaseClass Base (registry g) !! class_name = Some f →
  AbstractMetaObjectBase.isOwnedBy f loader = true
  ∨ AbstractMetaObjectBase.isOwnedBy f nullptr = true →
  ∃ lines,
    impl.createInstance Base class_name loader g =
      (Return (Some {| obj_derived := typeid_derived_ f;
                       obj_library := associated_library_path_ f |}),
       {| registry := registry g;
          has_unmananged_instance_been_created_ := has_unmananged_instance_been_created_ g;
          console := console g ++ lines |}).
Proof.
  intros Hwf Hf Hown.
  rewrite createInstance_run by exact Hwf. rewrite Hf.
  destruct (AbstractMetaObjectBase.isOwnedBy f loader) eqn:E.
  - eexists [_]. reflexivity.
  - destruct Hown as [?| ->]; [discriminate|].
    eexists [_; _]. unfold add_log. cbn. rewrite <- app_assoc. reflexivity.
Qed.

(** [createRawInstance] step by step: the request is noted, the library is
    loaded when it is not, then [impl::createInstance] is called and a
    managed instance counted. *)
Lemma createRawInstance_run this l g Base class_name (managed : bool) :
  let noted :=
    if managed then
      if has_unmananged_instance_been_created_ g && PluginLoader.ondemand_load_unload_ l
      then add_log CONSOLE_LOG_INFO PluginLoader.msg_managed_after_unmanaged g
      else g
    else {| registry := registry g;
            has_unmananged_instance_been_created_ := true;
            console := console g |} in
  let counted (l0 : PluginLoader.t) :=
    if managed
    then PluginLoader.with_plugin_ref_count (int_wrap (PluginLoader.plugin_ref_count_ l0 + 1)) l0
    else l0 in
  let finish (l0 : PluginLoader.t) (g0 : Globals) :=
    match impl.createInstance Base class_name this g0 with
    | (Return (Some obj), g') => (Return (Some obj), (counted l0, g'))
    | (Return None, g') => (Crash "Assertion failed: obj != nullptr", (l0, g'))
    | (Throw e, g') => (Throw e, (l0, g'))
    | (Crash w, g') => (Crash w, (l0, g'))
    end in
  let loading :=
    PluginLoader.with_load_ref_count (int_wrap (PluginLoader.load_ref_count_ l + 1)) l in
  PluginLoader.createRawInstance this Base class_name managed (l, g)
  = if impl.isLibraryLoaded (PluginLoader.library_path_ l) this (registry g)
    then finish l noted
    else match impl.loadLibrary (PluginLoader.library_path_ l) this noted with
         | (Return _, g1) => finish loading g1
         | (Throw e, g1) => (Throw e, (loading, g1))
         | (Crash w, g1) => (Crash w, (loading, g1))
         end.
Proof.
  intros noted counted finish loading.
  assert (Hreg : registry noted = registry g).
  { subst noted. destruct managed; [|reflexivity].
    destruct (has_unmananged_instance_been_created_ g && PluginLoader.ondemand_load_unload_ l);
      reflexivity. }
  assert (Hstart :
            PluginLoader.createRawInstance this Base class_name managed (l, g)
            = (loaded <- PluginLoader.isLibraryLoaded this;;
               when (negb loaded) (PluginLoader.loadLibrary this);;
               obj <- PluginLoader.on_globals (impl.createInstance Base class_name this);;
               assert (bool_decide (is_Some obj)) "obj != nullptr";;
               when managed
                 (c <- gets (λ s : PluginLoader.State, PluginLoader.plugin_ref_count_ s.1);;
                  PluginLoader.set_plugin_ref_count_ (int_wrap (c + 1)));;
               ret obj) (l, noted)).
  { subst noted. unfold PluginLoader.createRawInstance.
    destruct managed; cbn [negb andb when].
    - unfold bind at 1, ret at 1. unfold bind at 1, PluginLoader.hasUnmanagedInstanceBeenCreated at 1,
        gets at 1. cbn [fst snd].
      unfold bind at 1, PluginLoader.isOnDemandLoadUnloadEnabled at 1, gets at 1. cbn [fst snd].
      destruct (has_unmananged_instance_been_created_ g && PluginLoader.ondemand_load_unload_ l);
        cbn [when]; unfold bind at 1; [|reflexivity].
      unfold PluginLoader.on_globals at 1, zoom at 1, logInform, log, modify at 1. reflexivity.
    - unfold bind at 1, PluginLoader.set_has_unmananged_instance_been_created_ at 1, modify at 1.
      cbn [fst snd].
      unfold bind at 1, PluginLoader.hasUnmanagedInstanceBeenCreated at 1, gets at 1.
      cbn [fst snd].
      unfold bind at 1, PluginLoader.isOnDemandLoadUnloadEnabled at 1, gets at 1. cbn [fst snd].
      unfold bind at 1, ret at 1. reflexivity. }
  rewrite Hstart. clear Hstart.
  assert (Hfinish : ∀ l0 g0,
            (obj <- PluginLoader.on_globals (impl.createInstance Base class_name this);;
             assert (bool_decide (is_Some obj)) "obj != nullptr";;
             when managed
               (c <- gets (λ s : PluginLoader.State, PluginLoader.plugin_ref_count_ s.1);;
                PluginLoader.set_plugin_ref_count_ (int_wrap (c + 1)));;
             ret obj) (l0, g0) = finish l0 g0).
  { intros l0 g0. subst finish counted. cbn beta.
    unfold bind at 1, PluginLoader.on_globals at 1, zoom at 1. cbn [fst snd].
    destruct (impl.createInstance Base class_name this g0) as [[[obj|]| |] g']; try reflexivity.
    destruct managed; reflexivity. }
  unfold bind at 1, PluginLoader.isLibraryLoaded at 1.
  unfold bind at 1, PluginLoader.getLibraryPath at 1, gets at 1, gets at 1. cbn [fst snd].
  rewrite Hreg.
  destruct (impl.isLibraryLoaded (PluginLoader.library_path_ l) this (registry g)).
  - cbn [negb when]. unfold bind at 1, ret at 1. apply Hfinish.
  - cbn [negb when]. unfold bind at 1.
    unfold PluginLoader.loadLibrary at 1.
    unfold bind at 1, gets at 1. cbn [fst snd].
    unfold bind at 1, PluginLoader.set_load_ref_count_ at 1, modify at 1. cbn [fst snd].
    unfold bind at 1, PluginLoader.getLibraryPath at 1, gets at 1. cbn [fst snd].
    unfold PluginLoader.on_globals at 1, zoom at 1. cbn [fst snd].
    change (PluginLoader.library_path_ (PluginLoader.with_load_ref_count _ l))
      with (PluginLoader.library_path_ l).
    fold loading.
    destruct (impl.loadLibrary (PluginLoader.library_path_ l) this noted) as [[[]| |] g1];
      [apply Hfinish|reflexivity|reflexivity].
Qed.

(** C1: a name listed by [getAvailableClasses] for a loader is instantiated
    by the create path, for every loader, on-demand or not, loaded or not.
    [impl::createInstance] returns the object the factory of the name
    constructs.  [createRawInstance], managed or not, returns that object
    when the library is loaded in the loader's scope, counting a managed
    instance and leaving the registry as it was.  When the library is not
    loaded, [createRawInstance] loads it on the way: an exception of
    [impl::loadLibrary] leaves the call as it is, with the load counted; and
    when the load returns with the name still listed, the object its factory
    then constructs is returned.  So [CreateClassException] leaves
    [createRawInstance] on a listed name only when the load on the way
    raised it or changed the registry so that the name is no longer
    listed. *)
Theorem available_classes_can_be_created this l g Base class_name (managed : bool) :
  registry_wf (registry g) →
  class_name ∈ impl.getAvailableClasses Base this (registry g) →
  let path := PluginLoader.library_path_ l in
  let object_of (f : MetaObject) :=
    Some {| obj_derived := typeid_derived_ f; obj_library := associated_library_path_ f |} in
  let listed (r : Registry) (f : MetaObject) :=
    impl.getFactoryMapForBaseClass Base r !! class_name = Some f
    ∧ (AbstractMetaObjectBase.isOwnedBy f this = true
       ∨ AbstractMetaObjectBase.isOwnedBy f nullptr = true) in
  let noted :=
    if managed then
      if has_unmananged_instance_been_created_ g && PluginLoader.ondemand_load_unload_ l
      then add_log CONSOLE_LOG_INFO PluginLoader.msg_managed_after_unmanaged g
      else g
    else {| registry := registry g;
            has_unmananged_instance_been_created_ := true;
            console := console g |} in
  let counted (l0 : PluginLoader.t) :=
    if managed
    then PluginLoader.with_plugin_ref_count (int_wrap (PluginLoader.plugin_ref_count_ l0 + 1)) l0
    else l0 in
  let loading :=
    PluginLoader.with_load_ref_count (int_wrap (PluginLoader.load_ref_count_ l + 1)) l in
  let run := PluginLoader.createRawInstance this Base class_name managed (l, g) in
  ∃ f,
    listed (registry g) f
    ∧ (∃ g', impl.createInstance Base class_name this g = (Return (object_of f), g')
             ∧ registry g' = registry g)
    ∧ (impl.isLibraryLoaded path this (registry g) = true →
       ∃ g', run = (Return (object_of f), (counted l, g'))
             ∧ registry g' = registry g
             ∧ has_unmananged_instance_been_created_ g'
               = has_unmananged_instance_been_created_ g || negb managed)
    ∧ (impl.isLibraryLoaded path this (registry g) = false →
       (∀ e g1, impl.loadLibrary path this noted = (Throw e, g1) →
                run = (Throw e, (loading, g1)))
       ∧ (∀ w g1, impl.loadLibrary path this noted = (Crash w, g1) →
                  run = (Crash w, (loading, g1)))
       ∧ (∀ g1 f1, impl.loadLibrary path this noted = (Return tt, g1) →
                   registry_wf (registry g1) → listed (registry g1) f1 →
                   ∃ g', run = (Return (object_of f1), (counted loading, g'))
                         ∧ registry g' = registry g1
                         ∧ has_unmananged_instance_been_created_ g'
                           = has_unmananged_instance_been_created_ g1))
    ∧ (∀ error_desc s, run = (Throw (CreateClassException error_desc), s) →
       impl.isLibraryLoaded path this (registry g) = false
       ∧ ∃ g1,
           impl.loadLibrary path this noted = (Throw (CreateClassException error_desc), g1)
           ∨ (impl.loadLibrary path this noted = (Return tt, g1)
              ∧ ¬ (registry_wf (registry g1)
                   ∧ class_name ∈ impl.getAvailableClasses Base this (registry g1)))).
Proof.
  intros Hwf Hin path object_of listed noted counted loading run.
  destruct (proj1 (elem_of_getAvailableClasses _ _ _ _) Hin) as (f & Hf & Hown).
  assert (Hreg : registry noted = registry g).
  { subst noted. destruct managed; [|reflexivity].
    destruct (has_unmananged_instance_been_created_ g && PluginLoader.ondemand_load_unload_ l);
      reflexivity. }
  assert (Hflag : has_unmananged_instance_been_created_ noted
                  = has_unmananged_instance_been_created_ g || negb managed).
  { subst noted. destruct managed; [|symmetry; apply orb_true_r].
    destruct (has_unmananged_instance_been_created_ g && PluginLoader.ondemand_load_unload_ l);
      cbn; symmetry; apply orb_false_r. }
  assert (Hrun := createRawInstance_run this l g Base class_name managed).
  cbv zeta in Hrun. fold noted loading path in Hrun. fold run in Hrun.
  assert (Hfinish : ∀ l0 g0 f0,
            registry_wf (registry g0) → listed (registry g0) f0 →
            ∃ g', match impl.createInstance Base class_name this g0 with
                  | (Return (Some obj), g') => (Return (Some obj), (counted l0, g'))
                  | (Return None, g') => (Crash "Assertion failed: obj != nullptr", (l0, g'))
                  | (Throw e, g') => (Throw e, (l0, g'))
                  | (Crash w, g') => (Crash w, (l0, g'))
                  end = (Return (object_of f0), (counted l0, g'))
                  ∧ registry g' = registry g0
                  ∧ has_unmananged_instance_been_created_ g'
                    = has_unmananged_instance_been_created_ g0).
  { intros l0 g0 f0 Hwf0 [Hf0 Hown0].
    destruct (createInstance_listed Base this g0 class_name f0 Hwf0 Hf0 Hown0) as [lines ->].
    eexists. split; [reflexivity|]. split; reflexivity. }
  exists f. split; [split; assumption|]. split; [|split; [|split]].
  - destruct (createInstance_listed Base this g class_name f Hwf Hf Hown) as [lines ->].
    eexists. split; reflexivity.
  - intros Hloaded. rewrite Hloaded in Hrun.
    destruct (Hfinish l noted f) as (g' & Heq & Hr & Hu).
    + rewrite Hreg. exact Hwf.
    + unfold listed. rewrite Hreg. split; assumption.
    + exists g'. split; [exact (eq_trans Hrun Heq)|]. split; congruence.
  - intros Hloaded. rewrite Hloaded in Hrun. split; [|split].
    + intros e g1 Hload. rewrite Hload in Hrun. exact Hrun.
    + intros w g1 Hload. rewrite Hload in Hrun. exact Hrun.
    + intros g1 f1 Hload Hwf1 Hlisted1. rewrite Hload in Hrun.
      destruct (Hfinish loading g1 f1 Hwf1 Hlisted1) as (g' & Heq & Hr & Hu).
      exists g'. split; [exact (eq_trans Hrun Heq)|]. split; assumption.
  - intros error_desc s Hthrow.
    destruct (impl.isLibraryLoaded path this (registry g)).
    + exfalso. destruct (Hfinish l noted f) as (g' & Heq & _).
      * rewrite Hreg. exact Hwf.
      * unfold listed. rewrite Hreg. split; assumption.
      * pose proof (eq_trans (eq_sym Hthrow) (eq_trans Hrun Heq)) as Habsurd. discriminate.
    + split; [reflexivity|].
      destruct (impl.loadLibrary path this noted) as [[[]|e|w] g1] eqn:Hload.
      * exists g1. right. split; [reflexivity|].
        intros [Hwf1 Hin1].
        destruct (proj1 (elem_of_getAvailableClasses _ _ _ _) Hin1) as (f1 & Hf1 & Hown1).
        destruct (Hfinish loading g1 f1 Hwf1 (conj Hf1 Hown1)) as (g' & Heq & _).
        pose proof (eq_trans (eq_sym Hthrow) (eq_trans Hrun Heq)) as Habsurd. discriminate.
      * exists g1. left.
        pose proof (eq_trans (eq_sym Hthrow) Hrun) as Heq. injection Heq as -> _. reflexivity.
      * pose proof (eq_trans (eq_sym Hthrow) Hrun) as Habsurd. discriminate.
Qed.

(** C3: with outstanding instances, [unloadLibrary] warns and does nothing
    else: the loader object and the registry are as before, the load count
    is returned unchanged, and [impl::unloadLibrary] is not reached, whatever
    it does. *)
Theorem unloadLibrary_refuses this l g :
  0 < PluginLoader.plugin_ref_count_ l →
  PluginLoader.unloadLibrary this (l, g) =
    (Return (PluginLoader.load_ref_count_ l),
     (l, add_log CONSOLE_LOG_WARN PluginLoader.msg_objects_exist g)).
Proof.
  intros H. unfold_exec. cbn.
  destruct (0 <? PluginLoader.plugin_ref_count_ l) eqn:E; [|lia].
  reflexivity.
Qed.

(** C10: [onPluginDeletion] on a null pointer writes its debug line and
    returns: the loader object, hence its outstanding-instance count, and
    the registry are unchanged, also for a loader in on-demand mode whose
    count is zero. *)
Theorem onPluginDeletion_null this l g :
  PluginLoader.onPluginDeletion this None (l, g) =
    (Return tt, (l, add_log CONSOLE_LOG_DEBUG PluginLoader.msg_on_deletion g)).
Proof. reflexivity. Qed.

(** For contrast, the release of the last instance of an on-demand loader,
    a pointer that is not null, while no unmanaged instance exists: the
    count drops to zero and the library is unloaded. *)
Lemma onPluginDeletion_last_instance this l g obj :
  PluginLoader.plugin_ref_count_ l = 1 →
  PluginLoader.ondemand_load_unload_ l = true →
  has_unmananged_instance_been_created_ g = false →
  PluginLoader.onPluginDeletion this (Some obj) (l, g) =
    (_ <- PluginLoader.unloadLibraryInternal this false;; ret tt)
      (PluginLoader.with_plugin_ref_count 0 l,
       add_log CONSOLE_LOG_DEBUG PluginLoader.msg_on_deletion g).
Proof.
  intros Hcount Hondemand Hunmanaged.
  unfold PluginLoader.onPluginDeletion.
  unfold PluginLoader.isOnDemandLoadUnloadEnabled, PluginLoader.hasUnmanagedInstanceBeenCreated,
    PluginLoader.set_plugin_ref_count_, PluginLoader.on_globals, logDebug, log, zoom.
  unfold bind at 1. unfold modify at 1. cbn [fst snd].
  unfold bind at 1. unfold gets at 1. cbn [fst snd]. rewrite Hcount.
  unfold bind at 1. unfold modify at 1. cbn [fst snd].
  change (int_wrap (1 - 1)) with 0.
  unfold bind at 1. unfold gets at 1. cbn [fst snd PluginLoader.with_plugin_ref_count
                                             PluginLoader.plugin_ref_count_].
  unfold bind at 1. unfold assert at 1. change (0 <=? 0) with true. unfold ret at 1.
  unfold bind at 1. unfold gets at 1.
  cbn [fst snd PluginLoader.with_plugin_ref_count PluginLoader.ondemand_load_unload_].
  rewrite Hondemand. change (0 =? 0) with true. cbn [andb].
  unfold bind at 1. unfold gets at 1. cbn [fst snd add_log has_unmananged_instance_been_created_].
  rewrite Hunmanaged. cbn [negb]. reflexivity.
Qed.

Lemma with_load_ref_count_id l c :
  PluginLoader.load_ref_count_ l = c → PluginLoader.with_load_ref_count c l = l.
Proof. destruct l; cbn; intros ->; reflexivity. Qed.

(** One call of [unloadLibrary] on a loader without outstanding instances:
    at count one the library is unbound and zero returned; otherwise the
    count goes down by one, not below zero, and nothing else happens. *)
Lemma unloadLibrary_step this l g :
  PluginLoader.plugin_ref_count_ l ≤ 0 →
  0 ≤ PluginLoader.load_ref_count_ l ≤ INT_MAX →
  PluginLoader.unloadLibrary this (l, g) =
    if decide (PluginLoader.load_ref_count_ l = 1) then
      (PluginLoader.on_globals (impl.unloadLibrary (PluginLoader.library_path_ l) this);; ret 0)
        (PluginLoader.with_load_ref_count 0 l, g)
    else
      (Return (Z.max (PluginLoader.load_ref_count_ l - 1) 0),
       (PluginLoader.with_load_ref_count (Z.max (PluginLoader.load_ref_count_ l - 1) 0) l, g)).
Proof.
  intros Hp Hc. unfold_exec. cbn.
  destruct (0 <? PluginLoader.plugin_ref_count_ l) eqn:E; [lia|]. cbn.
  rewrite int_wrap_in_range by (unfold INT_MIN, INT_MAX in *; lia).
  case_decide as Hone.
  - rewrite Hone. change (1 - 1) with 0. change (0 =? 0) with true. cbn.
    destruct (impl.unloadLibrary _ _ g) as [[ | | ] g']; reflexivity.
  - destruct (0 =? PluginLoader.load_ref_count_ l - 1) eqn:E0; [lia|].
    destruct (PluginLoader.load_ref_count_ l - 1 <? 0) eqn:E1; cbn; rewrite ?E0, ?E1; cbn.
    + replace (Z.max _ 0) with 0 by lia. reflexivity.
    + replace (Z.max _ 0) with (PluginLoader.load_ref_count_ l - 1) by lia. reflexivity.
Qed.

(** [n] calls of [loadLibrary] that all return add [n] to the load count
    and touch nothing else of the loader. *)
Lemma loadLibrary_times_count this (n : nat) :
  ∀ l l1 g g1,
    0 ≤ PluginLoader.load_ref_count_ l →
    PluginLoader.load_ref_count_ l + Z.of_nat n ≤ INT_MAX →
    loadLibrary_times this n (l, g) = (Return tt, (l1, g1)) →
    l1 = PluginLoader.with_load_ref_count (PluginLoader.load_ref_count_ l + Z.of_nat n) l.
Proof.
  induction n as [|n IH]; intros l l1 g g1 H0 Hmax Hrun.
  - cbn in Hrun. injection Hrun as <- <-.
    symmetry. apply with_load_ref_count_id. lia.
  - cbn [loadLibrary_times] in Hrun. revert Hrun. unfold_exec. cbn.
    rewrite int_wrap_in_range by (unfold INT_MIN, INT_MAX in *; lia).
    destruct (impl.loadLibrary _ _ g) as [[ [] | e | w ] g'] eqn:El; cbn; try discriminate.
    intros Hrun. apply IH in Hrun; cbn in *; try lia.
    subst l1. unfold PluginLoader.with_load_ref_count. cbn. f_equal. lia.
Qed.

Lemma countdown_S N k : countdown N (S k) = (N - 1) :: countdown (N - 1) k.
Proof.
  unfold countdown. cbn [seq fmap list_fmap]. f_equal.
  rewrite <- seq_shift, <- list_fmap_compose.
  apply list_fmap_ext. intros ? ? _. cbn. lia.
Qed.

Lemma unloadLibrary_times_countdown this (k : nat) :
  ∀ l g,
    PluginLoader.plugin_ref_count_ l ≤ 0 →
    Z.of_nat k < PluginLoader.load_ref_count_ l ≤ INT_MAX →
    unloadLibrary_times this k (l, g) =
      (Return (countdown (PluginLoader.load_ref_count_ l) k),
       (PluginLoader.with_load_ref_count (PluginLoader.load_ref_count_ l - Z.of_nat k) l, g)).
Proof.
  induction k as [|k IH]; intros l g Hp Hc.
  - cbn. rewrite with_load_ref_count_id by lia. reflexivity.
  - cbn [unloadLibrary_times]. unfold bind at 1.
    rewrite unloadLibrary_step by lia.
    case_decide; [lia|].
    replace (Z.max _ 0) with (PluginLoader.load_ref_count_ l - 1) by lia.
    unfold bind at 1. rewrite IH by (cbn; lia).
    rewrite countdown_S. unfold ret, PluginLoader.with_load_ref_count. cbn.
    do 3 f_equal. lia.
Qed.

(** C2: on a fresh loader without outstanding instances, [N] calls of
    [loadLibrary] that return leave the load count at [N].  Then the first
    [k < N] calls of [unloadLibrary] return [N - 1], ..., [N - k] and change
    nothing but the count, so the library stays bound; the [N]-th call, which
    finds the count at one, runs [impl::unloadLibrary] and returns zero; and
    a call that finds the count at zero returns zero, the count clamped,
    without reaching [impl::unloadLibrary]. *)
Theorem load_unload_symmetry this l l1 g g1 (N : nat) :
  PluginLoader.load_ref_count_ l = 0 →
  PluginLoader.plugin_ref_count_ l = 0 →
  Z.of_nat N ≤ INT_MAX →
  loadLibrary_times this N (l, g) = (Return tt, (l1, g1)) →
  l1 = PluginLoader.with_load_ref_count (Z.of_nat N) l
  ∧ (∀ k : nat, (k < N)%nat →
       unloadLibrary_times this k (l1, g1) =
         (Return (countdown (Z.of_nat N) k),
          (PluginLoader.with_load_ref_count (Z.of_nat N - Z.of_nat k) l, g1)))
  ∧ (∀ g2, (0 < N)%nat →
       PluginLoader.unloadLibrary this (PluginLoader.with_load_ref_count 1 l, g2) =
         (PluginLoader.on_globals (impl.unloadLibrary (PluginLoader.library_path_ l) this);;
          ret 0) (PluginLoader.with_load_ref_count 0 l, g2))
  ∧ (∀ g2,
       PluginLoader.unloadLibrary this (PluginLoader.with_load_ref_count 0 l, g2) =
         (Return 0, (PluginLoader.with_load_ref_count 0 l, g2))).
Proof.
  intros Hc Hp HN Hrun.
  apply loadLibrary_times_count in Hrun; [|lia..].
  rewrite Hc in Hrun. cbn in Hrun. subst l1.
  split; [reflexivity|]. split; [|split].
  - intros k Hk. rewrite unloadLibrary_times_countdown by (cbn; lia).
    reflexivity.
  - intros g2 _. rewrite unloadLibrary_step by (cbn; unfold INT_MAX; lia).
    reflexivity.
  - intros g2. rewrite unloadLibrary_step by (cbn; unfold INT_MAX; lia).
    reflexivity.
Qed.

(** C9, on a loader that was loaded twice and has no outstanding instance:
    the destructor calls [unloadLibrary] once.  The load count is left at
    one and [impl::unloadLibrary] is not reached, so the library is not
    released. *)
Theorem destructor_unloads_once this library_path ondemand g :
  PluginLoader.destructor this
    ({| PluginLoader.ondemand_load_unload_ := ondemand;
        PluginLoader.library_path_ := library_path;
        PluginLoader.load_ref_count_ := 2;
        PluginLoader.plugin_ref_count_ := 0 |}, g)
  = (Return tt,
     ({| PluginLoader.ondemand_load_unload_ := ondemand;
         PluginLoader.library_path_ := library_path;
         PluginLoader.load_ref_count_ := 1;
         PluginLoader.plugin_ref_count_ := 0 |},
      add_log CONSOLE_LOG_DEBUG PluginLoader.msg_destroying g)).
Proof. reflexivity. Qed.

(** The same at every load count above one: a single call of
    [unloadLibrary], so the count is left one lower and not at zero. *)
Lemma destructor_leaves_loads this l g :
  PluginLoader.plugin_ref_count_ l ≤ 0 →
  2 ≤ PluginLoader.load_ref_count_ l ≤ INT_MAX →
  PluginLoader.destructor this (l, g) =
    (Return tt,
     (PluginLoader.with_load_ref_count (PluginLoader.load_ref_count_ l - 1) l,
      add_log CONSOLE_LOG_DEBUG PluginLoader.msg_destroying g)).
Proof.
  intros Hp Hc. unfold PluginLoader.destructor, PluginLoader.noexcept.
  unfold bind at 1. unfold PluginLoader.on_globals at 1, zoom at 1, logDebug, log, modify at 1.
  cbn [fst snd]. unfold bind at 1.
  rewrite unloadLibrary_step by lia.
  case_decide; [lia|].
  replace (Z.max _ 0) with (PluginLoader.load_ref_count_ l - 1) by lia.
  reflexivity.
Qed.

End loader.


(** ** [SharedLibrary::load] and the constructor of a loader that loads at once *)

Lemma prefix_refl (s : string) : String.prefix s s = true.
Proof.
  induction s as [|c s IH]; cbn; [reflexivity|].
  destruct (Ascii.ascii_dec c c); [exact IH|contradiction].
Qed.

Lemma contains_refl (s : string) : contains s s = true.
Proof.
  unfold contains. destruct s as [|c s]; [reflexivity|].
  cbn [String.index]. rewrite (prefix_refl (String c s)). reflexivity.
Qed.

Lemma contains_app_r (pre haystack needle : string) :
  contains haystack needle = true → contains (pre +:+ haystack) needle = true.
Proof.
  unfold contains. intros H. induction pre as [|c pre IH]; [exact H|].
  change (String c pre +:+ haystack) with (String c (pre +:+ haystack)).
  cbn [String.index].
  destruct (String.prefix needle (String c (pre +:+ haystack))); [reflexivity|].
  destruct (String.index 0 needle (pre +:+ haystack)); [reflexivity|discriminate].
Qed.

(** An exception of [impl::loadLibrary] leaves the constructor of a loader
    that is not on-demand. *)
Lemma constructor_rethrows `{core : impl.Core} this path g e g2 :
  impl.loadLibrary path this (add_log CONSOLE_LOG_DEBUG (PluginLoader.msg_constructing path) g)
  = (Throw e, g2) →
  PluginLoader.constructor this path false g = (Throw e, g2).
Proof.
  intros Hload. unfold PluginLoader.constructor. unfold_exec. cbn. rewrite Hload. reflexivity.
Qed.

(** [impl::loadLibrary], as the spec describes it, on a path the platform's
    linker does not map in the state the call reaches it in: the exception
    of [SharedLibrary::load] leaves the call, after the loading context is
    cleared. *)
Lemma model_loadLibrary_failure (linker : DynamicLinker) path this g g' :
  let entered :=
    (on_registry (impl.setCurrentlyActivePluginLoader this;;
                  impl.setCurrentlyLoadingLibraryName path) g).2 in
  dlopen path (SharedLibraryImpl.realFlags 0) entered = (Return 0, g') →
  SpecModel.loadLibrary_with linker path this g
  = (Throw (LibraryLoadException
              ("Could not load library: " +:+
               match dlerror path (SharedLibraryImpl.realFlags 0) with
               | Some err => err
               | None => path
               end)),
     (on_registry (impl.setCurrentlyLoadingLibraryName "";;
                   impl.setCurrentlyActivePluginLoader nullptr) g').2).
Proof.
  intros entered Hopen. subst entered.
  unfold SpecModel.loadLibrary_with.
  unfold bind at 1. cbn [fst snd].
  destruct (on_registry _ g) as [[[]| |] g0] eqn:Henter; try discriminate Henter.
  cbn [snd] in Hopen.
  unfold SharedLibraryImpl.load, SharedLibraryImpl.on_globals, SharedLibraryImpl.set_handle,
    bind, gets, throw, modify, zoom. cbn.
  change (0 =? 0) with true. cbn. rewrite Hopen. cbn.
  change (0 =? 0) with true. cbn. reflexivity.
Qed.

(** [SharedLibrary::load] when [dlopen] yields no handle. *)
Lemma load_fails (linker : DynamicLinker) path flags lib g g1 :
  SharedLibrary._handle lib = 0 →
  dlopen path (SharedLibraryImpl.realFlags flags) g = (Return 0, g1) →
  SharedLibraryImpl.load path flags (lib, g) =
    (Throw (LibraryLoadException
              ("Could not load library: " +:+
               match dlerror path (SharedLibraryImpl.realFlags flags) with
               | Some err => err
               | None => path
               end)),
     ({| SharedLibrary._handle := 0; SharedLibrary._path := SharedLibrary._path lib |}, g1)).
Proof.
  intros Hh Hopen.
  unfold SharedLibraryImpl.load, SharedLibraryImpl.on_globals, SharedLibraryImpl.set_handle,
    bind, gets, throw, modify, zoom. cbn.
  rewrite Hh. change (0 =? 0) with true. cbn. rewrite Hopen. cbn.
  change (0 =? 0) with true. cbn. reflexivity.
Qed.

(** [impl::loadLibrary] as the spec describes it maps the library with
    [SharedLibrary::load] and lets its exception through, over every
    linker. *)
Lemma model_loads_through_shared_library (linker : DynamicLinker) :
  CoreLoadsThroughSharedLibrary linker (SpecModel.core_with linker).
Proof.
  split. intros library_path loader g.
  exists (on_registry (impl.setCurrentlyActivePluginLoader loader;;
                       impl.setCurrentlyLoadingLibraryName library_path) g).2.
  intros e [lib' g'] Hload.
  change (impl.loadLibrary (Core := SpecModel.core_with linker) library_path loader g)
    with (SpecModel.loadLibrary_with linker library_path loader g).
  unfold SpecModel.loadLibrary_with.
  unfold bind at 1. cbn [fst snd].
  destruct (on_registry _ g) as [[[]| |] g0] eqn:Henter; try discriminate Henter.
  cbn [snd] in Hload. rewrite Hload.
  eexists. reflexivity.
Qed.

(** C7, as the code has it.  When [dlopen] yields no handle,
    [SharedLibrary::load] throws [LibraryLoadException] with the text
    "Could not load library: " followed by the platform's error text when
    [dlerror] gives one, and by the requested path only when it gives none.
    So the payload contains the platform's text whenever there is one; it
    contains the path when there is none, or when the platform's text
    contains the path.  Constructing a loader that is not on-demand on a
    path the linker maps in no state fails with that same
    [LibraryLoadException], once [impl::loadLibrary] maps the library with
    [SharedLibrary::load]: no loader object is made. *)
Theorem load_failure_payload (linker : DynamicLinker) (core : impl.Core)
    (loads : CoreLoadsThroughSharedLibrary linker core)
    (path : string) (flags : Z) (lib : SharedLibrary.t) (g g1 : Globals)
    (this : PluginLoaderPtr) :
  SharedLibrary._handle lib = 0 →
  dlopen path (SharedLibraryImpl.realFlags flags) g = (Return 0, g1) →
  (∀ g0, ∃ g0', dlopen path (SharedLibraryImpl.realFlags 0) g0 = (Return 0, g0')) →
  let platform_text (flags : Z) := dlerror path (SharedLibraryImpl.realFlags flags) in
  let payload (flags : Z) :=
    "Could not load library: " +:+
    match platform_text flags with
    | Some err => err
    | None => path
    end in
  SharedLibraryImpl.load path flags (lib, g) =
    (Throw (LibraryLoadException
              ("Could not load library: " +:+
               match dlerror path (SharedLibraryImpl.realFlags flags) with
               | Some err => err
               | None => path
               end)),
     ({| SharedLibrary._handle := 0; SharedLibrary._path := SharedLibrary._path lib |}, g1))
  ∧ (∀ flags err, platform_text flags = Some err → contains (payload flags) err = true)
  ∧ (∀ flags, platform_text flags = None → contains (payload flags) path = true)
  ∧ (∀ flags err, platform_text flags = Some err → contains err path = true →
       contains (payload flags) path = true)
  ∧ ∃ g2,
      PluginLoader.constructor this path false g
      = (Throw (LibraryLoadException (payload 0)), g2).
Proof.
  intros Hh Hopen Hnever platform_text payload.
  split; [|split; [|split; [|split]]].
  - apply load_fails; assumption.
  - intros flags' err Herr. subst payload. cbn beta. rewrite Herr.
    apply contains_app_r, contains_refl.
  - intros flags' Hnone. subst payload. cbn beta. rewrite Hnone.
    apply contains_app_r, contains_refl.
  - intros flags' err Herr Hin. subst payload. cbn beta. rewrite Herr.
    apply contains_app_r. exact Hin.
  - destruct (loadLibrary_rethrows path this
                (add_log CONSOLE_LOG_DEBUG (PluginLoader.msg_constructing path) g))
      as [g0 Hrethrows].
    destruct (Hnever g0) as [g0' Hfail].
    destruct (Hrethrows _ _ (load_fails linker path 0 SharedLibrary.new g0 g0' eq_refl Hfail))
      as [g2 Hload].
    exists g2. apply constructor_rethrows. exact Hload.
Qed.


(** ** [MultiLibraryPluginLoader] *)

Section multi.
Context `{core : impl.Core}.
Implicit Types (sys : System) (ml : MultiLibraryPluginLoader.t) (p : PluginLoaderPtr).

Lemma ready_live sys p :
  ready sys p = true →
  ∃ l, sys_heap sys !! p = Some l ∧
       impl.isLibraryLoaded (PluginLoader.library_path_ l) p (registry (sys_globals sys)) = true.
Proof. unfold ready. destruct (sys_heap sys !! p) as [l|]; [eauto|discriminate]. Qed.

Lemma on_loader_isLibraryLoaded sys p l :
  sys_heap sys !! p = Some l →
  on_loader p PluginLoader.isLibraryLoaded sys
  = (Return (impl.isLibraryLoaded (PluginLoader.library_path_ l) p (registry (sys_globals sys))), sys).
Proof.
  intros Hl. unfold on_loader. rewrite Hl. cbn.
  rewrite insert_id by exact Hl. destruct sys; reflexivity.
Qed.

Lemma on_loader_isClassAvailable sys p l Base class_name :
  sys_heap sys !! p = Some l →
  on_loader p (λ this, PluginLoader.isClassAvailable this Base class_name) sys
  = (Return (reports_available Base class_name (registry (sys_globals sys)) p), sys).
Proof.
  intros Hl. unfold on_loader. rewrite Hl. cbn.
  rewrite insert_id by exact Hl. destruct sys; reflexivity.
Qed.

(** The loop passes over loaders that do not report the class. *)
Lemma getPluginLoaderForClass_from_skip Base class_name sys (pre rest : list PluginLoaderPtr) :
  Forall (λ p, ready sys p = true) pre →
  Forall (λ p, reports_available Base class_name (registry (sys_globals sys)) p = false) pre →
  MultiLibraryPluginLoader.getPluginLoaderForClass_from Base class_name (pre ++ rest) sys
  = MultiLibraryPluginLoader.getPluginLoaderForClass_from Base class_name rest sys.
Proof.
  induction pre as [|p pre IH]; intros Hready Hno; [reflexivity|].
  apply Forall_cons in Hready as [(l & Hl & Hloaded)%ready_live Hready].
  apply Forall_cons in Hno as [Hp Hno].
  cbn [app MultiLibraryPluginLoader.getPluginLoaderForClass_from].
  unfold bind at 1. rewrite (on_loader_isLibraryLoaded _ _ _ Hl), Hloaded. cbn [negb when].
  unfold bind at 1. unfold ret at 1.
  unfold bind at 1. rewrite (on_loader_isClassAvailable _ _ _ _ _ Hl), Hp.
  apply IH; assumption.
Qed.

Lemma getPluginLoaderForClass_from_hit Base class_name sys p (rest : list PluginLoaderPtr) :
  ready sys p = true →
  reports_available Base class_name (registry (sys_globals sys)) p = true →
  MultiLibraryPluginLoader.getPluginLoaderForClass_from Base class_name (p :: rest) sys
  = (Return p, sys).
Proof.
  intros (l & Hl & Hloaded)%ready_live Hp.
  cbn [MultiLibraryPluginLoader.getPluginLoaderForClass_from].
  unfold bind at 1. rewrite (on_loader_isLibraryLoaded _ _ _ Hl), Hloaded. cbn [negb when].
  unfold bind at 1. unfold ret at 1.
  unfold bind at 1. rewrite (on_loader_isClassAvailable _ _ _ _ _ Hl), Hp.
  reflexivity.
Qed.

Lemma loaders_ready_items ml sys :
  loaders_ready ml sys →
  Forall (λ it : string * PluginLoaderPtr, it.2 ≠ nullptr ∧ ready sys it.2 = true)
         (std_map_items (MultiLibraryPluginLoader.active_plugin_loaders_ ml)).
Proof.
  intros Hready. apply Forall_forall. intros [path p] Hin.
  apply elem_of_std_map_items in Hin. apply (Hready path p Hin).
Qed.

(** C4, as the code has it: with every held loader live and loaded,
    [createInstance<Base>(class_name)] without a path goes through the
    loaders in ascending order of their library paths, the order in which
    [std::map] iterates, whatever the order of the [loadLibrary] calls that
    added them.  The managed pointer it returns is made by, and its deleter
    bound to, the first loader in that order that reports the class
    available; when none does it throws [CreateClassException]. *)
Theorem createInstance_first_by_path ml sys Base class_name :
  registry_wf (registry (sys_globals sys)) →
  loaders_ready ml sys →
  let loaders := std_map_items (MultiLibraryPluginLoader.active_plugin_loaders_ ml) in
  let reports p := reports_available Base class_name (registry (sys_globals sys)) p in
  StronglySorted string_lt loaders.*1
  ∧ (∀ pre path p post,
       loaders = pre ++ (path, p) :: post →
       Forall (λ it : string * PluginLoaderPtr, reports it.2 = false) pre →
       reports p = true →
       ∃ obj sys',
         MultiLibraryPluginLoader.createInstance Base class_name (ml, sys)
         = (Return {| managed_get := Some obj; managed_deleter := p |}, (ml, sys')))
  ∧ (Forall (λ it : string * PluginLoaderPtr, reports it.2 = false) loaders →
     ∃ sys',
       MultiLibraryPluginLoader.createInstance Base class_name (ml, sys)
       = (Throw (CreateClassException (MultiLibraryPluginLoader.msg_no_factory class_name)),
          (ml, sys'))).
Proof.
  intros Hwf Hready loaders reports.
  split; [apply std_map_items_ascending|].
  set (sys1 := {| sys_globals := add_log CONSOLE_LOG_DEBUG
                                   (MultiLibraryPluginLoader.msg_attempting class_name)
                                   (sys_globals sys);
                  sys_heap := sys_heap sys |}).
  assert (Hitems : Forall (λ it : string * PluginLoaderPtr,
                             it.2 ≠ nullptr ∧ ready sys1 it.2 = true) loaders)
    by (apply (loaders_ready_items ml sys1); exact Hready).
  assert (Hstart :
             MultiLibraryPluginLoader.createInstance Base class_name (ml, sys)
             = (loader <- MultiLibraryPluginLoader.on_system
                            (MultiLibraryPluginLoader.getPluginLoaderForClass_from
                               Base class_name loaders.*2);;
                if bool_decide (nullptr = loader)
                then throw (CreateClassException (MultiLibraryPluginLoader.msg_no_factory class_name))
                else MultiLibraryPluginLoader.on_system
                       (on_loader loader
                          (λ this, PluginLoader.createInstance this Base class_name)))
                 (ml, sys1)) by reflexivity.
  split.
  - intros pre path p post Hsplit Hpre Hp.
    rewrite Hsplit in Hitems.
    apply Forall_app in Hitems as [Hpre_ready Hrest].
    apply Forall_cons in Hrest as [[Hnonnull Hp_ready] _].
    cbn [snd] in Hnonnull, Hp_ready.
    destruct (ready_live _ _ Hp_ready) as (l & Hl & Hloaded).
    rewrite Hstart, Hsplit, fmap_app, fmap_cons. cbn [snd].
    unfold bind at 1, MultiLibraryPluginLoader.on_system at 1, zoom at 1. cbn [snd fst].
    rewrite getPluginLoaderForClass_from_skip.
    2:{ apply Forall_fmap. eapply Forall_impl; [exact Hpre_ready|]. intros ? [_ ?]. assumption. }
    2:{ apply Forall_fmap. exact Hpre. }
    rewrite getPluginLoaderForClass_from_hit; [|exact Hp_ready|exact Hp].
    rewrite bool_decide_eq_false_2 by congruence.
    unfold MultiLibraryPluginLoader.on_system, zoom, on_loader. cbn [fst snd].
    rewrite Hl. unfold PluginLoader.createInstance. unfold bind at 1.
    destruct (createRawInstance_available p l (sys_globals sys1) Base class_name true)
      as (obj & l' & g' & -> & _).
    + exact Hwf.
    + unfold reports, reports_available in Hp. apply bool_decide_eq_true in Hp. exact Hp.
    + exact Hloaded.
    + eexists _, _. reflexivity.
  - intros Hnone.
    rewrite Hstart.
    unfold bind at 1, MultiLibraryPluginLoader.on_system at 1, zoom at 1. cbn [snd fst].
    rewrite <- (app_nil_r loaders.*2).
    rewrite getPluginLoaderForClass_from_skip.
    2:{ apply Forall_fmap. eapply Forall_impl; [exact Hitems|]. intros ? [_ ?]. assumption. }
    2:{ apply Forall_fmap. exact Hnone. }
    cbn. eexists. reflexivity.
Qed.

End multi.


(** ** The non-pure flag *)

Section keeps.
Context {S : Type} (flag : S → bool).

Lemma keeps_ret {A} (a : A) : keeps flag (ret a).
Proof. intros s H. exact H. Qed.

Lemma keeps_throw {A} e : keeps flag (throw (A := A) e).
Proof. intros s H. exact H. Qed.

Lemma keeps_crash {A} w : keeps flag (crash (A := A) w).
Proof. intros s H. exact H. Qed.

Lemma keeps_gets {A} (f : S → A) : keeps flag (gets f).
Proof. intros s H. exact H. Qed.

Lemma keeps_modify (f : S → S) :
  (∀ s, flag s = true → flag (f s) = true) → keeps flag (modify f).
Proof. intros Hf s H. apply Hf, H. Qed.

Lemma keeps_bind {A B} (m : Exec S A) (k : A → Exec S B) :
  keeps flag m → (∀ a, keeps flag (k a)) → keeps flag (bind m k).
Proof.
  intros Hm Hk s H. unfold bind. specialize (Hm s H).
  destruct (m s) as [[a|e|w] s']; cbn in *; [apply Hk, Hm|exact Hm..].
Qed.

Lemma keeps_when (b : bool) (m : Exec S unit) : keeps flag m → keeps flag (when b m).
Proof. intros Hm. destruct b; [exact Hm|apply keeps_ret]. Qed.

Lemma keeps_assert (b : bool) text : keeps flag (assert b text).
Proof. destruct b; [apply keeps_ret|apply keeps_crash]. Qed.

Lemma keeps_if {A} (b : bool) (m1 m2 : Exec S A) :
  keeps flag m1 → keeps flag m2 → keeps flag (if b then m1 else m2).
Proof. destruct b; auto. Qed.

Lemma keeps_noexcept {A} (m : Exec S A) : keeps flag m → keeps flag (PluginLoader.noexcept m).
Proof.
  intros Hm s H. unfold PluginLoader.noexcept. specialize (Hm s H).
  destruct (m s) as [[a|e|w] s']; exact Hm.
Qed.

Lemma keeps_discard {A} (m : Exec S A) : keeps flag m → keeps flag (Process.discard m).
Proof. intros Hm. apply keeps_bind; [exact Hm|intros; apply keeps_ret]. Qed.

(** A computation on a component keeps the flag of the whole when the flag
    is read off the component. *)
Lemma keeps_zoom {T A} (flagT : T → bool) (proj : S → T) (upd : T → S → S) (m : Exec T A) :
  (∀ s, flag s = flagT (proj s)) →
  (∀ t s, flag (upd t s) = flagT t) →
  keeps flagT m → keeps flag (zoom proj upd m).
Proof.
  intros Hproj Hupd Hm s H. unfold zoom.
  rewrite Hproj in H. specialize (Hm _ H).
  destruct (m (proj s)) as [r t]. cbn in *. rewrite Hupd. exact Hm.
Qed.

End keeps.

Create HintDb keeps discriminated.
#[local] Hint Resolve keeps_ret keeps_throw keeps_crash keeps_gets keeps_when keeps_assert
  keeps_if keeps_noexcept keeps_discard : keeps.

Lemma keeps_on_registry {A} (m : Exec Registry A) :
  keeps registry_non_pure m → keeps non_pure (on_registry m).
Proof. apply keeps_zoom; reflexivity. Qed.

Lemma keeps_log level text : keeps non_pure (log level text).
Proof. apply keeps_modify. auto. Qed.

(** Solves [keeps] goals along the structure of the computation. *)
Ltac keeps_step :=
  match goal with
  | |- keeps _ (bind _ _) => apply keeps_bind; [|intros]
  | |- keeps _ (on_registry _) => apply keeps_on_registry
  | |- keeps _ (when _ _) => apply keeps_when
  | |- keeps _ (if _ then _ else _) => apply keeps_if
  | |- keeps _ (PluginLoader.noexcept _) => apply keeps_noexcept
  | |- keeps _ (Process.discard _) => apply keeps_discard
  | |- keeps _ (match ?x with _ => _ end) => destruct x
  | |- keeps _ _ => solve [auto with keeps]
  end.

Ltac solve_keeps := repeat keeps_step.

#[local] Hint Resolve keeps_on_registry keeps_log : keeps.
#[local] Hint Extern 1 (keeps _ (logDebug _)) => apply keeps_log : keeps.
#[local] Hint Extern 1 (keeps _ (logInform _)) => apply keeps_log : keeps.
#[local] Hint Extern 1 (keeps _ (logWarn _)) => apply keeps_log : keeps.
#[local] Hint Extern 1 (keeps _ (logError _)) => apply keeps_log : keeps.

Lemma setCurrentlyLoadingLibraryName_keeps library_name :
  keeps registry_non_pure (impl.setCurrentlyLoadingLibraryName library_name).
Proof. apply keeps_modify. auto. Qed.

Lemma setCurrentlyActivePluginLoader_keeps loader :
  keeps registry_non_pure (impl.setCurrentlyActivePluginLoader loader).
Proof. apply keeps_modify. auto. Qed.

Lemma set_flag_true_keeps :
  keeps registry_non_pure (impl.set_hasANonPurePluginLibraryBeenOpened true).
Proof. apply keeps_modify. auto. Qed.

Lemma set_factory_keeps Base class_name f :
  keeps registry_non_pure (impl.set_factory Base class_name f).
Proof. apply keeps_modify. auto. Qed.

#[local] Hint Resolve setCurrentlyLoadingLibraryName_keeps setCurrentlyActivePluginLoader_keeps
  set_flag_true_keeps set_factory_keeps : keeps.

Lemma registerPlugin_keeps Derived Base class_name base_class_name :
  keeps non_pure (impl.registerPlugin Derived Base class_name base_class_name).
Proof. unfold impl.registerPlugin, impl.getCurrentlyActivePluginLoader. solve_keeps. Qed.

Lemma createInstance_keeps Base derived_class_name loader :
  keeps non_pure (impl.createInstance Base derived_class_name loader).
Proof.
  unfold impl.createInstance. solve_keeps.
Qed.

#[local] Hint Resolve registerPlugin_keeps createInstance_keeps : keeps.

Section keeps_loader.
Context `{core : impl.Core} {core_keeps : CoreKeepsNonPure core}.

Lemma keeps_loader_on_globals {A} (m : Exec Globals A) :
  keeps non_pure m → keeps state_non_pure (PluginLoader.on_globals m).
Proof. apply keeps_zoom; reflexivity. Qed.

Lemma set_load_ref_count_keeps c : keeps state_non_pure (PluginLoader.set_load_ref_count_ c).
Proof. apply keeps_modify. auto. Qed.

Lemma set_plugin_ref_count_keeps c : keeps state_non_pure (PluginLoader.set_plugin_ref_count_ c).
Proof. apply keeps_modify. auto. Qed.

Lemma set_has_unmanaged_keeps b :
  keeps state_non_pure (PluginLoader.set_has_unmananged_instance_been_created_ b).
Proof. apply keeps_modify. auto. Qed.

#[local] Hint Resolve keeps_loader_on_globals set_load_ref_count_keeps set_plugin_ref_count_keeps
  set_has_unmanaged_keeps loadLibrary_keeps unloadLibrary_keeps : keeps.

Lemma loader_loadLibrary_keeps this : keeps state_non_pure (PluginLoader.loadLibrary this).
Proof. unfold PluginLoader.loadLibrary, PluginLoader.getLibraryPath. solve_keeps. Qed.

Lemma loader_unloadLibraryInternal_keeps this lock :
  keeps state_non_pure (PluginLoader.unloadLibraryInternal this lock).
Proof. unfold PluginLoader.unloadLibraryInternal, PluginLoader.getLibraryPath. solve_keeps. Qed.

Lemma loader_unloadLibrary_keeps this : keeps state_non_pure (PluginLoader.unloadLibrary this).
Proof. apply loader_unloadLibraryInternal_keeps. Qed.

#[local] Hint Resolve loader_loadLibrary_keeps loader_unloadLibraryInternal_keeps
  loader_unloadLibrary_keeps : keeps.

Lemma loader_onPluginDeletion_keeps this obj :
  keeps state_non_pure (PluginLoader.onPluginDeletion this obj).
Proof.
  unfold PluginLoader.onPluginDeletion, PluginLoader.isOnDemandLoadUnloadEnabled,
    PluginLoader.hasUnmanagedInstanceBeenCreated, PluginLoader.getLibraryPath.
  solve_keeps.
Qed.

Lemma loader_createRawInstance_keeps this Base derived_class_name managed :
  keeps state_non_pure (PluginLoader.createRawInstance this Base derived_class_name managed).
Proof.
  unfold PluginLoader.createRawInstance, PluginLoader.isOnDemandLoadUnloadEnabled,
    PluginLoader.hasUnmanagedInstanceBeenCreated, PluginLoader.isLibraryLoaded,
    PluginLoader.getLibraryPath.
  solve_keeps.
Qed.

#[local] Hint Resolve loader_onPluginDeletion_keeps loader_createRawInstance_keeps : keeps.

Lemma loader_createInstance_keeps this Base derived_class_name :
  keeps state_non_pure (PluginLoader.createInstance this Base derived_class_name).
Proof. unfold PluginLoader.createInstance. solve_keeps. Qed.

Lemma loader_createUnmanagedInstance_keeps this Base derived_class_name :
  keeps state_non_pure (PluginLoader.createUnmanagedInstance this Base derived_class_name).
Proof. unfold PluginLoader.createUnmanagedInstance. solve_keeps. Qed.

Lemma loader_isLibraryLoaded_keeps this : keeps state_non_pure (PluginLoader.isLibraryLoaded this).
Proof. unfold PluginLoader.isLibraryLoaded, PluginLoader.getLibraryPath. solve_keeps. Qed.

Lemma loader_isClassAvailable_keeps this Base class_name :
  keeps state_non_pure (PluginLoader.isClassAvailable this Base class_name).
Proof. unfold PluginLoader.isClassAvailable, PluginLoader.getAvailableClasses. solve_keeps. Qed.

Lemma loader_destructor_keeps this : keeps state_non_pure (PluginLoader.destructor this).
Proof. unfold PluginLoader.destructor. solve_keeps. Qed.

Lemma loader_constructor_keeps this library_path ondemand :
  keeps non_pure (PluginLoader.constructor this library_path ondemand).
Proof.
  intros g Hg. unfold PluginLoader.constructor.
  match goal with
  | |- context [?body (?fresh, g)] =>
      assert (Hbody : keeps state_non_pure body);
      [|specialize (Hbody (fresh, g) Hg); destruct (body (fresh, g)) as [[?|?|?] [l g']];
        exact Hbody]
  end.
  unfold PluginLoader.isOnDemandLoadUnloadEnabled. solve_keeps.
Qed.

#[local] Hint Resolve loader_createInstance_keeps loader_createUnmanagedInstance_keeps
  loader_isLibraryLoaded_keeps loader_isClassAvailable_keeps loader_destructor_keeps
  loader_constructor_keeps : keeps.

(** A method call through a pointer keeps the flag when the method does. *)
Lemma keeps_on_loader {A} p (method : PluginLoaderPtr → Exec PluginLoader.State A) :
  keeps state_non_pure (method p) → keeps system_non_pure (on_loader p method).
Proof.
  intros Hm sys H. unfold on_loader.
  destruct (sys_heap sys !! p) as [l|]; [|exact H].
  specialize (Hm (l, sys_globals sys) H).
  destruct (method p (l, sys_globals sys)) as [r [l' g']]. exact Hm.
Qed.

Lemma keeps_on_sys_globals {A} (m : Exec Globals A) :
  keeps non_pure m → keeps system_non_pure (on_sys_globals m).
Proof. apply keeps_zoom; reflexivity. Qed.

Lemma new_PluginLoader_keeps library_path ondemand :
  keeps system_non_pure (new_PluginLoader library_path ondemand).
Proof.
  intros sys H. unfold new_PluginLoader.
  pose proof (loader_constructor_keeps (fresh_address (sys_heap sys)) library_path ondemand
                (sys_globals sys) H) as Hc.
  destruct (PluginLoader.constructor _ _ _ _) as [[?|?|?] g']; exact Hc.
Qed.

Lemma delete_PluginLoader_keeps p : keeps system_non_pure (delete_PluginLoader p).
Proof.
  unfold delete_PluginLoader. apply keeps_bind.
  - apply keeps_on_loader. apply loader_destructor_keeps.
  - intros _. apply keeps_modify. auto.
Qed.

#[local] Hint Resolve keeps_on_loader keeps_on_sys_globals new_PluginLoader_keeps
  delete_PluginLoader_keeps : keeps.

Lemma keeps_on_system {A} (m : Exec System A) :
  keeps system_non_pure m → keeps world_non_pure (MultiLibraryPluginLoader.on_system m).
Proof. apply keeps_zoom; reflexivity. Qed.

Lemma set_active_plugin_loaders_keeps f :
  keeps world_non_pure (MultiLibraryPluginLoader.set_active_plugin_loaders_ f).
Proof. apply keeps_modify. auto. Qed.

#[local] Hint Resolve keeps_on_system set_active_plugin_loaders_keeps : keeps.

Lemma multi_loadLibrary_keeps library_path :
  keeps world_non_pure (MultiLibraryPluginLoader.loadLibrary library_path).
Proof.
  unfold MultiLibraryPluginLoader.loadLibrary, MultiLibraryPluginLoader.isLibraryAvailable,
    MultiLibraryPluginLoader.getPluginLoaderForLibrary,
    MultiLibraryPluginLoader.isOnDemandLoadUnloadEnabled.
  solve_keeps.
Qed.

Lemma multi_unloadLibrary_keeps library_path :
  keeps world_non_pure (MultiLibraryPluginLoader.unloadLibrary library_path).
Proof. unfold MultiLibraryPluginLoader.unloadLibrary. solve_keeps. Qed.

Lemma multi_unloadLibrary_each_keeps libraries :
  keeps world_non_pure (MultiLibraryPluginLoader.unloadLibrary_each libraries).
Proof.
  induction libraries as [|library_path rest IH]; cbn [MultiLibraryPluginLoader.unloadLibrary_each].
  - apply keeps_ret.
  - apply keeps_bind; [apply multi_unloadLibrary_keeps|intros _; exact IH].
Qed.

Lemma multi_shutdown_keeps : keeps world_non_pure MultiLibraryPluginLoader.shutdownAllPluginLoaders.
Proof.
  unfold MultiLibraryPluginLoader.shutdownAllPluginLoaders,
    MultiLibraryPluginLoader.getRegisteredLibraries.
  apply keeps_bind; [apply keeps_gets|intros; apply multi_unloadLibrary_each_keeps].
Qed.

Lemma getPluginLoaderForClass_from_keeps Base class_name loaders :
  keeps system_non_pure
    (MultiLibraryPluginLoader.getPluginLoaderForClass_from Base class_name loaders).
Proof.
  induction loaders as [|loader next IH];
    cbn [MultiLibraryPluginLoader.getPluginLoaderForClass_from].
  - apply keeps_ret.
  - solve_keeps.
Qed.

#[local] Hint Resolve getPluginLoaderForClass_from_keeps : keeps.

Lemma getPluginLoaderForClass_keeps Base class_name :
  keeps world_non_pure (MultiLibraryPluginLoader.getPluginLoaderForClass Base class_name).
Proof.
  unfold MultiLibraryPluginLoader.getPluginLoaderForClass,
    MultiLibraryPluginLoader.getAllAvailablePluginLoaders.
  solve_keeps.
Qed.

#[local] Hint Resolve getPluginLoaderForClass_keeps : keeps.

(** Every operation of a process keeps the flag. *)
Lemma exec_keeps op : keeps world_non_pure (Process.exec op).
Proof.
  destruct op; cbn [Process.exec]; unfold Process.on_globals,
    MultiLibraryPluginLoader.createInstance, MultiLibraryPluginLoader.createInstance_in,
    MultiLibraryPluginLoader.createUnmanagedInstance,
    MultiLibraryPluginLoader.getPluginLoaderForLibrary;
    solve_keeps;
    auto using multi_loadLibrary_keeps, multi_unloadLibrary_keeps, multi_shutdown_keeps with keeps.
Qed.

Lemma run_keeps ops w :
  world_non_pure w = true → world_non_pure (Process.run ops w) = true.
Proof.
  revert w. induction ops as [|op ops IH]; intros w H; [exact H|].
  cbn. apply IH. apply exec_keeps. exact H.
Qed.

(** C8: a registration made while no loader is active sets the flag, and no
    sequence of operations of the process, on the registry, on a loader or
    on the multi-library loader, clears it afterwards, as long as the missing
    [impl::loadLibrary] and [impl::unloadLibrary] do not. *)
Theorem non_pure_flag_is_permanent Derived Base class_name base_class_name (w : Process.World) :
  CurrentlyActivePluginLoader (registry (sys_globals w.2)) = nullptr →
  let w1 := Process.perform (Process.RegisterPlugin Derived Base class_name base_class_name) w in
  world_non_pure w1 = true
  ∧ ∀ ops, world_non_pure (Process.run ops w1) = true.
Proof.
  intros Hactive w1.
  assert (H1 : world_non_pure w1 = true).
  { subst w1. unfold Process.perform, Process.exec, Process.on_globals,
      MultiLibraryPluginLoader.on_system, on_sys_globals, zoom.
    rewrite registerPlugin_run. cbn.
    unfold world_non_pure, system_non_pure, non_pure, registry_non_pure. cbn.
    rewrite Hactive. reflexivity. }
  split; [exact H1|]. intros ops. apply run_keeps, H1.
Qed.

End keeps_loader.

(** *** The model of the missing parts keeps the flag *)

Section keeps_model.
Variable disk : gmap string (list SpecModel.Registration).

Lemma run_static_initializers_keeps regs :
  keeps non_pure (SpecModel.run_static_initializers regs).
Proof.
  induction regs as [|r rest IH]; cbn [SpecModel.run_static_initializers]; solve_keeps.
Qed.

Lemma disk_dlopen_keeps path flags : keeps non_pure (SpecModel.disk_dlopen disk path flags).
Proof.
  unfold SpecModel.disk_dlopen. destruct (disk !! path); solve_keeps.
  apply run_static_initializers_keeps.
Qed.

Lemma keeps_shlib_on_globals {A} (m : Exec Globals A) :
  keeps non_pure m → keeps shlib_non_pure (SharedLibraryImpl.on_globals m).
Proof. apply keeps_zoom; reflexivity. Qed.

Lemma shlib_load_keeps path flags :
  keeps shlib_non_pure (SharedLibraryImpl.load (linker := SpecModel.linker disk) path flags).
Proof.
  unfold SharedLibraryImpl.load, SharedLibraryImpl.set_handle, SharedLibraryImpl.set_path.
  solve_keeps.
  - apply keeps_shlib_on_globals, disk_dlopen_keeps.
  - apply keeps_modify. auto.
  - apply keeps_modify. auto.
Qed.

Lemma shlib_unload_keeps :
  keeps shlib_non_pure (SharedLibraryImpl.unload (linker := SpecModel.linker disk)).
Proof.
  unfold SharedLibraryImpl.unload, SharedLibraryImpl.set_handle. solve_keeps.
  - apply keeps_shlib_on_globals, keeps_ret.
  - apply keeps_modify. auto.
Qed.

Lemma set_LoadedLibraryVector_keeps f :
  keeps registry_non_pure (SpecModel.set_LoadedLibraryVector f).
Proof. apply keeps_modify. auto. Qed.

Lemma set_BaseToFactoryMapMap_keeps f :
  keeps registry_non_pure (SpecModel.set_BaseToFactoryMapMap f).
Proof. apply keeps_modify. auto. Qed.

Lemma model_loadLibrary_keeps library_path loader :
  keeps non_pure (SpecModel.loadLibrary disk library_path loader).
Proof.
  unfold SpecModel.loadLibrary, SpecModel.loadLibrary_with. apply keeps_bind; [solve_keeps|].
  intros ? g Hg.
  pose proof (shlib_load_keeps library_path 0 (SharedLibrary.new, g) Hg) as Hload.
  destruct (SharedLibraryImpl.load _ _ _) as [r [library_handle g']].
  change (non_pure g' = true) in Hload.
  destruct r as [[]|e|w]; [| |exact Hload].
  - revert g' Hload.
    change (keeps non_pure
              (on_registry (impl.setCurrentlyLoadingLibraryName "";;
                            impl.setCurrentlyActivePluginLoader nullptr);;
               mapped <- gets (λ g, SpecModel.isLibraryLoadedByAnybody library_path (registry g));;
               when (negb mapped)
                 (on_registry (SpecModel.set_LoadedLibraryVector
                                 (λ v, v ++ [(library_path, library_handle)]))))).
    solve_keeps. apply set_LoadedLibraryVector_keeps.
  - revert g' Hload.
    change (keeps non_pure
              (on_registry (impl.setCurrentlyLoadingLibraryName "";;
                            impl.setCurrentlyActivePluginLoader nullptr);;
               throw (A := unit) e)).
    solve_keeps.
Qed.

Lemma model_unloadLibrary_keeps library_path loader :
  keeps non_pure (SpecModel.unloadLibrary disk library_path loader).
Proof.
  unfold SpecModel.unloadLibrary, SpecModel.unloadLibrary_with,
    impl.hasANonPurePluginLibraryBeenOpened.
  apply keeps_bind; [solve_keeps|]. intros non_pure_opened.
  apply keeps_if; [apply keeps_ret|].
  apply keeps_bind; [apply keeps_on_registry, set_BaseToFactoryMapMap_keeps|]. intros _.
  apply keeps_bind; [apply keeps_gets|]. intros records.
  apply keeps_bind; [apply keeps_on_registry, set_LoadedLibraryVector_keeps|]. intros _.
  destruct records as [|[name library_handle] ?]; [apply keeps_ret|].
  intros g Hg.
  pose proof (shlib_unload_keeps (library_handle, g) Hg) as Hun.
  destruct (SharedLibraryImpl.unload _) as [r [? g']]. exact Hun.
Qed.

Lemma model_keeps_non_pure : CoreKeepsNonPure (SpecModel.core disk).
Proof. split; [apply model_loadLibrary_keeps|apply model_unloadLibrary_keeps]. Qed.

End keeps_model.

(** *** The model of the missing parts keeps a listed name listed

    What the load on the way of [createRawInstance] needs, proved of
    [impl::loadLibrary] as the spec describes it: a load that returns has
    only added registrations made under the loading loader, so a name
    listed for that loader stays listed; a load that fails throws
    [LibraryLoadException]. *)

Section create_model.
Variable disk : gmap string (list SpecModel.Registration).
Variables (this : PluginLoaderPtr) (Base class_name : string).

Lemma lists_factories r r' :
  BaseToFactoryMapMap r' = BaseToFactoryMapMap r →
  lists_class this Base class_name r → lists_class this Base class_name r'.
Proof.
  intros Heq [Hwf Hin]. split.
  - unfold registry_wf. rewrite Heq. exact Hwf.
  - apply elem_of_getAvailableClasses. apply elem_of_getAvailableClasses in Hin.
    unfold impl.getFactoryMapForBaseClass in *. rewrite Heq. exact Hin.
Qed.

Lemma registerPlugin_keeps_listed Derived Base' class_name' base_class_name g :
  CurrentlyActivePluginLoader (registry g) = this →
  lists_class this Base class_name (registry g) →
  lists_class this Base class_name
    (registry (impl.registerPlugin Derived Base' class_name' base_class_name g).2)
  ∧ CurrentlyActivePluginLoader
      (registry (impl.registerPlugin Derived Base' class_name' base_class_name g).2) = this.
Proof.
  intros Hactive [Hwf Hin]. split; [split|].
  - apply registerPlugin_wf. exact Hwf.
  - apply elem_of_getAvailableClasses. apply elem_of_getAvailableClasses in Hin.
    destruct Hin as (f & Hf & Hown).
    rewrite registerPlugin_run. cbn. unfold impl.getFactoryMapForBaseClass at 1. cbn.
    destruct (decide (Base' = Base)) as [->|HB].
    + rewrite lookup_insert_eq. cbn.
      destruct (decide (class_name' = class_name)) as [->|Hn].
      * rewrite lookup_insert_eq. eexists. split; [reflexivity|]. left.
        unfold AbstractMetaObjectBase.isOwnedBy. rewrite new_factory_for_owners, Hactive.
        apply bool_decide_eq_true, list_elem_of_here.
      * rewrite lookup_insert_ne by exact Hn. eauto.
    + rewrite lookup_insert_ne by exact HB. eauto.
  - rewrite registerPlugin_run. cbn. exact Hactive.
Qed.

Lemma run_static_initializers_keeps_listed regs :
  ∀ g, CurrentlyActivePluginLoader (registry g) = this →
       lists_class this Base class_name (registry g) →
       ∃ g', SpecModel.run_static_initializers regs g = (Return tt, g')
             ∧ lists_class this Base class_name (registry g')
             ∧ CurrentlyActivePluginLoader (registry g') = this.
Proof.
  induction regs as [|r rest IH]; intros g Hactive Hlists.
  - exists g. split; [reflexivity|]. split; assumption.
  - cbn [SpecModel.run_static_initializers]. unfold bind at 1.
    destruct (registerPlugin_keeps_listed (SpecModel.reg_Derived r) (SpecModel.reg_Base r)
                (SpecModel.reg_class_name r) (SpecModel.reg_base_class_name r) g Hactive Hlists)
      as [Hlists' Hactive'].
    rewrite registerPlugin_run in *. cbn [fst snd] in *.
    apply IH; assumption.
Qed.

(** A load of a library that is on disk returns, with the name still
    listed. *)
Lemma model_loadLibrary_keeps_listed library_path g regs :
  disk !! library_path = Some regs →
  lists_class this Base class_name (registry g) →
  ∃ g1, SpecModel.loadLibrary disk library_path this g = (Return tt, g1)
        ∧ lists_class this Base class_name (registry g1).
Proof.
  intros Hdisk Hlists.
  unfold SpecModel.loadLibrary, SpecModel.loadLibrary_with.
  unfold bind at 1. cbn [fst snd].
  set (g0 := (on_registry (impl.setCurrentlyActivePluginLoader this;;
                           impl.setCurrentlyLoadingLibraryName library_path) g).2).
  assert (Henter : on_registry (impl.setCurrentlyActivePluginLoader this;;
                                impl.setCurrentlyLoadingLibraryName library_path) g
                   = (Return tt, g0)) by reflexivity.
  rewrite Henter.
  assert (Hactive0 : CurrentlyActivePluginLoader (registry g0) = this) by reflexivity.
  assert (Hlists0 : lists_class this Base class_name (registry g0))
    by (apply (lists_factories (registry g)); [reflexivity|exact Hlists]).
  clearbody g0. clear Henter.
  assert (Hopen : ∃ g', dlopen (DynamicLinker := SpecModel.linker disk) library_path
                          (SharedLibraryImpl.realFlags (linker := SpecModel.linker disk) 0) g0
                        = (Return 1, g')
                        ∧ lists_class this Base class_name (registry g')).
  { cbn [dlopen SpecModel.linker]. unfold SpecModel.disk_dlopen. rewrite Hdisk.
    unfold bind at 1, gets at 1. cbn [fst snd].
    destruct (bool_decide (library_path ∈ (LoadedLibraryVector (registry g0)).*1)); cbn [negb when].
    - exists g0. split; [reflexivity|exact Hlists0].
    - unfold bind at 1.
      destruct (run_static_initializers_keeps_listed regs g0 Hactive0 Hlists0)
        as (g' & -> & Hlists' & _).
      exists g'. split; [reflexivity|exact Hlists']. }
  destruct Hopen as (g' & Hopen & Hlists').
  unfold SharedLibraryImpl.load, SharedLibraryImpl.on_globals, SharedLibraryImpl.set_handle,
    SharedLibraryImpl.set_path, bind, gets, throw, modify, zoom. cbn.
  change (0 =? 0) with true. cbn.
  change (SpecModel.disk_dlopen disk library_path _ g0)
    with (dlopen (DynamicLinker := SpecModel.linker disk) library_path
            (SharedLibraryImpl.realFlags (linker := SpecModel.linker disk) 0) g0).
  rewrite Hopen. cbn. change (1 =? 0) with false. cbn.
  unfold when, on_registry, zoom, ret. cbn.
  destruct (SpecModel.isLibraryLoadedByAnybody library_path _); cbn;
    eexists; (split; [reflexivity|]);
    (apply (lists_factories (registry g')); [reflexivity|exact Hlists']).
Qed.

(** With [impl::loadLibrary] as the spec describes it, [createRawInstance]
    on a listed name returns an object, for every loader, unless the
    library is neither loaded nor on disk; then the load on the way throws
    [LibraryLoadException].  It never throws [CreateClassException]. *)
Lemma model_listed_class_is_created (l : PluginLoader.t) (g : Globals) (managed : bool) :
  registry_wf (registry g) →
  class_name ∈ impl.getAvailableClasses Base this (registry g) →
  let path := PluginLoader.library_path_ l in
  let run :=
    PluginLoader.createRawInstance (core := SpecModel.core disk) this Base class_name managed
      (l, g) in
  (SpecModel.isLibraryLoaded path this (registry g) = true ∨ is_Some (disk !! path) →
   ∃ obj s, run = (Return (Some obj), s))
  ∧ (SpecModel.isLibraryLoaded path this (registry g) = false → disk !! path = None →
     ∃ s, run = (Throw (LibraryLoadException
                          ("Could not load library: " +:+ path +:+
                           ": cannot open shared object file: No such file or directory")),
                 s)).
Proof.
  intros Hwf Hin path run.
  pose proof (createRawInstance_run (core := SpecModel.core disk) this l g Base class_name managed)
    as Hrun.
  cbv zeta in Hrun. fold path run in Hrun.
  change (impl.isLibraryLoaded (Core := SpecModel.core disk) path this (registry g))
    with (SpecModel.isLibraryLoaded path this (registry g)) in Hrun.
  match type of Hrun with
  | _ = if _ then _ else match impl.loadLibrary _ _ ?n with _ => _ end => set (noted := n) in *
  end.
  assert (Hnoted : lists_class this Base class_name (registry noted)).
  { apply (lists_factories (registry g)); [|split; assumption].
    subst noted. destruct managed; [|reflexivity].
    destruct (has_unmananged_instance_been_created_ g && PluginLoader.ondemand_load_unload_ l);
      reflexivity. }
  assert (Hfinish : ∀ (l0 l1 : PluginLoader.t) g0,
            lists_class this Base class_name (registry g0) →
            ∃ (obj : Object) (s : PluginLoader.State),
              match impl.createInstance Base class_name this g0 with
              | (Return (Some obj), g') => (Return (Some obj), (l1, g'))
              | (Return None, g') => (Crash "Assertion failed: obj != nullptr", (l0, g'))
              | (Throw e, g') => (Throw e, (l0, g'))
              | (Crash w, g') => (Crash w, (l0, g'))
              end = (Return (Some obj), s)).
  { intros l0 l1 g0 [Hwf0 Hin0].
    destruct (createInstance_available Base this g0 class_name Hwf0 Hin0) as (obj & lines & ->).
    eauto. }
  split.
  - intros Hcase.
    destruct (SpecModel.isLibraryLoaded path this (registry g)) eqn:Hloaded.
    + destruct (Hfinish l
                  (if managed
                   then PluginLoader.with_plugin_ref_count
                          (int_wrap (PluginLoader.plugin_ref_count_ l + 1)) l
                   else l) noted Hnoted) as (obj & s & Heq).
      exists obj, s. exact (eq_trans Hrun Heq).
    + destruct Hcase as [?|[regs Hdisk]]; [discriminate|].
      destruct (model_loadLibrary_keeps_listed path noted regs Hdisk Hnoted)
        as (g1 & Hload & Hlists1).
      change (impl.loadLibrary (Core := SpecModel.core disk) path this noted)
        with (SpecModel.loadLibrary disk path this noted) in Hrun.
      rewrite Hload in Hrun.
      set (loading := PluginLoader.with_load_ref_count
                        (int_wrap (PluginLoader.load_ref_count_ l + 1)) l) in *.
      destruct (Hfinish loading
                  (if managed
                   then PluginLoader.with_plugin_ref_count
                          (int_wrap (PluginLoader.plugin_ref_count_ loading + 1)) loading
                   else loading) g1 Hlists1) as (obj & s & Heq).
      exists obj, s. exact (eq_trans Hrun Heq).
  - intros Hloaded Hdisk. rewrite Hloaded in Hrun.
    assert (Hopen : dlopen (DynamicLinker := SpecModel.linker disk) path
                      (SharedLibraryImpl.realFlags (linker := SpecModel.linker disk) 0)
                      (on_registry (impl.setCurrentlyActivePluginLoader this;;
                                    impl.setCurrentlyLoadingLibraryName path) noted).2
                    = (Return 0, (on_registry (impl.setCurrentlyActivePluginLoader this;;
                                               impl.setCurrentlyLoadingLibraryName path) noted).2)).
    { cbn [dlopen SpecModel.linker]. unfold SpecModel.disk_dlopen. rewrite Hdisk. reflexivity. }
    pose proof (model_loadLibrary_failure (SpecModel.linker disk) path this noted _ Hopen) as Hload.
    change (impl.loadLibrary (Core := SpecModel.core disk) path this noted)
      with (SpecModel.loadLibrary_with (SpecModel.linker disk) path this noted) in Hrun.
    rewrite Hload in Hrun. eexists. exact Hrun.
Qed.

End create_model.


(** * Further properties *)

(** ** The registry *)

(** X1: a class registered under an active loader is created for that
    loader and refused to every other one; a class registered under no
    loader is created for every loader.  The object is of the registered
    derived type and attributed to the library being loaded. *)
Theorem registerPlugin_then_createInstance Derived Base class_name base_class_name g requester :
  registry_wf (registry g) →
  let active := CurrentlyActivePluginLoader (registry g) in
  let g' := (impl.registerPlugin Derived Base class_name base_class_name g).2 in
  (requester = active ∨ active = nullptr →
     ∃ g'', impl.createInstance Base class_name requester g'
            = (Return (Some {| obj_derived := Derived;
                               obj_library := CurrentlyLoadingLibraryName (registry g) |}), g''))
  ∧ (requester ≠ active → active ≠ nullptr →
       impl.createInstance Base class_name requester g'
       = (Throw (CreateClassException (impl.msg_could_not_create class_name)), g')).
Proof.
  intros Hwf active g'.
  assert (Hwf' : registry_wf (registry g')) by (apply registerPlugin_wf; exact Hwf).
  assert (Hf : impl.getFactoryMapForBaseClass Base (registry g') !! class_name
               = Some (impl.new_factory_for Derived Base class_name base_class_name (registry g))).
  { subst g'. rewrite registerPlugin_run. cbn. unfold impl.getFactoryMapForBaseClass at 1. cbn.
    rewrite lookup_insert_eq. cbn. apply lookup_insert_eq. }
  rewrite createInstance_run by exact Hwf'. rewrite Hf.
  unfold AbstractMetaObjectBase.isOwnedBy. rewrite new_factory_for_owners. fold active.
  split.
  - intros Hown. destruct (bool_decide (requester ∈ [active])) eqn:E1.
    + eexists. reflexivity.
    + destruct (bool_decide (nullptr ∈ [active])) eqn:E2.
      * eexists. reflexivity.
      * apply bool_decide_eq_false in E1, E2. exfalso.
        destruct Hown as [->| ->]; [apply E1|apply E2]; apply list_elem_of_here.
  - intros Hne Hnn.
    rewrite bool_decide_eq_false_2 by (intros ->%list_elem_of_singleton; contradiction).
    rewrite bool_decide_eq_false_2 by (intros H%list_elem_of_singleton; congruence).
    reflexivity.
Qed.

(** X2: after a registration, the class is listed for the loader that was
    active, and for every loader when none was; the listing of every other
    name of the base is as before. *)
Theorem registerPlugin_then_available Derived Base class_name base_class_name g loader :
  let active := CurrentlyActivePluginLoader (registry g) in
  let r' := registry (impl.registerPlugin Derived Base class_name base_class_name g).2 in
  (class_name ∈ impl.getAvailableClasses Base loader r' ↔ loader = active ∨ active = nullptr)
  ∧ (∀ other, other ≠ class_name →
       other ∈ impl.getAvailableClasses Base loader r'
       ↔ other ∈ impl.getAvailableClasses Base loader (registry g)).
Proof.
  intros active r'.
  assert (Hmap : impl.getFactoryMapForBaseClass Base r'
                 = <[class_name := impl.new_factory_for Derived Base class_name base_class_name
                                     (registry g)]>
                     (impl.getFactoryMapForBaseClass Base (registry g))).
  { subst r'. rewrite registerPlugin_run. cbn. unfold impl.getFactoryMapForBaseClass at 1. cbn.
    rewrite lookup_insert_eq. reflexivity. }
  split.
  - rewrite elem_of_getAvailableClasses, Hmap, lookup_insert_eq.
    unfold AbstractMetaObjectBase.isOwnedBy. split.
    + intros (f & [= <-] & Hown). rewrite new_factory_for_owners in Hown. fold active in Hown.
      destruct Hown as [H%bool_decide_eq_true|H%bool_decide_eq_true];
        apply list_elem_of_singleton in H; auto.
    + intros Hown. eexists. split; [reflexivity|]. rewrite new_factory_for_owners. fold active.
      destruct Hown as [->| ->]; [left|right]; apply bool_decide_eq_true, list_elem_of_here.
  - intros other Hne. rewrite !elem_of_getAvailableClasses, Hmap.
    rewrite lookup_insert_ne by congruence. reflexivity.
Qed.

(** X3: what a registration touches.  Only the entry of the class in the map
    of its base changes among the factories; the loading context and the
    list of loaded libraries stay; and the non-pure flag is set exactly when
    it was set before or no loader is active. *)
Theorem registerPlugin_frame Derived Base class_name base_class_name g :
  let r := registry g in
  let g' := (impl.registerPlugin Derived Base class_name base_class_name g).2 in
  (∀ Base' class_name',
     (Base', class_name') ≠ (Base, class_name) →
     impl.getFactoryMapForBaseClass Base' (registry g') !! class_name'
     = impl.getFactoryMapForBaseClass Base' r !! class_name')
  ∧ CurrentlyActivePluginLoader (registry g') = CurrentlyActivePluginLoader r
  ∧ CurrentlyLoadingLibraryName (registry g') = CurrentlyLoadingLibraryName r
  ∧ LoadedLibraryVector (registry g') = LoadedLibraryVector r
  ∧ has_unmananged_instance_been_created_ g' = has_unmananged_instance_been_created_ g
  ∧ NonPurePluginLibraryBeenOpened (registry g')
    = NonPurePluginLibraryBeenOpened r || bool_decide (CurrentlyActivePluginLoader r = nullptr).
Proof.
  intros r g'. subst g'. rewrite registerPlugin_run. cbn. fold r.
  split; [|split; [reflexivity|split; [reflexivity|split; [reflexivity|split; [reflexivity|]]]]].
  - intros Base' class_name' Hne. unfold impl.getFactoryMapForBaseClass at 1. cbn.
    destruct (decide (Base = Base')) as [<-|HB].
    + rewrite lookup_insert_eq. cbn. apply lookup_insert_ne. congruence.
    + rewrite lookup_insert_ne by exact HB. reflexivity.
  - destruct (bool_decide (nullptr = CurrentlyActivePluginLoader r)) eqn:E.
    + apply bool_decide_eq_true in E. rewrite <- E.
      rewrite (bool_decide_eq_true_2 (nullptr = nullptr)) by reflexivity.
      symmetry. apply orb_true_r.
    + apply bool_decide_eq_false in E.
      rewrite bool_decide_eq_false_2 by congruence. symmetry. apply orb_false_r.
Qed.

(** Selecting keys from a list of bindings sorted by key keeps the order. *)
Lemma omap_keys_ascending {V} (select : string * V → option string) (items : list (string * V)) :
  (∀ it k, select it = Some k → k = it.1) →
  StronglySorted string_lt items.*1 →
  StronglySorted string_lt (omap select items).
Proof.
  intros Hkey. induction items as [|it items IH]; intros Hs; cbn; [constructor|].
  cbn in Hs. apply StronglySorted_inv in Hs as [Hs Hall].
  destruct (select it) as [k|] eqn:Hit; cbn; [|auto].
  apply Hkey in Hit as ->.
  constructor; [auto|].
  apply Forall_forall. intros k Hk.
  apply list_elem_of_omap in Hk as (it' & Hin & Hsel).
  apply Hkey in Hsel as ->.
  rewrite Forall_forall in Hall. apply Hall. apply list_elem_of_fmap. eauto.
Qed.

Lemma ascending_NoDup (l : list string) : StronglySorted string_lt l → NoDup l.
Proof.
  induction 1 as [|k l Hs IH Hall]; constructor; [|exact IH].
  intros Hin. rewrite Forall_forall in Hall.
  apply Hall, string_lt_le_ne in Hin as [_ Hne]. congruence.
Qed.

(** X4: the list [getAvailableClasses] returns is the names owned by the
    loader, in ascending order, followed by the names owned by nobody and
    not by the loader, in ascending order; no name occurs twice. *)
Theorem getAvailableClasses_order Base loader r :
  ∃ classes classes_with_no_owner,
    impl.getAvailableClasses Base loader r = classes ++ classes_with_no_owner
    ∧ StronglySorted string_lt classes
    ∧ StronglySorted string_lt classes_with_no_owner
    ∧ (∀ name, name ∈ classes ↔
         ∃ f, impl.getFactoryMapForBaseClass Base r !! name = Some f
              ∧ AbstractMetaObjectBase.isOwnedBy f loader = true)
    ∧ (∀ name, name ∈ classes_with_no_owner ↔
         ∃ f, impl.getFactoryMapForBaseClass Base r !! name = Some f
              ∧ AbstractMetaObjectBase.isOwnedBy f loader = false
              ∧ AbstractMetaObjectBase.isOwnedBy f nullptr = true)
    ∧ NoDup (impl.getAvailableClasses Base loader r).
Proof.
  unfold impl.getAvailableClasses. cbn zeta.
  set (items := std_map_items (impl.getFactoryMapForBaseClass Base r)).
  assert (Hsorted : StronglySorted string_lt items.*1) by apply std_map_items_ascending.
  match goal with
  | |- ∃ _ _, omap ?f1 items ++ omap ?f2 items = _ ∧ _ =>
      set (owned := f1); set (unowned := f2)
  end.
  assert (Hs1 : StronglySorted string_lt (omap owned items)).
  { apply omap_keys_ascending; [|exact Hsorted]. intros it k. subst owned. cbn.
    destruct (AbstractMetaObjectBase.isOwnedBy it.2 loader); congruence. }
  assert (Hs2 : StronglySorted string_lt (omap unowned items)).
  { apply omap_keys_ascending; [|exact Hsorted]. intros it k. subst unowned. cbn.
    destruct (AbstractMetaObjectBase.isOwnedBy it.2 loader); [discriminate|].
    destruct (AbstractMetaObjectBase.isOwnedBy it.2 nullptr); congruence. }
  assert (H1 : ∀ name, name ∈ omap owned items ↔
                 ∃ f, impl.getFactoryMapForBaseClass Base r !! name = Some f
                      ∧ AbstractMetaObjectBase.isOwnedBy f loader = true).
  { intros name. rewrite list_elem_of_omap. split.
    - intros ([k f] & Hin%elem_of_std_map_items & Hsel). subst owned. cbn in Hsel.
      destruct (AbstractMetaObjectBase.isOwnedBy f loader) eqn:E; [|discriminate].
      injection Hsel as ->. eauto.
    - intros (f & Hf%elem_of_std_map_items & Hown). exists (name, f).
      split; [exact Hf|]. subst owned. cbn. rewrite Hown. reflexivity. }
  assert (H2 : ∀ name, name ∈ omap unowned items ↔
                 ∃ f, impl.getFactoryMapForBaseClass Base r !! name = Some f
                      ∧ AbstractMetaObjectBase.isOwnedBy f loader = false
                      ∧ AbstractMetaObjectBase.isOwnedBy f nullptr = true).
  { intros name. rewrite list_elem_of_omap. split.
    - intros ([k f] & Hin%elem_of_std_map_items & Hsel). subst unowned. cbn in Hsel.
      destruct (AbstractMetaObjectBase.isOwnedBy f loader) eqn:E; [discriminate|].
      destruct (AbstractMetaObjectBase.isOwnedBy f nullptr) eqn:E'; [|discriminate].
      injection Hsel as ->. eauto.
    - intros (f & Hf%elem_of_std_map_items & Hown & Hnull). exists (name, f).
      split; [exact Hf|]. subst unowned. cbn. rewrite Hown, Hnull. reflexivity. }
  exists (omap owned items), (omap unowned items).
  split; [reflexivity|]. split; [exact Hs1|]. split; [exact Hs2|].
  split; [exact H1|]. split; [exact H2|].
  apply NoDup_app. split; [apply ascending_NoDup, Hs1|].
  split; [|apply ascending_NoDup, Hs2].
  intros name (f & Hf & Hown)%H1 (f' & Hf' & Hown' & _)%H2. congruence.
Qed.

(** X5: [createInstance] changes nothing but the console, whether it
    returns or throws. *)
Theorem createInstance_frame Base derived_class_name loader g :
  let g' := (impl.createInstance Base derived_class_name loader g).2 in
  registry g' = registry g
  ∧ has_unmananged_instance_been_created_ g' = has_unmananged_instance_been_created_ g
  ∧ ∃ lines, console g' = console g ++ lines.
Proof.
  destruct g as [r u c]. unfold impl.createInstance.
  unfold logDebug, logError, log, add_log, on_registry, zoom, set_registry, bind, ret, gets,
    throw, modify. cbn.
  destruct (bool_decide (is_Some (impl.getFactoryMapForBaseClass Base r !! derived_class_name)));
    cbn.
  - destruct (AbstractMetaObjectBase.dynamic_cast Base _) as [f|]; cbn.
    + destruct (AbstractMetaObjectBase.isOwnedBy f loader); cbn.
      * destruct r. repeat split. eexists [_]. reflexivity.
      * destruct (AbstractMetaObjectBase.isOwnedBy f nullptr); cbn; destruct r; repeat split.
        -- eexists [_; _]. rewrite <- app_assoc. reflexivity.
        -- exists []. symmetry. apply app_nil_r.
    + destruct r. repeat split. exists []. symmetry. apply app_nil_r.
  - destruct r. repeat split. eexists [_]. reflexivity.
Qed.

(** X6: [registerPlugin<Derived, Base>] files every factory in the map of
    [Base], so a registry built by registrations keeps each factory under
    the base it was made for, and the [dynamic_cast] of [createInstance] on
    a factory found in the map of a base yields that factory. *)
Theorem factories_filed_under_their_base Derived Base class_name base_class_name g :
  registry_wf (registry g) →
  let g' := (impl.registerPlugin Derived Base class_name base_class_name g).2 in
  registry_wf (registry g')
  ∧ ∀ Base' class_name' f,
      impl.getFactoryMapForBaseClass Base' (registry g') !! class_name' = Some f →
      AbstractMetaObjectBase.dynamic_cast Base' (Some f) = Some f.
Proof.
  intros Hwf g'.
  assert (Hwf' : registry_wf (registry g')) by (apply registerPlugin_wf; exact Hwf).
  split; [exact Hwf'|].
  intros Base' class_name' f Hf. unfold AbstractMetaObjectBase.dynamic_cast.
  rewrite decide_True; [reflexivity|].
  unfold impl.getFactoryMapForBaseClass in Hf.
  destruct (BaseToFactoryMapMap (registry g') !! Base') as [fm|] eqn:Hfm; cbn in Hf.
  - exact (Hwf' _ _ Hfm _ _ Hf).
  - rewrite lookup_empty in Hf. discriminate.
Qed.

(** ** A loader *)

Section loader_more.
Context `{core : impl.Core}.
Implicit Types (this : PluginLoaderPtr) (l : PluginLoader.t) (g : Globals).

(** X7: [loadLibrary] counts the load before it calls [impl::loadLibrary]:
    when that throws, the exception leaves [loadLibrary] with the load count
    already one higher. *)
Theorem loadLibrary_failure_counts this l g e g' :
  INT_MIN ≤ PluginLoader.load_ref_count_ l < INT_MAX →
  impl.loadLibrary (PluginLoader.library_path_ l) this g = (Throw e, g') →
  PluginLoader.loadLibrary this (l, g)
  = (Throw e, (PluginLoader.with_load_ref_count (PluginLoader.load_ref_count_ l + 1) l, g')).
Proof.
  intros Hc Hload. unfold_exec. cbn.
  rewrite int_wrap_in_range by lia. rewrite Hload. reflexivity.
Qed.

(** X8: the constructor.  An on-demand loader is made without any load, its
    counts at zero; a loader that is not on-demand is made by one call of
    [impl::loadLibrary], and when that returns its load count is one. *)
Theorem constructor_counts this library_path g :
  PluginLoader.constructor this library_path true g
  = (Return {| PluginLoader.ondemand_load_unload_ := true;
               PluginLoader.library_path_ := library_path;
               PluginLoader.load_ref_count_ := 0;
               PluginLoader.plugin_ref_count_ := 0 |},
     add_log CONSOLE_LOG_DEBUG (PluginLoader.msg_constructing library_path) g)
  ∧ ∀ g',
      impl.loadLibrary library_path this
        (add_log CONSOLE_LOG_DEBUG (PluginLoader.msg_constructing library_path) g)
      = (Return tt, g') →
      PluginLoader.constructor this library_path false g
      = (Return {| PluginLoader.ondemand_load_unload_ := false;
                   PluginLoader.library_path_ := library_path;
                   PluginLoader.load_ref_count_ := 1;
                   PluginLoader.plugin_ref_count_ := 0 |}, g').
Proof.
  split; [reflexivity|].
  intros g' Hload. unfold PluginLoader.constructor. unfold_exec. cbn.
  rewrite Hload. reflexivity.
Qed.

(** The release of an instance that is not the last one of an on-demand
    loader without unmanaged instances. *)
Lemma onPluginDeletion_counts_down this l g obj :
  1 ≤ PluginLoader.plugin_ref_count_ l ≤ INT_MAX →
  PluginLoader.plugin_ref_count_ l ≠ 1
  ∨ PluginLoader.ondemand_load_unload_ l = false
  ∨ has_unmananged_instance_been_created_ g = true →
  ∃ g',
    PluginLoader.onPluginDeletion this (Some obj) (l, g)
    = (Return tt,
       (PluginLoader.with_plugin_ref_count (PluginLoader.plugin_ref_count_ l - 1) l, g'))
    ∧ registry g' = registry g.
Proof.
  intros Hc Hcase. unfold PluginLoader.onPluginDeletion. unfold_exec. cbn.
  rewrite int_wrap_in_range by (unfold INT_MIN, INT_MAX in *; lia).
  destruct (0 <=? PluginLoader.plugin_ref_count_ l - 1) eqn:E0; [|lia]. cbn.
  destruct (0 =? PluginLoader.plugin_ref_count_ l - 1) eqn:E1; cbn.
  - destruct (PluginLoader.ondemand_load_unload_ l) eqn:E2; cbn.
    + destruct (has_unmananged_instance_been_created_ g) eqn:E3; cbn.
      * eexists. split; reflexivity.
      * destruct Hcase as [?|[?|?]]; [lia|discriminate..].
    + eexists. split; reflexivity.
  - eexists. split; reflexivity.
Qed.

(** X9: the release of a managed instance only counts down, unless it is
    the last instance of an on-demand loader while no unmanaged instance
    exists: the load count and the registry are as before, and
    [impl::unloadLibrary] is not reached, whatever it does. *)
Theorem onPluginDeletion_only_counts_down this l g obj :
  1 ≤ PluginLoader.plugin_ref_count_ l ≤ INT_MAX →
  PluginLoader.plugin_ref_count_ l ≠ 1
  ∨ PluginLoader.ondemand_load_unload_ l = false
  ∨ has_unmananged_instance_been_created_ g = true →
  ∃ g',
    PluginLoader.onPluginDeletion this (Some obj) (l, g)
    = (Return tt,
       (PluginLoader.with_plugin_ref_count (PluginLoader.plugin_ref_count_ l - 1) l, g'))
    ∧ registry g' = registry g.
Proof. apply onPluginDeletion_counts_down. Qed.

(** X10: a release that finds no outstanding instance, through a pointer
    that is not null, fails the assertion [plugin_ref_count_ >= 0] (in a
    build where [assert] is active, as everywhere in this development). *)
Theorem onPluginDeletion_underflow this l g obj :
  INT_MIN < PluginLoader.plugin_ref_count_ l ≤ 0 →
  ∃ s', PluginLoader.onPluginDeletion this (Some obj) (l, g)
        = (Crash "Assertion failed: plugin_ref_count_ >= 0", s').
Proof.
  intros Hc. unfold PluginLoader.onPluginDeletion. unfold_exec. cbn.
  rewrite int_wrap_in_range by (unfold INT_MIN, INT_MAX in *; lia).
  destruct (0 <=? PluginLoader.plugin_ref_count_ l - 1) eqn:E0; [lia|].
  eexists. reflexivity.
Qed.

Lemma with_plugin_ref_count_id l c :
  PluginLoader.plugin_ref_count_ l = c → PluginLoader.with_plugin_ref_count c l = l.
Proof. destruct l; cbn; intros ->; reflexivity. Qed.

(** A managed creation of a listed class by a loaded loader returns the
    object and counts it. *)
Lemma createRawInstance_managed_counts this l g Base class_name :
  registry_wf (registry g) →
  class_name ∈ impl.getAvailableClasses Base this (registry g) →
  impl.isLibraryLoaded (PluginLoader.library_path_ l) this (registry g) = true →
  PluginLoader.plugin_ref_count_ l < INT_MAX →
  INT_MIN ≤ PluginLoader.plugin_ref_count_ l →
  ∃ obj g',
    PluginLoader.createRawInstance this Base class_name true (l, g)
    = (Return (Some obj),
       (PluginLoader.with_plugin_ref_count (PluginLoader.plugin_ref_count_ l + 1) l, g'))
    ∧ registry g' = registry g
    ∧ has_unmananged_instance_been_created_ g' = has_unmananged_instance_been_created_ g.
Proof.
  intros Hwf Hin Hloaded Hmax Hmin.
  unfold PluginLoader.createRawInstance. unfold_exec. cbn.
  destruct (has_unmananged_instance_been_created_ g && PluginLoader.ondemand_load_unload_ l);
    cbn; rewrite Hloaded; cbn.
  - edestruct (createInstance_available Base this) as (obj & lines & ->); [| |cbn].
    + exact Hwf.
    + exact Hin.
    + rewrite int_wrap_in_range by lia. eexists _, _. split; [reflexivity|]. split; reflexivity.
  - edestruct (createInstance_available Base this) as (obj & lines & ->); [| |cbn].
    + exact Hwf.
    + exact Hin.
    + rewrite int_wrap_in_range by lia. eexists _, _. split; [reflexivity|]. split; reflexivity.
Qed.

(** X11: creating a managed instance and releasing it is a round trip for a
    loader that is not on-demand or has another instance outstanding: the
    count goes up by one and comes back, the load count and the registry
    are never touched. *)
Theorem create_release_round_trip this l g Base class_name :
  registry_wf (registry g) →
  class_name ∈ impl.getAvailableClasses Base this (registry g) →
  impl.isLibraryLoaded (PluginLoader.library_path_ l) this (registry g) = true →
  0 ≤ PluginLoader.plugin_ref_count_ l < INT_MAX →
  PluginLoader.ondemand_load_unload_ l = false ∨ 1 ≤ PluginLoader.plugin_ref_count_ l →
  ∃ obj g1 g2,
    PluginLoader.createInstance this Base class_name (l, g)
    = (Return {| managed_get := Some obj; managed_deleter := this |},
       (PluginLoader.with_plugin_ref_count (PluginLoader.plugin_ref_count_ l + 1) l, g1))
    ∧ PluginLoader.onPluginDeletion this (Some obj)
        (PluginLoader.with_plugin_ref_count (PluginLoader.plugin_ref_count_ l + 1) l, g1)
      = (Return tt, (l, g2))
    ∧ registry g2 = registry g.
Proof.
  intros Hwf Hin Hloaded Hc Hcase.
  destruct (createRawInstance_managed_counts this l g Base class_name Hwf Hin Hloaded)
    as (obj & g1 & Hcreate & Hr1 & Hu1); [lia|unfold INT_MIN; lia|].
  set (l1 := PluginLoader.with_plugin_ref_count (PluginLoader.plugin_ref_count_ l + 1) l) in *.
  destruct (onPluginDeletion_counts_down this l1 g1 obj) as (g2 & Hrel & Hr2).
  { subst l1. cbn. lia. }
  { subst l1. cbn. destruct Hcase as [?|?]; [right; left; assumption|left; lia]. }
  exists obj, g1, g2. split; [|split].
  - unfold PluginLoader.createInstance, bind. rewrite Hcreate. reflexivity.
  - rewrite Hrel. subst l1. unfold PluginLoader.with_plugin_ref_count. cbn.
    replace (PluginLoader.plugin_ref_count_ l + 1 - 1) with (PluginLoader.plugin_ref_count_ l)
      by lia.
    destruct l; reflexivity.
  - congruence.
Qed.

(** A creation by a loaded loader of a class it does not list. *)
Lemma createInstance_not_available Base loader g class_name :
  registry_wf (registry g) →
  class_name ∉ impl.getAvailableClasses Base loader (registry g) →
  ∃ lines,
    impl.createInstance Base class_name loader g =
      (Throw (CreateClassException (impl.msg_could_not_create class_name)),
       {| registry := registry g;
          has_unmananged_instance_been_created_ := has_unmananged_instance_been_created_ g;
          console := console g ++ lines |}).
Proof.
  intros Hwf Hnot. rewrite createInstance_run by exact Hwf.
  destruct (impl.getFactoryMapForBaseClass Base (registry g) !! class_name) as [f|] eqn:Hf.
  - destruct (AbstractMetaObjectBase.isOwnedBy f loader) eqn:E1.
    { exfalso. apply Hnot, elem_of_getAvailableClasses. eauto. }
    destruct (AbstractMetaObjectBase.isOwnedBy f nullptr) eqn:E2.
    { exfalso. apply Hnot, elem_of_getAvailableClasses. eauto. }
    exists []. rewrite app_nil_r. destruct g; reflexivity.
  - eexists [_]. reflexivity.
Qed.

(** X12: a creation that fails counts no instance.  When a loaded loader is
    asked for a class it does not list, [createRawInstance] throws
    [CreateClassException] and leaves the loader object and the registry as
    they were; an unmanaged request has by then set the process-wide flag
    all the same. *)
Theorem createRawInstance_failure this l g Base class_name managed :
  registry_wf (registry g) →
  class_name ∉ impl.getAvailableClasses Base this (registry g) →
  impl.isLibraryLoaded (PluginLoader.library_path_ l) this (registry g) = true →
  ∃ g',
    PluginLoader.createRawInstance this Base class_name managed (l, g)
    = (Throw (CreateClassException (impl.msg_could_not_create class_name)), (l, g'))
    ∧ registry g' = registry g
    ∧ has_unmananged_instance_been_created_ g'
      = has_unmananged_instance_been_created_ g || negb managed.
Proof.
  intros Hwf Hnot Hloaded.
  unfold PluginLoader.createRawInstance. unfold_exec. cbn.
  destruct managed; cbn.
  - destruct (has_unmananged_instance_been_created_ g && PluginLoader.ondemand_load_unload_ l);
      cbn; rewrite Hloaded; cbn.
    + edestruct (createInstance_not_available Base this) as (lines & ->); [| |cbn].
      * exact Hwf.
      * exact Hnot.
      * eexists. split; [reflexivity|]. split; [reflexivity|]. cbn. symmetry. apply orb_false_r.
    + edestruct (createInstance_not_available Base this) as (lines & ->); [| |cbn].
      * exact Hwf.
      * exact Hnot.
      * eexists. split; [reflexivity|]. split; [reflexivity|]. cbn. symmetry. apply orb_false_r.
  - rewrite Hloaded. cbn.
    edestruct (createInstance_not_available Base this) as (lines & ->); [| |cbn].
    + exact Hwf.
    + exact Hnot.
    + eexists. split; [reflexivity|]. split; [reflexivity|]. cbn. symmetry. apply orb_true_r.
Qed.

(** An unmanaged creation of a listed class by a loaded loader. *)
Lemma createUnmanagedInstance_available this l g Base class_name :
  registry_wf (registry g) →
  class_name ∈ impl.getAvailableClasses Base this (registry g) →
  impl.isLibraryLoaded (PluginLoader.library_path_ l) this (registry g) = true →
  ∃ obj g',
    PluginLoader.createUnmanagedInstance this Base class_name (l, g)
    = (Return (Some obj), (l, g'))
    ∧ registry g' = registry g
    ∧ has_unmananged_instance_been_created_ g' = true.
Proof.
  intros Hwf Hin Hloaded.
  unfold PluginLoader.createUnmanagedInstance, PluginLoader.createRawInstance. unfold_exec. cbn.
  rewrite Hloaded. cbn.
  edestruct (createInstance_available Base this) as (obj & lines & ->); [| |cbn].
  - exact Hwf.
  - exact Hin.
  - eexists _, _. split; [reflexivity|]. split; reflexivity.
Qed.

(** X13: an unmanaged creation is not counted: the loader object is as
    before, and the process-wide flag is set from then on. *)
Theorem createUnmanagedInstance_not_counted this l g Base class_name :
  registry_wf (registry g) →
  class_name ∈ impl.getAvailableClasses Base this (registry g) →
  impl.isLibraryLoaded (PluginLoader.library_path_ l) this (registry g) = true →
  ∃ obj g',
    PluginLoader.createUnmanagedInstance this Base class_name (l, g)
    = (Return (Some obj), (l, g'))
    ∧ registry g' = registry g
    ∧ has_unmananged_instance_been_created_ g' = true.
Proof. apply createUnmanagedInstance_available. Qed.

(** X14: [unloadLibrary] never raises the load count and never leaves it
    below zero, whatever its outcome; the other fields of the loader are
    untouched. *)
Theorem unloadLibrary_count_bounds this l g :
  0 ≤ PluginLoader.load_ref_count_ l ≤ INT_MAX →
  let l' := (PluginLoader.unloadLibrary this (l, g)).2.1 in
  0 ≤ PluginLoader.load_ref_count_ l' ≤ PluginLoader.load_ref_count_ l
  ∧ PluginLoader.load_ref_count_ l - 1 ≤ PluginLoader.load_ref_count_ l'
  ∧ PluginLoader.plugin_ref_count_ l' = PluginLoader.plugin_ref_count_ l
  ∧ PluginLoader.library_path_ l' = PluginLoader.library_path_ l
  ∧ PluginLoader.ondemand_load_unload_ l' = PluginLoader.ondemand_load_unload_ l.
Proof.
  intros Hc. unfold_exec. cbn.
  destruct (0 <? PluginLoader.plugin_ref_count_ l) eqn:E; cbn; [repeat split; lia|].
  rewrite int_wrap_in_range by (unfold INT_MIN, INT_MAX in *; lia).
  destruct (0 =? PluginLoader.load_ref_count_ l - 1) eqn:E0; cbn.
  - destruct (impl.unloadLibrary _ _ g) as [[ | | ] g']; cbn; repeat split; lia.
  - destruct (PluginLoader.load_ref_count_ l - 1 <? 0) eqn:E1; cbn; repeat split; lia.
Qed.

(** X15: on-demand unloading.  When the last managed instance of an
    on-demand loader is released while no unmanaged instance has been
    created, the load count goes down by one, and a count that reaches zero
    unbinds the library; a loader whose library was loaded more often keeps
    it. *)
Theorem last_release_unloads_on_demand this l g obj :
  PluginLoader.plugin_ref_count_ l = 1 →
  PluginLoader.ondemand_load_unload_ l = true →
  has_unmananged_instance_been_created_ g = false →
  let released := add_log CONSOLE_LOG_DEBUG PluginLoader.msg_on_deletion g in
  (PluginLoader.load_ref_count_ l = 1 →
   ∀ g1, impl.unloadLibrary (PluginLoader.library_path_ l) this released = (Return tt, g1) →
         PluginLoader.onPluginDeletion this (Some obj) (l, g)
         = (Return tt,
            ({| PluginLoader.ondemand_load_unload_ := true;
                PluginLoader.library_path_ := PluginLoader.library_path_ l;
                PluginLoader.load_ref_count_ := 0;
                PluginLoader.plugin_ref_count_ := 0 |}, g1)))
  ∧ (2 ≤ PluginLoader.load_ref_count_ l ≤ INT_MAX →
     PluginLoader.onPluginDeletion this (Some obj) (l, g)
     = (Return tt,
        ({| PluginLoader.ondemand_load_unload_ := true;
            PluginLoader.library_path_ := PluginLoader.library_path_ l;
            PluginLoader.load_ref_count_ := PluginLoader.load_ref_count_ l - 1;
            PluginLoader.plugin_ref_count_ := 0 |}, released))).
Proof.
  intros Hrefs Hondemand Hunmanaged released.
  rewrite (onPluginDeletion_last_instance this l g obj Hrefs Hondemand Hunmanaged).
  change (PluginLoader.unloadLibraryInternal this false) with (PluginLoader.unloadLibrary this).
  fold released. destruct l as [ondemand path loads refs]. cbn in *. subst ondemand refs.
  split.
  - intros -> g1 Hun. unfold bind at 1.
    rewrite unloadLibrary_step by (cbn; unfold INT_MAX; lia).
    cbn. unfold bind, PluginLoader.on_globals, zoom, ret. cbn. rewrite Hun. reflexivity.
  - intros Hloads. unfold bind at 1.
    rewrite unloadLibrary_step by (cbn; lia).
    cbn. case_decide; [lia|].
    replace (Z.max (loads - 1) 0) with (loads - 1) by lia. reflexivity.
Qed.

End loader_more.

(** ** More on [MultiLibraryPluginLoader] *)

Lemma fresh_address_bound (heap : gmap PluginLoaderPtr PluginLoader.t) p :
  is_Some (heap !! p) → (p < fresh_address heap)%nat.
Proof.
  unfold fresh_address.
  apply (map_fold_weak_ind
           (λ (r : nat) (m : gmap PluginLoaderPtr PluginLoader.t), is_Some (m !! p) → (p < S r)%nat)).
  - rewrite lookup_empty. intros [? ?]; discriminate.
  - intros i x m r _ IH Hp. destruct (decide (i = p)) as [->|Hne].
    + lia.
    + rewrite lookup_insert_ne in Hp by exact Hne. specialize (IH Hp). lia.
Qed.

Lemma fresh_address_fresh (heap : gmap PluginLoaderPtr PluginLoader.t) :
  heap !! fresh_address heap = None ∧ fresh_address heap ≠ nullptr.
Proof.
  split; [|unfold fresh_address, nullptr; lia].
  destruct (heap !! fresh_address heap) eqn:E; [|reflexivity].
  pose proof (fresh_address_bound heap (fresh_address heap) (mk_is_Some _ _ E)). lia.
Qed.

Section multi_more.
Context `{core : impl.Core}.
Implicit Types (sys : System) (ml : MultiLibraryPluginLoader.t) (p : PluginLoaderPtr).

(** X16: [getRegisteredLibraries] lists the paths in strictly ascending
    order, so without duplicates, and lists exactly the paths for which
    [isLibraryAvailable] answers true; both leave the state as it was. *)
Theorem getRegisteredLibraries_isLibraryAvailable ml sys :
  ∃ libraries,
    MultiLibraryPluginLoader.getRegisteredLibraries (ml, sys) = (Return libraries, (ml, sys))
    ∧ StronglySorted string_lt libraries
    ∧ NoDup libraries
    ∧ ∀ library_path,
        MultiLibraryPluginLoader.isLibraryAvailable library_path (ml, sys)
        = (Return (bool_decide (library_path ∈ libraries)), (ml, sys)).
Proof.
  eexists. split; [reflexivity|].
  assert (Hs : StronglySorted string_lt
                 (omap (λ it : string * PluginLoaderPtr,
                          if bool_decide (it.2 ≠ nullptr) then Some it.1 else None)
                       (std_map_items (MultiLibraryPluginLoader.active_plugin_loaders_ ml)))).
  { apply omap_keys_ascending; [|apply std_map_items_ascending].
    intros it k. destruct (bool_decide (it.2 ≠ nullptr)); congruence. }
  split; [exact Hs|]. split; [apply ascending_NoDup, Hs|].
  intros library_path.
  unfold MultiLibraryPluginLoader.isLibraryAvailable,
    MultiLibraryPluginLoader.getPluginLoaderForLibrary. unfold_exec. cbn.
  do 2 f_equal. apply bool_decide_ext.
  rewrite list_elem_of_omap. split.
  - intros Hp.
    destruct (MultiLibraryPluginLoader.active_plugin_loaders_ ml !! library_path) as [p|] eqn:E;
      [|congruence].
    exists (library_path, p). split; [apply elem_of_std_map_items, E|].
    cbn. rewrite bool_decide_eq_true_2 by exact Hp. reflexivity.
  - intros ([k p] & Hin & Hsel). cbn in Hsel.
    apply elem_of_std_map_items in Hin.
    destruct (bool_decide (p ≠ nullptr)) eqn:Hb; [|discriminate].
    injection Hsel as ->. rewrite Hin. apply bool_decide_eq_true in Hb. exact Hb.
Qed.

(** The loader object a constructor that returns has made. *)
Lemma constructor_returns this library_path ondemand g l g' :
  PluginLoader.constructor this library_path ondemand g = (Return l, g') →
  l = {| PluginLoader.ondemand_load_unload_ := ondemand;
         PluginLoader.library_path_ := library_path;
         PluginLoader.load_ref_count_ := if ondemand then 0 else 1;
         PluginLoader.plugin_ref_count_ := 0 |}.
Proof.
  unfold PluginLoader.constructor. unfold_exec. cbn.
  destruct ondemand; cbn.
  - intros [= <- _]. reflexivity.
  - destruct (impl.loadLibrary library_path this _) as [[[]| |] g1]; cbn; [|discriminate..].
    intros [= <- _]. reflexivity.
Qed.

(** [loadLibrary] of a path that is not available is the construction of a
    loader at a fresh address, followed by the write of the map entry. *)
Lemma multi_loadLibrary_new ml sys library_path :
  match MultiLibraryPluginLoader.active_plugin_loaders_ ml !! library_path with
  | Some p => bool_decide (p ≠ nullptr)
  | None => false
  end = false →
  MultiLibraryPluginLoader.loadLibrary library_path (ml, sys)
  = match PluginLoader.constructor (fresh_address (sys_heap sys)) library_path
            (MultiLibraryPluginLoader.enable_ondemand_loadunload_ ml) (sys_globals sys) with
    | (Return l, g') =>
        (Return tt,
         ({| MultiLibraryPluginLoader.enable_ondemand_loadunload_ :=
               MultiLibraryPluginLoader.enable_ondemand_loadunload_ ml;
             MultiLibraryPluginLoader.active_plugin_loaders_ :=
               <[library_path := fresh_address (sys_heap sys)]>
                 (MultiLibraryPluginLoader.active_plugin_loaders_ ml) |},
          {| sys_globals := g';
             sys_heap := <[fresh_address (sys_heap sys) := l]> (sys_heap sys) |}))
    | (Throw e, g') => (Throw e, (ml, {| sys_globals := g'; sys_heap := sys_heap sys |}))
    | (Crash w, g') => (Crash w, (ml, {| sys_globals := g'; sys_heap := sys_heap sys |}))
    end.
Proof.
  intros Hna.
  unfold MultiLibraryPluginLoader.loadLibrary, MultiLibraryPluginLoader.isLibraryAvailable,
    MultiLibraryPluginLoader.getPluginLoaderForLibrary,
    MultiLibraryPluginLoader.isOnDemandLoadUnloadEnabled,
    MultiLibraryPluginLoader.set_active_plugin_loaders_,
    MultiLibraryPluginLoader.on_system, new_PluginLoader.
  unfold_exec. cbn [fst snd].
  destruct (MultiLibraryPluginLoader.active_plugin_loaders_ ml !! library_path) as [p0|];
    [rewrite Hna|change (bool_decide (nullptr ≠ nullptr)) with false];
    cbn [negb fst snd];
    destruct (PluginLoader.constructor _ _ _ _) as [[l| |] g']; reflexivity.
Qed.

(** X17: what a [loadLibrary(library_path)] that returns has done.  For a
    path already available it has done nothing.  Otherwise it has made one
    new [PluginLoader] at an address that is not null and held no live
    loader, bound to the path with the on-demand setting of the
    multi-library loader, loaded once unless on-demand, with no instance;
    no other entry and no other loader has changed.  Either way the path is
    available afterwards, and a second [loadLibrary] of it changes nothing:
    it does not count a second load. *)
Theorem multi_loadLibrary_registers ml sys ml' sys' library_path :
  MultiLibraryPluginLoader.loadLibrary library_path (ml, sys) = (Return tt, (ml', sys')) →
  let active := MultiLibraryPluginLoader.active_plugin_loaders_ in
  let available :=
    match active ml !! library_path with Some p => bool_decide (p ≠ nullptr) | None => false end in
  (available = true → ml' = ml ∧ sys' = sys)
  ∧ (available = false →
     ∃ p l,
       p ≠ nullptr ∧ sys_heap sys !! p = None
       ∧ active ml' = <[library_path := p]> (active ml)
       ∧ sys_heap sys' = <[p := l]> (sys_heap sys)
       ∧ PluginLoader.library_path_ l = library_path
       ∧ PluginLoader.ondemand_load_unload_ l
         = MultiLibraryPluginLoader.enable_ondemand_loadunload_ ml
       ∧ PluginLoader.load_ref_count_ l
         = (if MultiLibraryPluginLoader.enable_ondemand_loadunload_ ml then 0 else 1)
       ∧ PluginLoader.plugin_ref_count_ l = 0)
  ∧ MultiLibraryPluginLoader.enable_ondemand_loadunload_ ml'
    = MultiLibraryPluginLoader.enable_ondemand_loadunload_ ml
  ∧ MultiLibraryPluginLoader.isLibraryAvailable library_path (ml', sys')
    = (Return true, (ml', sys'))
  ∧ MultiLibraryPluginLoader.loadLibrary library_path (ml', sys') = (Return tt, (ml', sys')).
Proof.
  intros Hrun active available.
  assert (Hidem : ∀ ml0 sys0 p0,
             active ml0 !! library_path = Some p0 → p0 ≠ nullptr →
             MultiLibraryPluginLoader.isLibraryAvailable library_path (ml0, sys0)
             = (Return true, (ml0, sys0))
             ∧ MultiLibraryPluginLoader.loadLibrary library_path (ml0, sys0)
               = (Return tt, (ml0, sys0))).
  { intros ml0 sys0 p0 H0 Hne.
    unfold MultiLibraryPluginLoader.loadLibrary, MultiLibraryPluginLoader.isLibraryAvailable,
      MultiLibraryPluginLoader.getPluginLoaderForLibrary. unfold_exec. cbn.
    unfold active in H0. rewrite H0. rewrite bool_decide_eq_true_2 by exact Hne.
    split; reflexivity. }
  destruct available eqn:Hav; subst available.
  - destruct (active ml !! library_path) as [p0|] eqn:E0; [|discriminate].
    apply bool_decide_eq_true in Hav.
    destruct (Hidem ml sys p0 E0 Hav) as [Ha Hl].
    rewrite Hl in Hrun. injection Hrun as <- <-.
    split; [auto|]. split; [discriminate|]. split; [reflexivity|]. split; assumption.
  - rewrite multi_loadLibrary_new in Hrun by exact Hav.
    destruct (PluginLoader.constructor _ _ _ _) as [[l| |] g'] eqn:Hc; [|discriminate..].
    apply constructor_returns in Hc.
    injection Hrun as <- <-.
    destruct (fresh_address_fresh (sys_heap sys)) as [Hfresh Hnonnull].
    split; [discriminate|]. split.
    { intros _. exists (fresh_address (sys_heap sys)), l.
      split; [exact Hnonnull|]. split; [exact Hfresh|].
      split; [reflexivity|]. split; [reflexivity|].
      rewrite Hc. cbn. repeat split; reflexivity. }
    split; [reflexivity|].
    apply (Hidem _ _ (fresh_address (sys_heap sys))); [|exact Hnonnull].
    unfold active. cbn. apply lookup_insert_eq.
Qed.

(** The value [unloadLibrary] returns is the load count it leaves. *)
Lemma unloadLibrary_returns_count this l g r l1 g1 :
  PluginLoader.unloadLibrary this (l, g) = (Return r, (l1, g1)) →
  PluginLoader.load_ref_count_ l1 = r.
Proof.
  unfold_exec. cbn.
  destruct (0 <? PluginLoader.plugin_ref_count_ l); cbn.
  - intros [= <- <- _]. reflexivity.
  - destruct (0 =? int_wrap (PluginLoader.load_ref_count_ l - 1)); cbn.
    + destruct (impl.unloadLibrary _ _ g) as [[[]| |] g']; cbn; [|discriminate..].
      intros [= <- <- _]. reflexivity.
    + destruct (int_wrap (PluginLoader.load_ref_count_ l - 1) <? 0); cbn;
        intros [= <- <- _]; reflexivity.
Qed.

(** X18: the value a returning [unloadLibrary(library_path)] gives tells
    whether the path is still registered.  Zero: no entry is left for the
    path, and the loader it named, if any, is no longer live.  Not zero:
    the map is as before, the path names a live loader, and the value is
    that loader's load count. *)
Theorem multi_unloadLibrary_result ml sys ml' sys' library_path remaining_unloads :
  MultiLibraryPluginLoader.unloadLibrary library_path (ml, sys)
  = (Return remaining_unloads, (ml', sys')) →
  let active := MultiLibraryPluginLoader.active_plugin_loaders_ in
  (remaining_unloads = 0 →
   active ml' = delete library_path (active ml)
   ∧ ∀ p, active ml !! library_path = Some p → sys_heap sys' !! p = None)
  ∧ (remaining_unloads ≠ 0 →
     ml' = ml
     ∧ ∃ p l', active ml !! library_path = Some p
               ∧ sys_heap sys' !! p = Some l'
               ∧ PluginLoader.load_ref_count_ l' = remaining_unloads).
Proof.
  intros Hrun active. revert Hrun.
  unfold MultiLibraryPluginLoader.unloadLibrary.
  unfold bind at 1, gets at 1. cbn [fst snd].
  fold (active ml).
  destruct (active ml !! library_path) as [p|] eqn:E.
  2:{ intros [= <- <- <-]. split; [|congruence]. intros _.
      split; [|congruence]. symmetry. apply delete_id. exact E. }
  unfold bind at 1, MultiLibraryPluginLoader.on_system at 1, zoom at 1, on_loader at 1.
  cbn [fst snd].
  destruct (sys_heap sys !! p) as [l|] eqn:El; [|discriminate].
  destruct (PluginLoader.unloadLibrary p (l, sys_globals sys)) as [[r| |] [l1 g1]] eqn:Hun;
    [|discriminate..].
  apply unloadLibrary_returns_count in Hun.
  destruct (0 =? r) eqn:E0.
  - unfold delete_PluginLoader, MultiLibraryPluginLoader.set_active_plugin_loaders_,
      MultiLibraryPluginLoader.on_system, on_loader, bind, zoom, modify, ret. cbn [fst snd sys_heap sys_globals].
    rewrite lookup_insert_eq.
    destruct (PluginLoader.destructor p (l1, g1)) as [[[]| |] [l2 g2]]; [|discriminate..].
    intros [= <- <- <-]. split; [|lia]. intros _. split; [reflexivity|].
    intros p' Hp'. assert (p' = p) as -> by congruence.
    cbn. apply lookup_delete_eq.
  - unfold ret. intros [= <- <- <-]. split; [lia|]. intros _. split; [reflexivity|].
    exists p, l1. split; [reflexivity|]. split; [|exact Hun].
    cbn. apply lookup_insert_eq.
Qed.

(** [unloadLibrary(library_path)] on a loader in use. *)
Lemma multi_unloadLibrary_in_use ml sys library_path p l :
  MultiLibraryPluginLoader.active_plugin_loaders_ ml !! library_path = Some p →
  sys_heap sys !! p = Some l →
  0 < PluginLoader.plugin_ref_count_ l →
  PluginLoader.load_ref_count_ l ≠ 0 →
  MultiLibraryPluginLoader.unloadLibrary library_path (ml, sys)
  = (Return (PluginLoader.load_ref_count_ l),
     (ml, {| sys_globals := add_log CONSOLE_LOG_WARN PluginLoader.msg_objects_exist (sys_globals sys);
             sys_heap := sys_heap sys |})).
Proof.
  intros E El Hp Hc.
  unfold MultiLibraryPluginLoader.unloadLibrary.
  unfold bind at 1, gets at 1. cbn [fst snd]. rewrite E.
  unfold bind at 1, MultiLibraryPluginLoader.on_system at 1, zoom at 1, on_loader at 1.
  cbn [fst snd]. rewrite El.
  assert (Hun : PluginLoader.unloadLibrary p (l, sys_globals sys)
                = (Return (PluginLoader.load_ref_count_ l),
                   (l, add_log CONSOLE_LOG_WARN PluginLoader.msg_objects_exist (sys_globals sys)))).
  { unfold_exec. cbn. destruct (0 <? PluginLoader.plugin_ref_count_ l) eqn:E0; [|lia]. reflexivity. }
  rewrite Hun.
  destruct (0 =? PluginLoader.load_ref_count_ l) eqn:E0; [lia|].
  unfold ret. rewrite insert_id by exact El. reflexivity.
Qed.

(** X19: [unloadLibrary(library_path)] on a loader with outstanding
    managed instances and a load count other than zero is refused: it
    returns the load count, warns on the console, and leaves the map, the
    loader and the registry as they were. *)
Theorem multi_unloadLibrary_refused ml sys library_path p l :
  MultiLibraryPluginLoader.active_plugin_loaders_ ml !! library_path = Some p →
  sys_heap sys !! p = Some l →
  0 < PluginLoader.plugin_ref_count_ l →
  PluginLoader.load_ref_count_ l ≠ 0 →
  MultiLibraryPluginLoader.unloadLibrary library_path (ml, sys)
  = (Return (PluginLoader.load_ref_count_ l),
     (ml, {| sys_globals := add_log CONSOLE_LOG_WARN PluginLoader.msg_objects_exist (sys_globals sys);
             sys_heap := sys_heap sys |})).
Proof. apply multi_unloadLibrary_in_use. Qed.

(** X20: the unload that ends a loader.  On a loader without outstanding
    instances whose load count is one, [unloadLibrary(library_path)] unbinds
    the library once, destroys the loader and erases the entry, returning
    zero; the destructor's own [unloadLibrary] finds the count at zero and
    does not reach [impl::unloadLibrary] again.  On a loader that was never
    loaded it does the same without reaching [impl::unloadLibrary] at
    all. *)
Theorem multi_unloadLibrary_last ml sys library_path p l :
  MultiLibraryPluginLoader.active_plugin_loaders_ ml !! library_path = Some p →
  sys_heap sys !! p = Some l →
  PluginLoader.plugin_ref_count_ l ≤ 0 →
  let forgotten g :=
    ({| MultiLibraryPluginLoader.enable_ondemand_loadunload_ :=
          MultiLibraryPluginLoader.enable_ondemand_loadunload_ ml;
        MultiLibraryPluginLoader.active_plugin_loaders_ :=
          delete library_path (MultiLibraryPluginLoader.active_plugin_loaders_ ml) |},
     {| sys_globals := add_log CONSOLE_LOG_DEBUG PluginLoader.msg_destroying g;
        sys_heap := delete p (sys_heap sys) |}) in
  (PluginLoader.load_ref_count_ l = 1 →
   ∀ g1, impl.unloadLibrary (PluginLoader.library_path_ l) p (sys_globals sys) = (Return tt, g1) →
         MultiLibraryPluginLoader.unloadLibrary library_path (ml, sys) = (Return 0, forgotten g1))
  ∧ (PluginLoader.load_ref_count_ l = 0 →
     MultiLibraryPluginLoader.unloadLibrary library_path (ml, sys)
     = (Return 0, forgotten (sys_globals sys))).
Proof.
  intros E El Hp forgotten.
  assert (Hdestroy : ∀ l0 g0,
             PluginLoader.plugin_ref_count_ l0 ≤ 0 → PluginLoader.load_ref_count_ l0 = 0 →
             PluginLoader.destructor p (l0, g0)
             = (Return tt, (l0, add_log CONSOLE_LOG_DEBUG PluginLoader.msg_destroying g0))).
  { intros l0 g0 Hp0 Hc0. unfold PluginLoader.destructor, PluginLoader.noexcept.
    unfold bind at 1. unfold PluginLoader.on_globals at 1, zoom at 1, logDebug, log, modify at 1.
    cbn [fst snd]. unfold bind at 1.
    rewrite unloadLibrary_step by (unfold INT_MAX; lia).
    case_decide; [lia|]. rewrite Hc0. change (Z.max (0 - 1) 0) with 0.
    rewrite with_load_ref_count_id by exact Hc0. reflexivity. }
  assert (Hstart : MultiLibraryPluginLoader.unloadLibrary library_path (ml, sys)
                   = (remaining_unloads <-
                        MultiLibraryPluginLoader.on_system (on_loader p PluginLoader.unloadLibrary);;
                      if 0 =? remaining_unloads then
                        MultiLibraryPluginLoader.on_system (delete_PluginLoader p);;
                        MultiLibraryPluginLoader.set_active_plugin_loaders_
                          (λ m, delete library_path m);;
                        ret remaining_unloads
                      else ret remaining_unloads) (ml, sys)).
  { unfold MultiLibraryPluginLoader.unloadLibrary.
    unfold bind at 1, gets at 1. cbn [fst snd]. rewrite E. reflexivity. }
  rewrite Hstart. clear Hstart.
  split.
  - intros Hc g1 Hun.
    unfold bind at 1, MultiLibraryPluginLoader.on_system at 1, zoom at 1, on_loader at 1.
    cbn [fst snd]. rewrite El.
    rewrite unloadLibrary_step by (unfold INT_MAX; lia).
    case_decide; [|lia].
    unfold bind at 1, PluginLoader.on_globals at 1, zoom at 1. cbn [fst snd].
    rewrite Hun. unfold ret at 1. change (0 =? 0) with true. cbv iota.
    unfold delete_PluginLoader, MultiLibraryPluginLoader.set_active_plugin_loaders_,
      MultiLibraryPluginLoader.on_system, on_loader, bind, zoom, modify, ret.
    cbn [fst snd sys_heap sys_globals].
    rewrite lookup_insert_eq, Hdestroy by (cbn; lia).
    cbn [fst snd sys_heap sys_globals].
    unfold forgotten. rewrite !delete_insert_eq. reflexivity.
  - intros Hc.
    unfold bind at 1, MultiLibraryPluginLoader.on_system at 1, zoom at 1, on_loader at 1.
    cbn [fst snd]. rewrite El.
    rewrite unloadLibrary_step by (unfold INT_MAX; lia).
    case_decide; [lia|]. rewrite Hc. change (Z.max (0 - 1) 0) with 0.
    change (0 =? 0) with true. cbv iota.
    unfold delete_PluginLoader, MultiLibraryPluginLoader.set_active_plugin_loaders_,
      MultiLibraryPluginLoader.on_system, on_loader, bind, zoom, modify, ret.
    cbn [fst snd sys_heap sys_globals].
    rewrite lookup_insert_eq, Hdestroy by (cbn; lia).
    cbn [fst snd sys_heap sys_globals].
    unfold forgotten. rewrite !delete_insert_eq. reflexivity.
Qed.

Lemma elem_of_concat {A} (x : A) (ls : list (list A)) :
  x ∈ concat ls ↔ ∃ l, x ∈ l ∧ l ∈ ls.
Proof.
  induction ls as [|l0 ls IH]; cbn.
  - split; [intros H; inversion H|intros (l & _ & H); inversion H].
  - rewrite elem_of_app, IH. split.
    + intros [H|(l & Hx & Hl)]; [exists l0|exists l]; split; auto using list_elem_of_here.
      apply list_elem_of_further. exact Hl.
    + intros (l & Hx & Hl). apply elem_of_cons in Hl as [->|Hl]; [left|right]; eauto.
Qed.

Lemma on_loader_getAvailableClasses sys p l Base :
  sys_heap sys !! p = Some l →
  on_loader p (λ this, PluginLoader.getAvailableClasses this Base) sys
  = (Return (impl.getAvailableClasses Base p (registry (sys_globals sys))), sys).
Proof.
  intros Hl. unfold on_loader. rewrite Hl. cbn.
  rewrite insert_id by exact Hl. destruct sys; reflexivity.
Qed.

(** The loop of [getAvailableClasses] over live loaders appends each
    loader's list, in turn. *)
Lemma getAvailableClasses_from_run Base sys (loaders : list PluginLoaderPtr) :
  Forall (λ p, is_Some (sys_heap sys !! p)) loaders →
  ∀ available_classes,
    MultiLibraryPluginLoader.getAvailableClasses_from Base loaders available_classes sys
    = (Return (available_classes
               ++ concat ((λ p, impl.getAvailableClasses Base p (registry (sys_globals sys)))
                            <$> loaders)),
       sys).
Proof.
  induction 1 as [|p loaders [l Hl] _ IH]; intros available_classes.
  - cbn. rewrite app_nil_r. reflexivity.
  - cbn [MultiLibraryPluginLoader.getAvailableClasses_from].
    unfold bind at 1. rewrite (on_loader_getAvailableClasses _ _ _ _ Hl).
    rewrite IH. cbn. rewrite app_assoc. reflexivity.
Qed.

(** [getAvailableClasses<Base>()] over live loaders. *)
Lemma multi_getAvailableClasses_run ml sys Base :
  map_Forall (λ (_ : string) p, is_Some (sys_heap sys !! p))
             (MultiLibraryPluginLoader.active_plugin_loaders_ ml) →
  MultiLibraryPluginLoader.getAvailableClasses Base (ml, sys)
  = (Return (concat ((λ it : string * PluginLoaderPtr,
                        impl.getAvailableClasses Base it.2 (registry (sys_globals sys)))
                       <$> std_map_items (MultiLibraryPluginLoader.active_plugin_loaders_ ml))),
     (ml, sys)).
Proof.
  intros Hlive.
  unfold MultiLibraryPluginLoader.getAvailableClasses,
    MultiLibraryPluginLoader.getAllAvailablePluginLoaders,
    MultiLibraryPluginLoader.on_system.
  unfold bind at 1, gets at 1, zoom at 1. cbn [fst snd].
  rewrite getAvailableClasses_from_run.
  - cbn. rewrite <- list_fmap_compose. reflexivity.
  - apply Forall_fmap, Forall_forall. intros [path p] Hin%elem_of_std_map_items.
    apply (Hlive path p Hin).
Qed.

(** X21: with every held loader live, [getAvailableClasses<Base>()] is the
    concatenation, in ascending order of the library paths, of the lists of
    the loaders; a name is in it when some held loader reports it, once for
    every loader that does; [isClassAvailable<Base>] is membership in it;
    both leave the state as it was. *)
Theorem multi_getAvailableClasses_all ml sys Base :
  map_Forall (λ (_ : string) p, is_Some (sys_heap sys !! p))
             (MultiLibraryPluginLoader.active_plugin_loaders_ ml) →
  let loaders := std_map_items (MultiLibraryPluginLoader.active_plugin_loaders_ ml) in
  let classes :=
    concat ((λ it : string * PluginLoaderPtr,
               impl.getAvailableClasses Base it.2 (registry (sys_globals sys))) <$> loaders) in
  MultiLibraryPluginLoader.getAvailableClasses Base (ml, sys) = (Return classes, (ml, sys))
  ∧ (∀ class_name,
       class_name ∈ classes
       ↔ ∃ library_path p,
           MultiLibraryPluginLoader.active_plugin_loaders_ ml !! library_path = Some p
           ∧ reports_available Base class_name (registry (sys_globals sys)) p = true)
  ∧ (∀ class_name,
       MultiLibraryPluginLoader.isClassAvailable Base class_name (ml, sys)
       = (Return (bool_decide (class_name ∈ classes)), (ml, sys))).
Proof.
  intros Hlive loaders classes.
  assert (Hrun : MultiLibraryPluginLoader.getAvailableClasses Base (ml, sys)
                 = (Return classes, (ml, sys)))
    by (apply multi_getAvailableClasses_run; exact Hlive).
  split; [exact Hrun|]. split.
  - intros class_name. subst classes. rewrite elem_of_concat. split.
    + intros (cs & Hin & Hcs). apply list_elem_of_fmap in Hcs as ([path p] & -> & Hit).
      apply elem_of_std_map_items in Hit. exists path, p. split; [exact Hit|].
      apply bool_decide_eq_true. exact Hin.
    + intros (path & p & Hit & Hrep). apply bool_decide_eq_true in Hrep.
      eexists. split; [exact Hrep|].
      apply list_elem_of_fmap. exists (path, p). split; [reflexivity|].
      apply elem_of_std_map_items. exact Hit.
  - intros class_name. unfold MultiLibraryPluginLoader.isClassAvailable.
    unfold bind at 1. rewrite Hrun. reflexivity.
Qed.

(** The first binding of a list for which a test holds. *)
Lemma first_such {A} (test : A → bool) (items : list A) :
  Exists (λ it, test it = true) items →
  ∃ pre it post,
    items = pre ++ it :: post
    ∧ Forall (λ it, test it = false) pre
    ∧ test it = true.
Proof.
  induction items as [|a items IH]; intros Hex; [inversion Hex|].
  destruct (test a) eqn:Ea.
  - exists [], a, items. repeat split; [constructor|exact Ea].
  - apply Exists_cons in Hex as [Hex|Hex]; [congruence|].
    destruct (IH Hex) as (pre & it & post & -> & Hpre & Hit).
    exists (a :: pre), it, post. repeat split; [constructor; assumption|exact Hit].
Qed.

(** [createInstance<Base>(class_name)] as the search it runs, once the
    attempt is logged. *)
Lemma multi_createInstance_start ml sys Base class_name :
  MultiLibraryPluginLoader.createInstance Base class_name (ml, sys)
  = (loader <- MultiLibraryPluginLoader.on_system
                 (MultiLibraryPluginLoader.getPluginLoaderForClass_from Base class_name
                    (std_map_items (MultiLibraryPluginLoader.active_plugin_loaders_ ml)).*2);;
     if bool_decide (nullptr = loader)
     then throw (CreateClassException (MultiLibraryPluginLoader.msg_no_factory class_name))
     else MultiLibraryPluginLoader.on_system
            (on_loader loader (λ this, PluginLoader.createInstance this Base class_name)))
      (ml, {| sys_globals := add_log CONSOLE_LOG_DEBUG
                               (MultiLibraryPluginLoader.msg_attempting class_name)
                               (sys_globals sys);
              sys_heap := sys_heap sys |}).
Proof. reflexivity. Qed.

(** X22: with every held loader live and loaded,
    [isClassAvailable<Base>(class_name)] tells what
    [createInstance<Base>(class_name)] will do: when it answers true the
    creation returns an object whose deleter is bound to a held loader that
    reports the class, and when it answers false the creation throws
    [CreateClassException]. *)
Theorem multi_isClassAvailable_decides ml sys Base class_name :
  registry_wf (registry (sys_globals sys)) →
  loaders_ready ml sys →
  ∃ available,
    MultiLibraryPluginLoader.isClassAvailable Base class_name (ml, sys)
    = (Return available, (ml, sys))
    ∧ (available = true →
       ∃ obj library_path p sys',
         MultiLibraryPluginLoader.createInstance Base class_name (ml, sys)
         = (Return {| managed_get := Some obj; managed_deleter := p |}, (ml, sys'))
         ∧ MultiLibraryPluginLoader.active_plugin_loaders_ ml !! library_path = Some p
         ∧ reports_available Base class_name (registry (sys_globals sys)) p = true)
    ∧ (available = false →
       ∃ sys',
         MultiLibraryPluginLoader.createInstance Base class_name (ml, sys)
         = (Throw (CreateClassException (MultiLibraryPluginLoader.msg_no_factory class_name)),
            (ml, sys'))).
Proof.
  intros Hwf Hready.
  set (loaders := std_map_items (MultiLibraryPluginLoader.active_plugin_loaders_ ml)).
  set (reports := λ it : string * PluginLoaderPtr,
         reports_available Base class_name (registry (sys_globals sys)) it.2).
  set (sys1 := {| sys_globals := add_log CONSOLE_LOG_DEBUG
                                   (MultiLibraryPluginLoader.msg_attempting class_name)
                                   (sys_globals sys);
                  sys_heap := sys_heap sys |}).
  assert (Hitems : Forall (λ it : string * PluginLoaderPtr,
                             it.2 ≠ nullptr ∧ ready sys1 it.2 = true) loaders)
    by (apply (loaders_ready_items ml sys1); exact Hready).
  assert (Hlive : Forall (λ p, is_Some (sys_heap sys !! p)) loaders.*2).
  { apply Forall_fmap. eapply Forall_impl; [exact Hitems|].
    intros it [_ (l & Hl & _)%ready_live]. cbn in *. eauto. }
  exists (bool_decide (Exists (λ it, reports it = true) loaders)).
  split.
  { unfold MultiLibraryPluginLoader.isClassAvailable, MultiLibraryPluginLoader.getAvailableClasses,
      MultiLibraryPluginLoader.getAllAvailablePluginLoaders, MultiLibraryPluginLoader.on_system.
    unfold bind at 1, bind at 1, gets at 1, zoom at 1. cbn [fst snd].
    fold loaders. rewrite getAvailableClasses_from_run by exact Hlive.
    cbn. unfold ret. do 2 f_equal. apply bool_decide_ext.
    rewrite elem_of_concat, Exists_exists. split.
    - intros (cs & Hin & Hcs). apply list_elem_of_fmap in Hcs as (p & -> & Hp).
      apply list_elem_of_fmap in Hp as (it & -> & Hit).
      exists it. split; [exact Hit|]. apply bool_decide_eq_true. exact Hin.
    - intros (it & Hit & Hrep). apply bool_decide_eq_true in Hrep.
      eexists. split; [exact Hrep|].
      apply list_elem_of_fmap. exists it.2. split; [reflexivity|].
      apply list_elem_of_fmap. eauto. }
  rewrite multi_createInstance_start. fold loaders sys1.
  split.
  - intros Hex%bool_decide_eq_true.
    destruct (first_such reports loaders Hex) as (pre & [path p] & post & Hsplit & Hpre & Hp).
    rewrite Hsplit in Hitems.
    apply Forall_app in Hitems as [Hpre_ready Hrest].
    apply Forall_cons in Hrest as [[Hnonnull Hp_ready] _].
    cbn [snd] in Hnonnull, Hp_ready.
    destruct (ready_live _ _ Hp_ready) as (l & Hl & Hloaded).
    rewrite Hsplit, fmap_app, fmap_cons. cbn [snd].
    unfold bind at 1, MultiLibraryPluginLoader.on_system at 1, zoom at 1. cbn [snd fst].
    rewrite getPluginLoaderForClass_from_skip.
    2:{ apply Forall_fmap. eapply Forall_impl; [exact Hpre_ready|]. intros ? [_ ?]. assumption. }
    2:{ apply Forall_fmap. exact Hpre. }
    rewrite getPluginLoaderForClass_from_hit; [|exact Hp_ready|exact Hp].
    rewrite bool_decide_eq_false_2 by congruence.
    unfold MultiLibraryPluginLoader.on_system, zoom, on_loader. cbn [fst snd].
    rewrite Hl. unfold PluginLoader.createInstance. unfold bind at 1.
    destruct (createRawInstance_available p l (sys_globals sys1) Base class_name true)
      as (obj & l' & g' & -> & _).
    + exact Hwf.
    + apply bool_decide_eq_true in Hp. exact Hp.
    + exact Hloaded.
    + exists obj, path, p. eexists. split; [reflexivity|]. split; [|exact Hp].
      apply elem_of_std_map_items. fold loaders. rewrite Hsplit.
      apply elem_of_app. right. apply list_elem_of_here.
  - intros Hnone%bool_decide_eq_false.
    assert (Hno : Forall (λ it, reports it = false) loaders).
    { apply Forall_forall. intros it Hit. destruct (reports it) eqn:E; [|reflexivity].
      exfalso. apply Hnone, Exists_exists. eauto. }
    unfold bind at 1, MultiLibraryPluginLoader.on_system at 1, zoom at 1. cbn [snd fst].
    rewrite <- (app_nil_r loaders.*2).
    rewrite getPluginLoaderForClass_from_skip.
    2:{ apply Forall_fmap. eapply Forall_impl; [exact Hitems|]. intros ? [_ ?]. assumption. }
    2:{ apply Forall_fmap. exact Hno. }
    cbn. eexists. reflexivity.
Qed.

(** X23: [createInstance<Base>(class_name, library_path)] goes to the
    loader of the path and to no other.  For a path without a loader it
    throws [NoPluginLoaderExistsException] and changes nothing.  For a path
    whose loader is live, loaded and reports the class, it returns an
    object whose deleter is bound to that loader, whatever the loaders of
    other paths report; the instance is counted on that loader, and the map,
    the other loaders and the registry are as before. *)
Theorem createInstance_in_named_loader ml sys Base class_name library_path :
  registry_wf (registry (sys_globals sys)) →
  let active := MultiLibraryPluginLoader.active_plugin_loaders_ ml in
  ((active !! library_path = None ∨ active !! library_path = Some nullptr) →
   MultiLibraryPluginLoader.createInstance_in Base class_name library_path (ml, sys)
   = (Throw (NoPluginLoaderExistsException (MultiLibraryPluginLoader.msg_no_loader library_path)),
      (ml, sys)))
  ∧ (∀ p l,
       active !! library_path = Some p → p ≠ nullptr →
       sys_heap sys !! p = Some l →
       impl.isLibraryLoaded (PluginLoader.library_path_ l) p (registry (sys_globals sys)) = true →
       class_name ∈ impl.getAvailableClasses Base p (registry (sys_globals sys)) →
       INT_MIN ≤ PluginLoader.plugin_ref_count_ l < INT_MAX →
       ∃ obj g',
         MultiLibraryPluginLoader.createInstance_in Base class_name library_path (ml, sys)
         = (Return {| managed_get := Some obj; managed_deleter := p |},
            (ml, {| sys_globals := g';
                    sys_heap :=
                      <[p := PluginLoader.with_plugin_ref_count
                               (PluginLoader.plugin_ref_count_ l + 1) l]> (sys_heap sys) |}))
         ∧ registry g' = registry (sys_globals sys)).
Proof.
  intros Hwf active. split.
  - intros Hno.
    unfold MultiLibraryPluginLoader.createInstance_in,
      MultiLibraryPluginLoader.getPluginLoaderForLibrary.
    unfold bind at 1, gets at 1. cbn [fst snd]. fold active.
    destruct Hno as [-> | ->]; reflexivity.
  - intros p l Hp Hnonnull Hl Hloaded Hin Hc.
    unfold MultiLibraryPluginLoader.createInstance_in,
      MultiLibraryPluginLoader.getPluginLoaderForLibrary.
    unfold bind at 1, gets at 1. cbn [fst snd]. fold active. rewrite Hp.
    rewrite bool_decide_eq_false_2 by congruence.
    unfold MultiLibraryPluginLoader.on_system, zoom, on_loader. cbn [fst snd].
    rewrite Hl. unfold PluginLoader.createInstance. unfold bind at 1.
    destruct (createRawInstance_managed_counts p l (sys_globals sys) Base class_name)
      as (obj & g' & -> & Hr & _); [exact Hwf|exact Hin|exact Hloaded|lia|lia|].
    exists obj, g'. split; [reflexivity|exact Hr].
Qed.

(** X24: [getAvailableClassesForLibrary<Base>(library_path)] against
    [getAvailableClasses<Base>()].  With every entry of the map a live
    loader that is not null: for a path without an entry the former throws
    [NoPluginLoaderExistsException] and changes nothing; for a path with
    one it returns the list of that loader and changes nothing; and the
    names [getAvailableClasses<Base>()] returns are exactly those that
    [getAvailableClassesForLibrary<Base>] returns for some path. *)
Theorem getAvailableClassesForLibrary_covers ml sys Base :
  map_Forall (λ (_ : string) p, p ≠ nullptr ∧ is_Some (sys_heap sys !! p))
             (MultiLibraryPluginLoader.active_plugin_loaders_ ml) →
  (∀ library_path,
     MultiLibraryPluginLoader.active_plugin_loaders_ ml !! library_path = None →
     MultiLibraryPluginLoader.getAvailableClassesForLibrary Base library_path (ml, sys)
     = (Throw (NoPluginLoaderExistsException
                 (MultiLibraryPluginLoader.msg_no_loader_for_library library_path)),
        (ml, sys)))
  ∧ (∀ library_path p,
       MultiLibraryPluginLoader.active_plugin_loaders_ ml !! library_path = Some p →
       MultiLibraryPluginLoader.getAvailableClassesForLibrary Base library_path (ml, sys)
       = (Return (impl.getAvailableClasses Base p (registry (sys_globals sys))), (ml, sys)))
  ∧ ∃ available_classes,
      MultiLibraryPluginLoader.getAvailableClasses Base (ml, sys)
      = (Return available_classes, (ml, sys))
      ∧ ∀ class_name,
          class_name ∈ available_classes
          ↔ ∃ library_path classes,
              MultiLibraryPluginLoader.getAvailableClassesForLibrary Base library_path (ml, sys)
              = (Return classes, (ml, sys))
              ∧ class_name ∈ classes.
Proof.
  intros Hlive.
  assert (Hmiss : ∀ library_path,
             MultiLibraryPluginLoader.active_plugin_loaders_ ml !! library_path = None →
             MultiLibraryPluginLoader.getAvailableClassesForLibrary Base library_path (ml, sys)
             = (Throw (NoPluginLoaderExistsException
                         (MultiLibraryPluginLoader.msg_no_loader_for_library library_path)),
                (ml, sys))).
  { intros library_path Hnone.
    unfold MultiLibraryPluginLoader.getAvailableClassesForLibrary,
      MultiLibraryPluginLoader.getPluginLoaderForLibrary.
    unfold bind at 1, gets at 1. cbn [fst snd]. rewrite Hnone. reflexivity. }
  assert (Hhit : ∀ library_path p,
             MultiLibraryPluginLoader.active_plugin_loaders_ ml !! library_path = Some p →
             MultiLibraryPluginLoader.getAvailableClassesForLibrary Base library_path (ml, sys)
             = (Return (impl.getAvailableClasses Base p (registry (sys_globals sys))), (ml, sys))).
  { intros library_path p Hp. destruct (Hlive library_path p Hp) as [Hnonnull [l Hl]].
    unfold MultiLibraryPluginLoader.getAvailableClassesForLibrary,
      MultiLibraryPluginLoader.getPluginLoaderForLibrary.
    unfold bind at 1, gets at 1. cbn [fst snd]. rewrite Hp.
    rewrite bool_decide_eq_false_2 by congruence.
    unfold MultiLibraryPluginLoader.on_system, zoom. cbn [fst snd].
    rewrite (on_loader_getAvailableClasses _ _ _ _ Hl). reflexivity. }
  split; [exact Hmiss|]. split; [exact Hhit|].
  eexists. split.
  { apply multi_getAvailableClasses_run. intros library_path p Hp.
    apply (Hlive library_path p Hp). }
  intros class_name. rewrite elem_of_concat. split.
  - intros (cs & Hin & Hcs). apply list_elem_of_fmap in Hcs as ([path p] & -> & Hit).
    apply elem_of_std_map_items in Hit. exists path. eexists. split; [apply Hhit, Hit|exact Hin].
  - intros (library_path & classes & Hrun & Hin).
    destruct (MultiLibraryPluginLoader.active_plugin_loaders_ ml !! library_path) as [p|] eqn:Hp.
    + rewrite (Hhit _ _ Hp) in Hrun. injection Hrun as <-.
      eexists. split; [exact Hin|].
      apply list_elem_of_fmap. exists (library_path, p). split; [reflexivity|].
      apply elem_of_std_map_items. exact Hp.
    + rewrite (Hmiss _ Hp) in Hrun. discriminate.
Qed.


(** The loop of [shutdownAllPluginLoaders] over loaders in use. *)
Lemma unloadLibrary_each_in_use ml (heap : gmap PluginLoaderPtr PluginLoader.t)
    (libraries : list string) :
  Forall (λ library_path,
            ∃ p l, MultiLibraryPluginLoader.active_plugin_loaders_ ml !! library_path = Some p
                   ∧ heap !! p = Some l
                   ∧ 0 < PluginLoader.plugin_ref_count_ l
                   ∧ PluginLoader.load_ref_count_ l ≠ 0) libraries →
  ∀ g, ∃ g',
    MultiLibraryPluginLoader.unloadLibrary_each libraries
      (ml, {| sys_globals := g; sys_heap := heap |})
    = (Return tt, (ml, {| sys_globals := g'; sys_heap := heap |}))
    ∧ registry g' = registry g
    ∧ has_unmananged_instance_been_created_ g' = has_unmananged_instance_been_created_ g.
Proof.
  induction 1 as [|library_path libraries (p & l & Hp & Hl & Hrefs & Hloads) _ IH]; intros g.
  - exists g. repeat split.
  - cbn [MultiLibraryPluginLoader.unloadLibrary_each]. unfold bind at 1.
    rewrite (multi_unloadLibrary_in_use ml {| sys_globals := g; sys_heap := heap |}
               library_path p l Hp Hl Hrefs Hloads).
    cbn [sys_globals sys_heap].
    destruct (IH (add_log CONSOLE_LOG_WARN PluginLoader.msg_objects_exist g))
      as (g' & -> & Hr & Hu).
    exists g'. split; [reflexivity|]. split; assumption.
Qed.

(** X26: a multi-library loader whose loaders all have outstanding managed
    instances cannot shut them down.  [shutdownAllPluginLoaders], and so the
    destructor, returns with every entry and every loader as before: each
    unload is refused with a warning, no loader is destroyed, and the
    deleters of the outstanding instances stay bound to live loaders. *)
Theorem shutdown_keeps_loaders_in_use ml sys :
  map_Forall (λ (_ : string) p,
                ∃ l, sys_heap sys !! p = Some l
                     ∧ 0 < PluginLoader.plugin_ref_count_ l
                     ∧ PluginLoader.load_ref_count_ l ≠ 0)
             (MultiLibraryPluginLoader.active_plugin_loaders_ ml) →
  ∃ g',
    MultiLibraryPluginLoader.shutdownAllPluginLoaders (ml, sys)
    = (Return tt, (ml, {| sys_globals := g'; sys_heap := sys_heap sys |}))
    ∧ MultiLibraryPluginLoader.destructor (ml, sys)
      = (Return tt, (ml, {| sys_globals := g'; sys_heap := sys_heap sys |}))
    ∧ registry g' = registry (sys_globals sys)
    ∧ has_unmananged_instance_been_created_ g'
      = has_unmananged_instance_been_created_ (sys_globals sys).
Proof.
  intros Huse.
  assert (Hrun : ∃ g',
             MultiLibraryPluginLoader.shutdownAllPluginLoaders (ml, sys)
             = (Return tt, (ml, {| sys_globals := g'; sys_heap := sys_heap sys |}))
             ∧ registry g' = registry (sys_globals sys)
             ∧ has_unmananged_instance_been_created_ g'
               = has_unmananged_instance_been_created_ (sys_globals sys)).
  { unfold MultiLibraryPluginLoader.shutdownAllPluginLoaders,
      MultiLibraryPluginLoader.getRegisteredLibraries.
    unfold bind at 1, gets at 1. cbn [fst snd].
    destruct sys as [g heap]. cbn [sys_globals sys_heap] in *.
    apply unloadLibrary_each_in_use.
    apply Forall_forall. intros library_path Hin.
    apply list_elem_of_omap in Hin as ([k p] & Hit%elem_of_std_map_items & Hsel).
    cbn in Hsel. destruct (bool_decide (p ≠ nullptr)); [|discriminate].
    injection Hsel as ->.
    destruct (Huse library_path p Hit) as (l & Hl & Hrefs & Hloads).
    exists p, l. auto. }
  destruct Hrun as (g' & Hrun & Hr & Hu).
  exists g'. split; [exact Hrun|]. split; [|split; assumption].
  unfold MultiLibraryPluginLoader.destructor, PluginLoader.noexcept. rewrite Hrun. reflexivity.
Qed.

(** [std::map] iteration over a single entry. *)
Lemma std_map_items_singleton {V} (k : string) (v : V) :
  std_map_items ({[ k := v ]} : gmap string V) = [(k, v)].
Proof.
  pose proof (std_map_items_perm ({[ k := v ]} : gmap string V)) as Hperm.
  rewrite map_to_list_singleton in Hperm.
  apply Permutation_singleton_r in Hperm. exact Hperm.
Qed.

(** X27: the search for a class loads libraries on the way and does not
    take the loads back.  A multi-library loader holds one loader, live and
    not loaded.  When the load returns and the class is not among those the
    loader then lists, [createInstance<Base>(class_name)] throws
    [CreateClassException], and leaves the library loaded with the load
    count of the loader one higher. *)
Theorem failed_search_leaves_library_loaded ml sys Base class_name library_path p l g1 :
  MultiLibraryPluginLoader.active_plugin_loaders_ ml = {[ library_path := p ]} →
  sys_heap sys !! p = Some l →
  INT_MIN ≤ PluginLoader.load_ref_count_ l < INT_MAX →
  impl.isLibraryLoaded (PluginLoader.library_path_ l) p (registry (sys_globals sys)) = false →
  impl.loadLibrary (PluginLoader.library_path_ l) p
    (add_log CONSOLE_LOG_DEBUG (MultiLibraryPluginLoader.msg_attempting class_name)
       (sys_globals sys))
  = (Return tt, g1) →
  class_name ∉ impl.getAvailableClasses Base p (registry g1) →
  MultiLibraryPluginLoader.createInstance Base class_name (ml, sys)
  = (Throw (CreateClassException (MultiLibraryPluginLoader.msg_no_factory class_name)),
     (ml, {| sys_globals := g1;
             sys_heap := <[p := PluginLoader.with_load_ref_count
                                   (PluginLoader.load_ref_count_ l + 1) l]> (sys_heap sys) |})).
Proof.
  intros Hone Hl Hc Hnot Hload Hclass.
  rewrite multi_createInstance_start, Hone, std_map_items_singleton.
  cbn [fmap list_fmap snd].
  unfold bind at 1, MultiLibraryPluginLoader.on_system at 1, zoom at 1. cbn [snd fst].
  cbn [MultiLibraryPluginLoader.getPluginLoaderForClass_from].
  unfold bind at 1. erewrite on_loader_isLibraryLoaded by exact Hl. cbn [sys_globals].
  change (registry (add_log _ _ (sys_globals sys))) with (registry (sys_globals sys)).
  rewrite Hnot. cbn [negb when].
  unfold bind at 1. unfold on_loader at 1. cbn [sys_heap sys_globals]. rewrite Hl.
  unfold PluginLoader.loadLibrary. unfold_exec. cbn [fst snd].
  rewrite int_wrap_in_range by lia.
  change (PluginLoader.library_path_ (PluginLoader.with_load_ref_count _ l))
    with (PluginLoader.library_path_ l).
  rewrite Hload. cbn [fst snd sys_heap sys_globals].
  erewrite on_loader_isClassAvailable by (cbn; apply lookup_insert_eq).
  unfold reports_available. cbn [sys_globals].
  rewrite bool_decide_eq_false_2 by exact Hclass.
  reflexivity.
Qed.

End multi_more.

(** ** More on [SharedLibrary] *)

Section shared_library_more.
Context `{linker : DynamicLinker}.

(** X28: a [load] for which [dlopen] gives a handle leaves the object
    loaded with the path it was given, and a loaded object refuses every
    further [load], for any path and flags, with [LibraryLoadException]
    "Library already loaded: " and the path asked for, changing nothing:
    [dlopen] is not reached. *)
Theorem load_then_loaded path flags lib g h g1 :
  SharedLibrary._handle lib = 0 →
  dlopen path (SharedLibraryImpl.realFlags flags) g = (Return h, g1) →
  h ≠ 0 →
  let loaded := {| SharedLibrary._handle := h; SharedLibrary._path := path |} in
  SharedLibraryImpl.load path flags (lib, g) = (Return tt, (loaded, g1))
  ∧ SharedLibrary.isLoaded loaded = true
  ∧ SharedLibrary.getPath loaded = path
  ∧ ∀ path' flags' g',
      SharedLibraryImpl.load path' flags' (loaded, g')
      = (Throw (LibraryLoadException ("Library already loaded: " +:+ path')), (loaded, g')).
Proof.
  intros Hh Hopen Hne loaded.
  assert (Hnz : (h =? 0) = false) by lia.
  split; [|split; [|split]].
  - unfold SharedLibraryImpl.load, SharedLibraryImpl.on_globals, SharedLibraryImpl.set_handle,
      SharedLibraryImpl.set_path, bind, gets, throw, modify, zoom. cbn.
    rewrite Hh. change (0 =? 0) with true. cbn. rewrite Hopen. cbn.
    rewrite Hnz. reflexivity.
  - unfold SharedLibrary.isLoaded. cbn. rewrite Hnz. reflexivity.
  - reflexivity.
  - intros path' flags' g'.
    unfold SharedLibraryImpl.load, bind, gets, throw. cbn. rewrite Hnz. reflexivity.
Qed.

(** X29: [unload] closes the handle once.  When [dlclose] returns, the
    object is left not loaded with its path kept, and a second [unload]
    does nothing; on an object that is not loaded [unload] does nothing,
    without reaching [dlclose]. *)
Theorem unload_once lib g g1 :
  (SharedLibrary._handle lib ≠ 0 → dlclose (SharedLibrary._handle lib) g = (Return tt, g1)) →
  (SharedLibrary._handle lib = 0 → g1 = g) →
  let closed := {| SharedLibrary._handle := 0; SharedLibrary._path := SharedLibrary._path lib |} in
  SharedLibraryImpl.unload (lib, g) = (Return tt, (closed, g1))
  ∧ SharedLibraryImpl.unload (closed, g1) = (Return tt, (closed, g1))
  ∧ SharedLibrary.isLoaded closed = false
  ∧ SharedLibrary.getPath closed = SharedLibrary.getPath lib.
Proof.
  intros Hclose Hsame closed.
  split; [|repeat split].
  unfold SharedLibraryImpl.unload, SharedLibraryImpl.on_globals, SharedLibraryImpl.set_handle,
    bind, gets, modify, zoom, ret. cbn.
  destruct (SharedLibrary._handle lib =? 0) eqn:E; cbn.
  - rewrite Hsame by lia. subst closed. destruct lib as [h p]. cbn in *.
    replace h with 0 by lia. reflexivity.
  - rewrite Hclose by lia. reflexivity.
Qed.

End shared_library_more.


(** ** The statements on examples *)

#[local] Existing Instance SpecModel.example_core.
#[local] Existing Instance SpecModel.example_linker.

Ltac by_computation := vm_compute; reflexivity.
Ltac holds_decidably := apply (bool_decide_unpack _); vm_compute; exact I.
Ltac in_int_range := unfold INT_MIN, INT_MAX; cbn; lia.
(** [m s = (o, (m s).2)], when the outcome of [m s] computes to [o]. *)
Ltac runs_to :=
  lazymatch goal with
  | |- ?run = (?o, _) =>
      transitivity (run.1, run.2);
      [apply surjective_pairing
      |apply (f_equal (λ outcome, (outcome, run.2))); vm_compute; reflexivity]
  end.

Lemma available_classes_can_be_created_witness :
  registry_wf (registry SpecModel.host_globals)
  ∧ "Duck" ∈ impl.getAvailableClasses "Animal" 1%nat (registry SpecModel.host_globals)
  ∧ impl.isLibraryLoaded "libA.so" 1%nat (registry SpecModel.host_globals) = false
  ∧ (∃ g',
       PluginLoader.createRawInstance 1%nat "Animal" "Duck" true
         (PluginLoader.mk true "libA.so" 0 0, SpecModel.host_globals)
       = (Return (Some {| obj_derived := "Duck"; obj_library := "" |}),
          (PluginLoader.mk true "libA.so" 1 1, g')))
  ∧ PluginLoader.createRawInstance 1%nat "Animal" "Duck" true
      (PluginLoader.mk true "./does-not-exist" 0 0, SpecModel.host_globals)
    = (Throw (LibraryLoadException
                "Could not load library: ./does-not-exist: cannot open shared object file: No such file or directory"),
       (PluginLoader.mk true "./does-not-exist" 1 0,
        (impl.loadLibrary "./does-not-exist" 1%nat SpecModel.host_globals).2)).
Proof.
  assert (Hwf : registry_wf (registry SpecModel.host_globals)) by holds_decidably.
  assert (Hin : "Duck" ∈ impl.getAvailableClasses "Animal" 1%nat (registry SpecModel.host_globals))
    by holds_decidably.
  assert (Hnot : impl.isLibraryLoaded "libA.so" 1%nat (registry SpecModel.host_globals) = false)
    by by_computation.
  split; [exact Hwf|]. split; [exact Hin|]. split; [exact Hnot|]. split.
  - pose proof (available_classes_can_be_created 1%nat (PluginLoader.mk true "libA.so" 0 0)
                  SpecModel.host_globals "Animal" "Duck" true Hwf Hin) as H.
    cbv zeta in H. destruct H as (_ & _ & _ & _ & Hload & _).
    destruct (Hload Hnot) as (_ & _ & Hreturns).
    assert (Hret : impl.loadLibrary "libA.so" 1%nat SpecModel.host_globals
                   = (Return tt, (impl.loadLibrary "libA.so" 1%nat SpecModel.host_globals).2))
      by runs_to.
    destruct (Hreturns _ {| class_name_ := "Duck"; base_class_name_ := "Animal";
                            typeid_base_ := "Animal"; typeid_derived_ := "Duck";
                            associated_library_path_ := "";
                            associated_class_loaders_ := [nullptr] |} Hret)
      as (g' & Hrun & _).
    + holds_decidably.
    + split; [by_computation|right; by_computation].
    + exists g'. exact Hrun.
  - pose proof (available_classes_can_be_created 1%nat
                  (PluginLoader.mk true "./does-not-exist" 0 0)
                  SpecModel.host_globals "Animal" "Duck" true Hwf Hin) as H.
    cbv zeta in H. destruct H as (_ & _ & _ & _ & Hload & _).
    destruct Hload as (Hthrows & _); [by_computation|].
    apply Hthrows. runs_to.
Defined.

Lemma load_unload_symmetry_witness :
  ∃ g1,
    loadLibrary_times 1%nat 3 (PluginLoader.mk true "libA.so" 0 0, initial_globals)
    = (Return tt, (PluginLoader.mk true "libA.so" 3 0, g1))
    ∧ unloadLibrary_times 1%nat 2 (PluginLoader.mk true "libA.so" 3 0, g1)
      = (Return [2; 1], (PluginLoader.mk true "libA.so" 1 0, g1)).
Proof.
  destruct (loadLibrary_times 1%nat 3 (PluginLoader.mk true "libA.so" 0 0, initial_globals))
    as [o [l1 g1]] eqn:Hrun.
  assert (Ho : o = Return tt) by (apply (f_equal fst) in Hrun; vm_compute in Hrun; congruence).
  subst o. exists g1.
  destruct (load_unload_symmetry 1%nat (PluginLoader.mk true "libA.so" 0 0) l1
              initial_globals g1 3)
    as (-> & Hfirst & _); [reflexivity|reflexivity|vm_compute; discriminate|exact Hrun|].
  split; [reflexivity|].
  apply (Hfirst 2%nat). lia.
Defined.

Lemma unloadLibrary_refuses_witness :
  0 < PluginLoader.plugin_ref_count_ (PluginLoader.mk false "libA.so" 1 1)
  ∧ PluginLoader.unloadLibrary 1%nat (PluginLoader.mk false "libA.so" 1 1, example_loaded_globals)
    = (Return 1,
       (PluginLoader.mk false "libA.so" 1 1,
        add_log CONSOLE_LOG_WARN PluginLoader.msg_objects_exist example_loaded_globals)).
Proof.
  split; [reflexivity|].
  apply (unloadLibrary_refuses 1%nat (PluginLoader.mk false "libA.so" 1 1) example_loaded_globals).
  reflexivity.
Defined.

Lemma createInstance_first_by_path_witness :
  registry_wf (registry (sys_globals example_world.2))
  ∧ loaders_ready example_world.1 example_world.2
  ∧ ∃ obj sys',
      MultiLibraryPluginLoader.createInstance "Animal" "Cat" (example_world.1, example_world.2)
      = (Return {| managed_get := Some obj; managed_deleter := 1%nat |},
         (example_world.1, sys')).
Proof.
  assert (Hwf : registry_wf (registry (sys_globals example_world.2)))
    by (apply (bool_decide_unpack _); vm_compute; exact I).
  assert (Hready : loaders_ready example_world.1 example_world.2)
    by (apply (bool_decide_unpack _); vm_compute; exact I).
  split; [exact Hwf|]. split; [exact Hready|].
  destruct (createInstance_first_by_path example_world.1 example_world.2 "Animal" "Cat" Hwf Hready)
    as (_ & Hhit & _).
  apply (Hhit [("libA.so", 2%nat)] "libB.so" 1%nat []).
  - vm_compute. reflexivity.
  - repeat constructor.
  - vm_compute. reflexivity.
Defined.

(** C4 as stated fails.  A host that links the plugin class [Duck] itself
    adds [libB.so] and then [libA.so] to a multi-library loader.  Both
    loaders report [Duck] available; the instance is made by the loader of
    [libA.so], added last, because its path sorts first. *)
Lemma createInstance_not_by_insertion_order :
  (MultiLibraryPluginLoader.loadLibrary "libB.so" example_fresh_world).1 = Return tt
  ∧ MultiLibraryPluginLoader.active_plugin_loaders_
      (MultiLibraryPluginLoader.loadLibrary "libB.so" example_fresh_world).2.1
    = {[ "libB.so" := 1%nat ]}
  ∧ MultiLibraryPluginLoader.active_plugin_loaders_ example_world.1 !! "libB.so" = Some 1%nat
  ∧ MultiLibraryPluginLoader.active_plugin_loaders_ example_world.1 !! "libA.so" = Some 2%nat
  ∧ reports_available "Animal" "Duck" (registry (sys_globals example_world.2)) 1%nat = true
  ∧ reports_available "Animal" "Duck" (registry (sys_globals example_world.2)) 2%nat = true
  ∧ (MultiLibraryPluginLoader.createInstance "Animal" "Duck" example_world).1
    = Return {| managed_get := Some {| obj_derived := "Duck"; obj_library := "" |};
                managed_deleter := 2%nat |}.
Proof. repeat split; vm_compute; reflexivity. Qed.

(** Why the loaders are taken loaded in the statement above: a loader that
    is not is loaded on the way, and a load that fails ends the search with
    its own exception. *)
Lemma createInstance_lazy_load_failure :
  MultiLibraryPluginLoader.active_plugin_loaders_ example_lazy_world.1
  = {[ "./does-not-exist" := 1%nat ]}
  ∧ (MultiLibraryPluginLoader.createInstance "Animal" "Dog" example_lazy_world).1
    = Throw (LibraryLoadException
               "Could not load library: ./does-not-exist: cannot open shared object file: No such file or directory").
Proof. split; vm_compute; reflexivity. Qed.

Lemma createInstance_ownership_witness :
  registry_wf (registry SpecModel.host_globals)
  ∧ impl.createInstance "Animal" "Duck" 7%nat SpecModel.host_globals
    = (Return (Some {| obj_derived := "Duck"; obj_library := "" |}),
       add_log CONSOLE_LOG_DEBUG impl.msg_created
         (add_log CONSOLE_LOG_DEBUG impl.msg_no_owner_alert SpecModel.host_globals)).
Proof.
  assert (Hwf : registry_wf (registry SpecModel.host_globals))
    by (apply (bool_decide_unpack _); vm_compute; exact I).
  split; [exact Hwf|].
  destruct (createInstance_ownership "Animal" "Duck" 7%nat _ Hwf) as (_ & Hnone & _).
  apply (Hnone (impl.new_factory_for "Duck" "Animal" "Duck" "Animal" initial_registry));
    vm_compute; reflexivity.
Defined.

Lemma registerPlugin_latest_wins_witness :
  impl.getFactoryMapForBaseClass "Animal" (registry SpecModel.host_globals) !! "Duck"
  = Some {| class_name_ := "Duck"; base_class_name_ := "Animal";
            typeid_base_ := "Animal"; typeid_derived_ := "Duck";
            associated_library_path_ := ""; associated_class_loaders_ := [nullptr] |}
  ∧ ∃ g', impl.registerPlugin "Mallard" "Animal" "Duck" "Animal" SpecModel.host_globals = (Return tt, g')
          ∧ impl.getFactoryMapForBaseClass "Animal" (registry g') !! "Duck"
            = Some {| class_name_ := "Duck"; base_class_name_ := "Animal";
                      typeid_base_ := "Animal"; typeid_derived_ := "Mallard";
                      associated_library_path_ := ""; associated_class_loaders_ := [nullptr] |}
          ∧ impl.createInstance "Animal" "Duck" nullptr g'
            = (Return (Some {| obj_derived := "Mallard"; obj_library := "" |}),
               add_log CONSOLE_LOG_DEBUG impl.msg_created g').
Proof.
  assert (H : impl.getFactoryMapForBaseClass "Animal" (registry SpecModel.host_globals) !! "Duck"
              = Some {| class_name_ := "Duck"; base_class_name_ := "Animal";
                        typeid_base_ := "Animal"; typeid_derived_ := "Duck";
                        associated_library_path_ := ""; associated_class_loaders_ := [nullptr] |})
    by (vm_compute; reflexivity).
  split; [exact H|].
  pose proof (registerPlugin_latest_wins "Mallard" "Animal" "Duck" "Animal" _ _ H) as Hthm.
  cbv zeta in Hthm. destruct Hthm as (g' & Hrun & Hnew & Hcreate & _).
  exists g'. split; [exact Hrun|]. split; [exact Hnew|exact Hcreate].
Defined.

Lemma load_failure_payload_witness :
  SharedLibrary._handle SharedLibrary.new = 0
  ∧ dlopen "./does-not-exist" (SharedLibraryImpl.realFlags 0) initial_globals
    = (Return 0, initial_globals)
  ∧ (∀ g0, ∃ g0', dlopen "./does-not-exist" (SharedLibraryImpl.realFlags 0) g0 = (Return 0, g0'))
  ∧ ∃ g2,
      PluginLoader.constructor 1%nat "./does-not-exist" false initial_globals
      = (Throw (LibraryLoadException
                  "Could not load library: ./does-not-exist: cannot open shared object file: No such file or directory"),
         g2).
Proof.
  assert (Hnever : ∀ g0, ∃ g0', dlopen "./does-not-exist" (SharedLibraryImpl.realFlags 0) g0
                                = (Return 0, g0'))
    by (intros g0; exists g0; reflexivity).
  split; [reflexivity|]. split; [vm_compute; reflexivity|]. split; [exact Hnever|].
  pose proof (load_failure_payload SpecModel.example_linker SpecModel.example_core
                (model_loads_through_shared_library SpecModel.example_linker)
                "./does-not-exist" 0 SharedLibrary.new initial_globals initial_globals 1%nat
                eq_refl eq_refl Hnever) as H.
  cbv zeta in H. destruct H as (_ & _ & _ & _ & Hconstructor).
  exact Hconstructor.
Defined.

(** C7 as stated fails: here the requested library is on disk, one it
    depends on is not, and the text of the exception names only the
    latter. *)
Lemma load_failure_payload_lacks_path :
  SharedLibraryImpl.load (linker := SpecModel.missing_dependency_linker) "./libPlugins.so" 0
    (SharedLibrary.new, initial_globals)
  = (Throw (LibraryLoadException
              "Could not load library: libbar.so.1: cannot open shared object file: No such file or directory"),
     (SharedLibrary.new, initial_globals))
  ∧ contains
      "Could not load library: libbar.so.1: cannot open shared object file: No such file or directory"
      "./libPlugins.so" = false.
Proof. split; vm_compute; reflexivity. Qed.

Lemma non_pure_flag_is_permanent_witness :
  CurrentlyActivePluginLoader
    (registry (sys_globals (MultiLibraryPluginLoader.constructor false,
                            {| sys_globals := initial_globals; sys_heap := ∅ |}).2)) = nullptr
  ∧ world_non_pure
      (Process.run [Process.MultiLoadLibrary "libA.so";
                    Process.MultiCreateInstance "Animal" "Dog";
                    Process.MultiUnloadLibrary "libA.so"]
         (Process.perform (Process.RegisterPlugin "Duck" "Animal" "Duck" "Animal")
            (MultiLibraryPluginLoader.constructor false,
             {| sys_globals := initial_globals; sys_heap := ∅ |}))) = true.
Proof.
  split; [reflexivity|].
  apply (non_pure_flag_is_permanent (core_keeps := model_keeps_non_pure SpecModel.example_disk)
           "Duck" "Animal" "Duck" "Animal"
           (MultiLibraryPluginLoader.constructor false,
            {| sys_globals := initial_globals; sys_heap := ∅ |})).
  reflexivity.
Defined.

(** ** The further properties on examples *)

Lemma registerPlugin_then_createInstance_witness :
  registry_wf (registry initial_globals)
  ∧ ∃ g'',
      impl.createInstance "Animal" "Duck" 7%nat
        (impl.registerPlugin "Duck" "Animal" "Duck" "Animal" initial_globals).2
      = (Return (Some {| obj_derived := "Duck"; obj_library := "" |}), g'').
Proof.
  assert (Hwf : registry_wf (registry initial_globals)) by apply initial_registry_wf.
  split; [exact Hwf|].
  pose proof (registerPlugin_then_createInstance "Duck" "Animal" "Duck" "Animal"
                initial_globals 7%nat Hwf) as H.
  cbv zeta in H. destruct H as [Hcreated _].
  apply Hcreated. right. reflexivity.
Defined.

Lemma factories_filed_under_their_base_witness :
  registry_wf (registry initial_globals)
  ∧ registry_wf (registry (impl.registerPlugin "Duck" "Animal" "Duck" "Animal" initial_globals).2).
Proof.
  assert (Hwf : registry_wf (registry initial_globals)) by apply initial_registry_wf.
  split; [exact Hwf|].
  pose proof (factories_filed_under_their_base "Duck" "Animal" "Duck" "Animal"
                initial_globals Hwf) as H.
  cbv zeta in H. destruct H as [Hwf' _]. exact Hwf'.
Defined.

Lemma loadLibrary_failure_counts_witness :
  PluginLoader.loadLibrary 1%nat (PluginLoader.mk false "./does-not-exist" 0 0, initial_globals)
  = (Throw (LibraryLoadException
              "Could not load library: ./does-not-exist: cannot open shared object file: No such file or directory"),
     (PluginLoader.mk false "./does-not-exist" 1 0,
      (impl.loadLibrary "./does-not-exist" 1%nat initial_globals).2)).
Proof.
  apply (loadLibrary_failure_counts 1%nat (PluginLoader.mk false "./does-not-exist" 0 0)
           initial_globals).
  - in_int_range.
  - runs_to.
Defined.

Lemma constructor_counts_witness :
  PluginLoader.constructor 1%nat "libA.so" false initial_globals
  = (Return (PluginLoader.mk false "libA.so" 1 0),
     (impl.loadLibrary "libA.so" 1%nat
        (add_log CONSOLE_LOG_DEBUG (PluginLoader.msg_constructing "libA.so") initial_globals)).2).
Proof.
  destruct (constructor_counts 1%nat "libA.so" initial_globals) as [_ Hloads].
  apply Hloads. runs_to.
Defined.

Lemma onPluginDeletion_only_counts_down_witness :
  ∃ g',
    PluginLoader.onPluginDeletion 1%nat (Some {| obj_derived := "Dog"; obj_library := "libA.so" |})
      (PluginLoader.mk false "libA.so" 1 2, example_loaded_globals)
    = (Return tt, (PluginLoader.mk false "libA.so" 1 1, g'))
    ∧ registry g' = registry example_loaded_globals.
Proof.
  apply (onPluginDeletion_only_counts_down 1%nat (PluginLoader.mk false "libA.so" 1 2)
           example_loaded_globals).
  - in_int_range.
  - left. cbn. lia.
Defined.

Lemma onPluginDeletion_underflow_witness :
  ∃ s',
    PluginLoader.onPluginDeletion 1%nat (Some {| obj_derived := "Dog"; obj_library := "libA.so" |})
      (PluginLoader.mk false "libA.so" 1 0, example_loaded_globals)
    = (Crash "Assertion failed: plugin_ref_count_ >= 0", s').
Proof.
  apply (onPluginDeletion_underflow 1%nat (PluginLoader.mk false "libA.so" 1 0)
           example_loaded_globals).
  in_int_range.
Defined.

Lemma create_release_round_trip_witness :
  ∃ obj g1 g2,
    PluginLoader.createInstance 1%nat "Animal" "Dog"
      (PluginLoader.mk false "libA.so" 1 0, example_loaded_globals)
    = (Return {| managed_get := Some obj; managed_deleter := 1%nat |},
       (PluginLoader.mk false "libA.so" 1 1, g1))
    ∧ PluginLoader.onPluginDeletion 1%nat (Some obj) (PluginLoader.mk false "libA.so" 1 1, g1)
      = (Return tt, (PluginLoader.mk false "libA.so" 1 0, g2))
    ∧ registry g2 = registry example_loaded_globals.
Proof.
  apply (create_release_round_trip 1%nat (PluginLoader.mk false "libA.so" 1 0)
           example_loaded_globals "Animal" "Dog").
  - holds_decidably.
  - holds_decidably.
  - by_computation.
  - in_int_range.
  - left. reflexivity.
Defined.

Lemma createRawInstance_failure_witness :
  ∃ g',
    PluginLoader.createRawInstance 1%nat "Animal" "Cat" true
      (PluginLoader.mk false "libA.so" 1 0, example_loaded_globals)
    = (Throw (CreateClassException (impl.msg_could_not_create "Cat")),
       (PluginLoader.mk false "libA.so" 1 0, g'))
    ∧ registry g' = registry example_loaded_globals
    ∧ has_unmananged_instance_been_created_ g'
      = has_unmananged_instance_been_created_ example_loaded_globals || negb true.
Proof.
  apply (createRawInstance_failure 1%nat (PluginLoader.mk false "libA.so" 1 0)
           example_loaded_globals "Animal" "Cat" true).
  - holds_decidably.
  - holds_decidably.
  - by_computation.
Defined.

Lemma createUnmanagedInstance_not_counted_witness :
  ∃ obj g',
    PluginLoader.createUnmanagedInstance 1%nat "Animal" "Dog"
      (PluginLoader.mk false "libA.so" 1 0, example_loaded_globals)
    = (Return (Some obj), (PluginLoader.mk false "libA.so" 1 0, g'))
    ∧ registry g' = registry example_loaded_globals
    ∧ has_unmananged_instance_been_created_ g' = true.
Proof.
  apply (createUnmanagedInstance_not_counted 1%nat (PluginLoader.mk false "libA.so" 1 0)
           example_loaded_globals "Animal" "Dog").
  - holds_decidably.
  - holds_decidably.
  - by_computation.
Defined.

Lemma unloadLibrary_count_bounds_witness :
  let l := PluginLoader.mk false "libA.so" 3 0 in
  let l' := (PluginLoader.unloadLibrary 1%nat (l, example_loaded_globals)).2.1 in
  0 ≤ PluginLoader.load_ref_count_ l' ≤ PluginLoader.load_ref_count_ l
  ∧ PluginLoader.load_ref_count_ l - 1 ≤ PluginLoader.load_ref_count_ l'
  ∧ PluginLoader.plugin_ref_count_ l' = PluginLoader.plugin_ref_count_ l
  ∧ PluginLoader.library_path_ l' = PluginLoader.library_path_ l
  ∧ PluginLoader.ondemand_load_unload_ l' = PluginLoader.ondemand_load_unload_ l.
Proof.
  apply (unloadLibrary_count_bounds 1%nat (PluginLoader.mk false "libA.so" 3 0)
           example_loaded_globals).
  in_int_range.
Defined.

Lemma last_release_unloads_on_demand_witness :
  PluginLoader.onPluginDeletion 1%nat (Some {| obj_derived := "Dog"; obj_library := "libA.so" |})
    (PluginLoader.mk true "libA.so" 1 1, example_loaded_globals)
  = (Return tt,
     (PluginLoader.mk true "libA.so" 0 0,
      (impl.unloadLibrary "libA.so" 1%nat
         (add_log CONSOLE_LOG_DEBUG PluginLoader.msg_on_deletion example_loaded_globals)).2)).
Proof.
  pose proof (last_release_unloads_on_demand 1%nat (PluginLoader.mk true "libA.so" 1 1)
                example_loaded_globals {| obj_derived := "Dog"; obj_library := "libA.so" |}
                eq_refl eq_refl eq_refl) as H.
  cbv zeta in H. destruct H as [Hlast _].
  apply Hlast; [reflexivity|runs_to].
Defined.

Lemma multi_loadLibrary_registers_witness :
  ∃ ml' sys',
    MultiLibraryPluginLoader.loadLibrary "libB.so" example_fresh_world = (Return tt, (ml', sys'))
    ∧ MultiLibraryPluginLoader.isLibraryAvailable "libB.so" (ml', sys') = (Return true, (ml', sys'))
    ∧ MultiLibraryPluginLoader.loadLibrary "libB.so" (ml', sys') = (Return tt, (ml', sys')).
Proof.
  destruct (MultiLibraryPluginLoader.loadLibrary "libB.so" example_fresh_world)
    as [o [ml' sys']] eqn:Hrun.
  assert (Ho : o = Return tt) by (apply (f_equal fst) in Hrun; vm_compute in Hrun; congruence).
  subst o. exists ml', sys'. split; [reflexivity|].
  pose proof (multi_loadLibrary_registers example_fresh_world.1 example_fresh_world.2 ml' sys'
                "libB.so" Hrun) as H.
  cbv zeta in H. destruct H as (_ & _ & _ & Havailable & Hagain).
  split; assumption.
Defined.

Lemma multi_unloadLibrary_result_witness :
  ∃ ml' sys',
    MultiLibraryPluginLoader.unloadLibrary "libA.so" (example_world.1, example_world.2)
    = (Return 0, (ml', sys'))
    ∧ MultiLibraryPluginLoader.active_plugin_loaders_ ml'
      = delete "libA.so" (MultiLibraryPluginLoader.active_plugin_loaders_ example_world.1)
    ∧ sys_heap sys' !! 2%nat = None.
Proof.
  destruct (MultiLibraryPluginLoader.unloadLibrary "libA.so" (example_world.1, example_world.2))
    as [o [ml' sys']] eqn:Hrun.
  assert (Ho : o = Return 0) by (apply (f_equal fst) in Hrun; vm_compute in Hrun; congruence).
  subst o. exists ml', sys'. split; [reflexivity|].
  pose proof (multi_unloadLibrary_result example_world.1 example_world.2 ml' sys'
                "libA.so" 0 Hrun) as H.
  cbv zeta in H. destruct H as [Hzero _].
  destruct (Hzero eq_refl) as [Hmap Hheap].
  split; [exact Hmap|]. apply Hheap. by_computation.
Defined.

Lemma multi_unloadLibrary_refused_witness :
  MultiLibraryPluginLoader.unloadLibrary "libA.so" (example_busy_world.1, example_busy_world.2)
  = (Return 1,
     (example_busy_world.1,
      {| sys_globals := add_log CONSOLE_LOG_WARN PluginLoader.msg_objects_exist
                          (sys_globals example_busy_world.2);
         sys_heap := sys_heap example_busy_world.2 |})).
Proof.
  apply (multi_unloadLibrary_refused example_busy_world.1 example_busy_world.2 "libA.so" 1%nat
           (PluginLoader.mk false "libA.so" 1 1)).
  - by_computation.
  - by_computation.
  - cbn. lia.
  - cbn. lia.
Defined.

Lemma multi_unloadLibrary_last_witness :
  MultiLibraryPluginLoader.unloadLibrary "libA.so" (example_world.1, example_world.2)
  = (Return 0,
     ({| MultiLibraryPluginLoader.enable_ondemand_loadunload_ :=
           MultiLibraryPluginLoader.enable_ondemand_loadunload_ example_world.1;
         MultiLibraryPluginLoader.active_plugin_loaders_ :=
           delete "libA.so" (MultiLibraryPluginLoader.active_plugin_loaders_ example_world.1) |},
      {| sys_globals :=
           add_log CONSOLE_LOG_DEBUG PluginLoader.msg_destroying
             (impl.unloadLibrary "libA.so" 2%nat (sys_globals example_world.2)).2;
         sys_heap := delete 2%nat (sys_heap example_world.2) |})).
Proof.
  assert (Hp : MultiLibraryPluginLoader.active_plugin_loaders_ example_world.1 !! "libA.so"
               = Some 2%nat) by by_computation.
  assert (Hl : sys_heap example_world.2 !! 2%nat = Some (PluginLoader.mk false "libA.so" 1 0))
    by by_computation.
  pose proof (multi_unloadLibrary_last example_world.1 example_world.2 "libA.so" 2%nat
                (PluginLoader.mk false "libA.so" 1 0) Hp Hl) as H.
  cbv zeta in H. destruct H as [Hone _]; [cbn; lia|].
  assert (Hun : impl.unloadLibrary "libA.so" 2%nat (sys_globals example_world.2)
                = (Return tt, (impl.unloadLibrary "libA.so" 2%nat (sys_globals example_world.2)).2))
    by runs_to.
  exact (Hone eq_refl _ Hun).
Defined.

Lemma multi_getAvailableClasses_all_witness :
  MultiLibraryPluginLoader.getAvailableClasses "Animal" (example_world.1, example_world.2)
  = (Return ["Dog"; "Duck"; "Cat"; "Duck"], (example_world.1, example_world.2)).
Proof.
  assert (Hlive : map_Forall (λ (_ : string) p, is_Some (sys_heap example_world.2 !! p))
                    (MultiLibraryPluginLoader.active_plugin_loaders_ example_world.1))
    by holds_decidably.
  pose proof (multi_getAvailableClasses_all example_world.1 example_world.2 "Animal" Hlive) as H.
  cbv zeta in H. destruct H as [Hrun _].
  etransitivity; [exact Hrun|].
  apply (f_equal (λ classes, (Return classes, (example_world.1, example_world.2)))).
  by_computation.
Defined.

Lemma multi_isClassAvailable_decides_witness :
  ∃ available,
    MultiLibraryPluginLoader.isClassAvailable "Animal" "Cat" (example_world.1, example_world.2)
    = (Return available, (example_world.1, example_world.2))
    ∧ (available = true →
       ∃ obj library_path p sys',
         MultiLibraryPluginLoader.createInstance "Animal" "Cat" (example_world.1, example_world.2)
         = (Return {| managed_get := Some obj; managed_deleter := p |}, (example_world.1, sys'))
         ∧ MultiLibraryPluginLoader.active_plugin_loaders_ example_world.1 !! library_path = Some p
         ∧ reports_available "Animal" "Cat" (registry (sys_globals example_world.2)) p = true)
    ∧ (available = false →
       ∃ sys',
         MultiLibraryPluginLoader.createInstance "Animal" "Cat" (example_world.1, example_world.2)
         = (Throw (CreateClassException (MultiLibraryPluginLoader.msg_no_factory "Cat")),
            (example_world.1, sys'))).
Proof.
  apply (multi_isClassAvailable_decides example_world.1 example_world.2 "Animal" "Cat").
  - holds_decidably.
  - holds_decidably.
Defined.

Lemma createInstance_in_named_loader_witness :
  ∃ obj g',
    MultiLibraryPluginLoader.createInstance_in "Animal" "Duck" "libB.so"
      (example_world.1, example_world.2)
    = (Return {| managed_get := Some obj; managed_deleter := 1%nat |},
       (example_world.1,
        {| sys_globals := g';
           sys_heap := <[1%nat := PluginLoader.mk false "libB.so" 1 1]> (sys_heap example_world.2) |}))
    ∧ registry g' = registry (sys_globals example_world.2).
Proof.
  assert (Hwf : registry_wf (registry (sys_globals example_world.2))) by holds_decidably.
  pose proof (createInstance_in_named_loader example_world.1 example_world.2
                "Animal" "Duck" "libB.so" Hwf) as H.
  cbv zeta in H. destruct H as [_ Hnamed].
  apply (Hnamed 1%nat (PluginLoader.mk false "libB.so" 1 0)).
  - by_computation.
  - discriminate.
  - by_computation.
  - by_computation.
  - holds_decidably.
  - in_int_range.
Defined.

Lemma getAvailableClassesForLibrary_covers_witness :
  MultiLibraryPluginLoader.getAvailableClassesForLibrary "Animal" "libB.so"
    (example_world.1, example_world.2)
  = (Return ["Cat"; "Duck"], (example_world.1, example_world.2)).
Proof.
  assert (Hlive : map_Forall (λ (_ : string) p,
                                p ≠ nullptr ∧ is_Some (sys_heap example_world.2 !! p))
                    (MultiLibraryPluginLoader.active_plugin_loaders_ example_world.1))
    by holds_decidably.
  destruct (getAvailableClassesForLibrary_covers example_world.1 example_world.2 "Animal" Hlive)
    as (_ & Hhit & _).
  etransitivity; [apply (Hhit "libB.so" 1%nat); by_computation|].
  apply (f_equal (λ classes, (Return classes, (example_world.1, example_world.2)))).
  by_computation.
Defined.


Lemma shutdown_keeps_loaders_in_use_witness :
  ∃ g',
    MultiLibraryPluginLoader.shutdownAllPluginLoaders (example_busy_world.1, example_busy_world.2)
    = (Return tt,
       (example_busy_world.1, {| sys_globals := g'; sys_heap := sys_heap example_busy_world.2 |}))
    ∧ MultiLibraryPluginLoader.destructor (example_busy_world.1, example_busy_world.2)
      = (Return tt,
         (example_busy_world.1, {| sys_globals := g'; sys_heap := sys_heap example_busy_world.2 |}))
    ∧ registry g' = registry (sys_globals example_busy_world.2)
    ∧ has_unmananged_instance_been_created_ g'
      = has_unmananged_instance_been_created_ (sys_globals example_busy_world.2).
Proof.
  apply (shutdown_keeps_loaders_in_use example_busy_world.1 example_busy_world.2).
  assert (Hmap : MultiLibraryPluginLoader.active_plugin_loaders_ example_busy_world.1
                 = {[ "libA.so" := 1%nat ]}) by by_computation.
  rewrite Hmap. apply map_Forall_singleton.
  exists (PluginLoader.mk false "libA.so" 1 1).
  split; [by_computation|]. cbn. lia.
Defined.

Lemma failed_search_leaves_library_loaded_witness :
  MultiLibraryPluginLoader.createInstance "Animal" "Cat"
    (example_lazy_libA_world.1, example_lazy_libA_world.2)
  = (Throw (CreateClassException (MultiLibraryPluginLoader.msg_no_factory "Cat")),
     (example_lazy_libA_world.1,
      {| sys_globals :=
           (impl.loadLibrary "libA.so" 1%nat
              (add_log CONSOLE_LOG_DEBUG (MultiLibraryPluginLoader.msg_attempting "Cat")
                 (sys_globals example_lazy_libA_world.2))).2;
         sys_heap := <[1%nat := PluginLoader.mk true "libA.so" 1 0]>
                       (sys_heap example_lazy_libA_world.2) |})).
Proof.
  apply (failed_search_leaves_library_loaded example_lazy_libA_world.1 example_lazy_libA_world.2
           "Animal" "Cat" "libA.so" 1%nat (PluginLoader.mk true "libA.so" 0 0)).
  - by_computation.
  - by_computation.
  - in_int_range.
  - by_computation.
  - runs_to.
  - holds_decidably.
Defined.

Lemma load_then_loaded_witness :
  SharedLibraryImpl.load "libA.so" 0 (SharedLibrary.new, initial_globals)
  = (Return tt,
     ({| SharedLibrary._handle := 1; SharedLibrary._path := "libA.so" |},
      (dlopen "libA.so" (SharedLibraryImpl.realFlags 0) initial_globals).2)).
Proof.
  pose proof (load_then_loaded "libA.so" 0 SharedLibrary.new initial_globals 1
                (dlopen "libA.so" (SharedLibraryImpl.realFlags 0) initial_globals).2
                eq_refl) as H.
  cbv zeta in H. destruct H as [Hrun _]; [runs_to|discriminate|].
  exact Hrun.
Defined.

Lemma unload_once_witness :
  SharedLibraryImpl.unload
    ({| SharedLibrary._handle := 1; SharedLibrary._path := "libA.so" |}, initial_globals)
  = (Return tt,
     ({| SharedLibrary._handle := 0; SharedLibrary._path := "libA.so" |}, initial_globals)).
Proof.
  pose proof (unload_once {| SharedLibrary._handle := 1; SharedLibrary._path := "libA.so" |}
                initial_globals initial_globals) as H.
  cbv zeta in H. destruct H as [Hrun _]; [reflexivity|discriminate|].
  exact Hrun.
Defined.
